(** * HumanSign: keystroke-dynamics capture and verification pipeline

  A shallow embedding of the browser extension's background service worker
  ([client/src/background/index.ts]), of the content-script keystroke
  tracker ([client/src/content/keystroke-tracker.ts]), of the hashing and
  signing helpers ([client/src/crypto]) and of the decoder page's signature
  check ([web/src/app/decoder/page.tsx]).

  Modelling conventions.
  - A JavaScript [number] is a rational ([Q]).  Every number the modelled
    code handles is a counter, a length, a key code or a finite
    [performance.now()] reading; the comparisons the code makes on ratios
    of counters ([> 0.1], [> 0.5], [>= 0.9]) agree with exact arithmetic for
    every counter below 2^50.  NaN and the infinities are not modelled.
    A quotient, a difference or an average is exact in [Q] where a double
    is rounded: counts, orderings, bounds and the outcome of the threshold
    comparisons carry over to the code, an equation between two computed
    values that are not integers is one of the model only.
  - An [Action] is one call of a capture handler.  A DOM event runs its
    handler once for every listener it reaches ([Page]); a message of the
    tracker is handled by the worker ([Pipeline.deliver]) or gets no
    response and is lost ([Channel]).
  - [async] handlers whose awaited calls only persist the state or talk to
    the remote API are functions on the state; the outcome of a remote call
    (resolved or rejected) is an explicit argument where the code branches
    on it.
  - WebCrypto ([crypto.subtle]), [TextEncoder] and [btoa]/[atob] are the
    operations of an interface, [WebCrypto]; what the code relies on is
    stated as laws of that interface, and a symbolic platform that satisfies
    them is given. *)

From Stdlib Require Import ZArith QArith Qround Qminmax Lia Bool.
From Stdlib Require Import Ascii String DecimalString Sorted.
From Stdlib Require DecimalPos DecimalZ.
From stdpp Require Import base list list_numbers.

Local Open Scope Q_scope.

#[local] Set Warnings "-register-all".

(** ** JavaScript built-ins used by the code *)

Module JS.

Definition number := Q.

(** [Math.floor] and [Math.round]: the latter rounds halves up. *)
Definition Math_floor (x : number) : Z := Qfloor x.
Definition Math_round (x : number) : Z := Qfloor (x + (1 # 2)).

Definition Math_min (x y : number) : number := Qmin x y.
Definition Math_max (x y : number) : number := Qmax x y.

(** Strict and large comparisons as booleans. *)
Definition ge (x y : number) : bool := Qle_bool y x.
Definition gt (x y : number) : bool := negb (Qle_bool x y).
Definition lt (x y : number) : bool := gt y x.

End JS.

(** ** [JSON.stringify] on the values the code serialises

    Strings are sequences of 8-bit code units; numbers are the integers the
    code produces with [Math.round], counters and lengths (printed in
    decimal, as [JSON.stringify] does below 1e21). *)

Module Json.

Local Open Scope string_scope.

Inductive value : Type :=
| Null
| Bool (b : bool)
| Num (z : Z)
| Str (s : string)
| Arr (items : list value)
| Obj (members : list (string * value)).

Definition hex_digit (n : N) : ascii :=
  if (n <? 10)%N then ascii_of_N (48 + n) else ascii_of_N (87 + n).

Definition backslash : ascii := "092"%char.
Definition dquote : ascii := "034"%char.

(** The two-character escapes, the [\u00XX] escapes of the other control
    characters, and every other code unit as it is. *)
Definition escape_char (c : ascii) : string :=
  let n := N_of_ascii c in
  if (n =? 34)%N then String backslash (String dquote EmptyString)
  else if (n =? 92)%N then String backslash (String backslash EmptyString)
  else if (n =? 8)%N then String backslash "b"
  else if (n =? 12)%N then String backslash "f"
  else if (n =? 10)%N then String backslash "n"
  else if (n =? 13)%N then String backslash "r"
  else if (n =? 9)%N then String backslash "t"
  else if (n <? 32)%N then
    String backslash
      (String "u" (String "0" (String "0"
        (String (hex_digit (n / 16)) (String (hex_digit (n mod 16)) EmptyString)))))
  else String c EmptyString.

Fixpoint escape (s : string) : string :=
  match s with
  | EmptyString => EmptyString
  | String c rest => escape_char c ++ escape rest
  end.

Definition quote (s : string) : string :=
  String dquote (escape s ++ String dquote EmptyString).

Definition number_to_string (z : Z) : string :=
  DecimalString.NilZero.string_of_int (Z.to_int z).

Definition join_with_commas (parts : list string) : string :=
  String.concat "," parts.

Fixpoint stringify (v : value) : string :=
  match v with
  | Null => "null"
  | Bool true => "true"
  | Bool false => "false"
  | Num z => number_to_string z
  | Str s => quote s
  | Arr items =>
      "[" ++ join_with_commas (List.map stringify items) ++ "]"
  | Obj members =>
      "{" ++ join_with_commas
               (List.map (fun kv => quote (fst kv) ++ ":" ++ stringify (snd kv))
                         members) ++ "}"
  end.

End Json.

(** ** Event types ([client/src/types], as the tracker fills them) *)

Module Types.

Import JS.

(** [event_type]: the two keyboard kinds, and the two marker kinds the
    tracker adds for a clipboard paste and for an assistant insertion. *)
Inductive EventType : Type := keydown | keyup | paste | ai_assistant.

Inductive InputMethod : Type := method_paste | method_ai_assistant.

Record KeystrokeEvent : Type := {
  event_type : EventType;
  key_code : Z;
  key_char : option string;
  client_timestamp : number;
  input_method : option InputMethod
}.

Record PasteEvent : Type := {
  pasted_length : Z;
  paste_timestamp : number
}.

Definition EventType_eqb (a b : EventType) : bool :=
  match a, b with
  | keydown, keydown | keyup, keyup | paste, paste
  | ai_assistant, ai_assistant => true
  | _, _ => false
  end.

Definition is_ai_method (m : option InputMethod) : bool :=
  match m with Some method_ai_assistant => true | _ => false end.

(** Truthiness of a [string | null] and of a number. *)
Definition truthy_string (s : option string) : bool :=
  match s with Some (String _ _) => true | _ => false end.

Definition truthy_number (x : number) : bool := negb (Qeq_bool x 0).

Definition EventType_name (t : EventType) : string :=
  match t with
  | keydown => "keydown"
  | keyup => "keyup"
  | paste => "paste"
  | ai_assistant => "ai_assistant"
  end.

End Types.

(** ** Background service worker: histograms *)

Module Histogram.

Import JS.

(** [histogram[binIndex]++].  An index outside the array (only possible
    when [bins = 0]) leaves every element as it is. *)
Definition bump (binIndex : Z) (histogram : list nat) : list nat :=
  if (binIndex <? 0)%Z then histogram
  else alter S (Z.to_nat binIndex) histogram.

Definition binIndex_of (bins : nat) (min binSize v : number) : Z :=
  Z.min (Z.of_nat bins - 1) (Z.max 0 (Math_floor ((v - min) / binSize))).

(** [createHistogram(values, bins, min, max)].  The code calls it with
    [bins = 10] and [max > min]; a zero [binSize] is outside the model. *)
Definition createHistogram (values : list number) (bins : nat)
    (min max : number) : list nat :=
  let binSize := (max - min) / inject_Z (Z.of_nat bins) in
  fold_left (fun histogram v => bump (binIndex_of bins min binSize v) histogram)
            values (replicate bins 0%nat).

(** The bucket a sample belongs to, as the report format describes it:
    ten buckets of equal [width] starting at 0, the first one extended
    below 0 and the last one extended above the range. *)
Definition in_bucket (width : number) (i : nat) (v : number) : bool :=
  match i with
  | 0%nat => lt v width
  | 9%nat => ge v (9 * width)
  | _ => ge v (inject_Z (Z.of_nat i) * width)
         && lt v (inject_Z (Z.of_nat i + 1) * width)
  end.

Definition count_in (width : number) (i : nat) (vs : list number) : nat :=
  length (filter (fun v => in_bucket width i v = true) vs).

End Histogram.

(** ** Background service worker ([client/src/background/index.ts]) *)

Module Background.

Import JS Types.

Record Verification : Type := {
  class_label : string;
  verdict : option string;
  confidence : number;
  is_human : bool
}.

Record SessionState : Type := {
  sessionId : option string;
  domain : option string;
  keystrokes : list KeystrokeEvent;
  pasteEvents : list PasteEvent;
  totalTypedChars : Z;
  totalPastedChars : Z;
  totalAiChars : Z;
  startTime : option number;
  isRecording : bool;
  signatureCount : Z;
  lastVerification : option Verification
}.

(** [const state: SessionState = { ... }]. *)
Definition state : SessionState := {|
  sessionId := None; domain := None; keystrokes := []; pasteEvents := [];
  totalTypedChars := 0; totalPastedChars := 0; totalAiChars := 0;
  startTime := None; isRecording := false; signatureCount := 0;
  lastVerification := None
|}.

(** What a handler reads from outside the state: the outcome of the remote
    [startSession] call ([None] when it rejects), a fresh UUID and the
    clock. *)
Record Env : Type := {
  api_startSession : option string;
  randomUUID : string;
  Date_now : number
}.

Definition ratio (part total : Z) : number := inject_Z part / inject_Z total.

(** *** [calculateStats] *)

Definition is_matching_keyup (e e' : KeystrokeEvent) : bool :=
  EventType_eqb (event_type e') keyup && (key_code e' =? key_code e)%Z.

(** The loop over [events]: dwell and flight times, in the order they are
    pushed. *)
Fixpoint timings (lastKeyup : number) (events : list KeystrokeEvent)
  : list number * list number :=
  match events with
  | [] => ([], [])
  | e :: rest =>
      match event_type e with
      | keydown =>
          let dwell :=
            match List.find (is_matching_keyup e) rest with
            | Some e' => [client_timestamp e' - client_timestamp e]
            | None => []
            end in
          let flight :=
            if gt lastKeyup 0 then [client_timestamp e - lastKeyup] else [] in
          let '(ds, fs) := timings lastKeyup rest in
          (dwell ++ ds, flight ++ fs)
      | keyup => timings (client_timestamp e) rest
      | _ => timings lastKeyup rest
      end
  end.

Definition sum (xs : list number) : number := fold_left Qplus xs 0.

Definition average (xs : list number) : number :=
  if (0 <? Z.of_nat (length xs))%Z then sum xs / inject_Z (Z.of_nat (length xs))
  else 0.

Definition or_label (v : option Verification) (default : string) : string :=
  match v with
  | Some r => match class_label r with
              | EmptyString => default
              | l => l
              end
  | None => default
  end.

Definition or_confidence (v : option Verification) (default : number) : number :=
  match v with
  | Some r => if truthy_number (confidence r) then confidence r else default
  | None => default
  end.

Definition or_is_human (v : option Verification) : bool :=
  match v with Some r => is_human r | None => false end.

Module Stats.
Record t : Type := {
  keystrokeCount : Z;
  avgDwell : number;
  avgFlight : number;
  wpm : number;
  dwellTimes : list number;
  flightTimes : list number;
  totalTypedChars : Z;
  totalPastedChars : Z;
  totalAiChars : Z;
  pasteRatio : number;
  aiRatio : number;
  pasteCount : Z;
  currentVerdict : string;
  currentConfidence : number
}.
End Stats.

(** The real-time verdict of [calculateStats]. *)
Definition currentVerdict_of (s : SessionState) (keystrokeCount : Z)
  : string * number :=
  let totalForeignChars := (totalPastedChars s + totalAiChars s)%Z in
  let totalChars := (totalTypedChars s + totalForeignChars)%Z in
  if (totalChars =? 0)%Z && (keystrokeCount =? 0)%Z then
    ("waiting"%string, 0)
  else if (totalChars <? 20)%Z then
    ("waiting"%string, Math_min (inject_Z totalChars / 20) (9 # 10))
  else
    let pctHuman := ratio (totalTypedChars s) totalChars in
    let pctPaste := ratio (totalPastedChars s) totalChars in
    let pctAi := ratio (totalAiChars s) totalChars in
    if gt pctPaste (1 # 10) then
      ((if gt pctPaste (5 # 10) then "paste" else "paste_detected")%string,
       Math_min ((5 # 10) + pctPaste * (5 # 10)) (99 # 100))
    else if gt pctAi (1 # 10) then
      ("ai_assisted"%string, Math_min ((5 # 10) + pctAi * (5 # 10)) (99 # 100))
    else if ge pctHuman (9 # 10) then
      ("human_organic"%string,
       Math_min ((7 # 10) + pctHuman * (3 # 10)) (99 # 100))
    else
      (or_label (lastVerification s) "unknown",
       or_confidence (lastVerification s) (5 # 10)).

Definition calculateStats (now : number) (s : SessionState) : Stats.t :=
  let events := keystrokes s in
  let keystrokeCount :=
    Z.of_nat (length (List.filter
                (fun e => EventType_eqb (event_type e) keydown) events)) in
  let '(dwellTimes, flightTimes) := timings 0 events in
  let duration :=
    match startTime s with
    | Some t => if truthy_number t then (now - t) / 1000 / 60 else 0
    | None => 0
    end in
  let wpm :=
    if gt duration 0 then inject_Z keystrokeCount / 5 / duration else 0 in
  let totalForeignChars := (totalPastedChars s + totalAiChars s)%Z in
  let totalChars := (totalTypedChars s + totalForeignChars)%Z in
  let pasteRatio :=
    if (0 <? totalChars)%Z then ratio (totalPastedChars s) totalChars else 0 in
  let aiRatio :=
    if (0 <? totalChars)%Z then ratio (totalAiChars s) totalChars else 0 in
  let '(currentVerdict, currentConfidence) := currentVerdict_of s keystrokeCount in
  {| Stats.keystrokeCount := keystrokeCount;
     Stats.avgDwell := average dwellTimes;
     Stats.avgFlight := average flightTimes;
     Stats.wpm := wpm;
     Stats.dwellTimes := dwellTimes;
     Stats.flightTimes := flightTimes;
     Stats.totalTypedChars := totalTypedChars s;
     Stats.totalPastedChars := totalPastedChars s;
     Stats.totalAiChars := totalAiChars s;
     Stats.pasteRatio := pasteRatio;
     Stats.aiRatio := aiRatio;
     Stats.pasteCount := Z.of_nat (length (pasteEvents s));
     Stats.currentVerdict := currentVerdict;
     Stats.currentConfidence := currentConfidence |}.

(** *** State updates *)

Definition with_ledger (typed pasted ai : Z) (s : SessionState) : SessionState :=
  {| sessionId := sessionId s; domain := domain s;
     keystrokes := keystrokes s; pasteEvents := pasteEvents s;
     totalTypedChars := typed; totalPastedChars := pasted; totalAiChars := ai;
     startTime := startTime s; isRecording := isRecording s;
     signatureCount := signatureCount s;
     lastVerification := lastVerification s |}.

Definition with_lastVerification (v : option Verification) (s : SessionState)
  : SessionState :=
  {| sessionId := sessionId s; domain := domain s;
     keystrokes := keystrokes s; pasteEvents := pasteEvents s;
     totalTypedChars := totalTypedChars s;
     totalPastedChars := totalPastedChars s; totalAiChars := totalAiChars s;
     startTime := startTime s; isRecording := isRecording s;
     signatureCount := signatureCount s;
     lastVerification := v |}.

Definition with_isRecording (b : bool) (s : SessionState) : SessionState :=
  {| sessionId := sessionId s; domain := domain s;
     keystrokes := keystrokes s; pasteEvents := pasteEvents s;
     totalTypedChars := totalTypedChars s;
     totalPastedChars := totalPastedChars s; totalAiChars := totalAiChars s;
     startTime := startTime s; isRecording := b;
     signatureCount := signatureCount s;
     lastVerification := lastVerification s |}.

Definition with_events (ks : list KeystrokeEvent) (ps : list PasteEvent)
    (s : SessionState) : SessionState :=
  {| sessionId := sessionId s; domain := domain s;
     keystrokes := ks; pasteEvents := ps;
     totalTypedChars := totalTypedChars s;
     totalPastedChars := totalPastedChars s; totalAiChars := totalAiChars s;
     startTime := startTime s; isRecording := isRecording s;
     signatureCount := signatureCount s;
     lastVerification := lastVerification s |}.

(** *** [handleMessage]: START_SESSION, END_SESSION, STOP_RECORDING *)

(** Both arms of the [try]/[catch] make the same assignments; only the
    session id differs.  [totalAiChars], [signatureCount] and
    [lastVerification] are not assigned. *)
Definition handle_START_SESSION (env : Env) (payload_domain : string)
    (s : SessionState) : SessionState :=
  match api_startSession env with
  | Some session_id =>
      {| sessionId := Some session_id; domain := Some payload_domain;
         startTime := Some (Date_now env); isRecording := true;
         keystrokes := []; pasteEvents := [];
         totalTypedChars := 0; totalPastedChars := 0;
         totalAiChars := totalAiChars s;
         signatureCount := signatureCount s;
         lastVerification := lastVerification s |}
  | None =>
      {| sessionId := Some (randomUUID env); domain := Some payload_domain;
         startTime := Some (Date_now env); isRecording := true;
         keystrokes := []; pasteEvents := [];
         totalTypedChars := 0; totalPastedChars := 0;
         totalAiChars := totalAiChars s;
         signatureCount := signatureCount s;
         lastVerification := lastVerification s |}
  end.

Definition handle_END_SESSION (s : SessionState) : SessionState :=
  with_isRecording false s.

Definition handle_STOP_RECORDING (s : SessionState) : SessionState :=
  with_isRecording false s.

(** *** [handleMessage]: KEYSTROKE_BATCH *)

(** The body of [batch.events.forEach]. *)
Definition count_event (s : SessionState) (e : KeystrokeEvent) : SessionState :=
  if EventType_eqb (event_type e) keydown
     && truthy_string (key_char e)
     && negb (is_ai_method (input_method e))
  then with_ledger (totalTypedChars s + 1) (totalPastedChars s) (totalAiChars s) s
  else if EventType_eqb (event_type e) ai_assistant then
    let aiChars := if (key_code e =? 0)%Z then 1%Z else key_code e in
    with_ledger (totalTypedChars s) (totalPastedChars s)
                (totalAiChars s + aiChars) s
  else s.

(** The real-time verdict kept in [state.lastVerification]. *)
Definition live_verdict (s : SessionState) : SessionState :=
  let totalForeign := (totalPastedChars s + totalAiChars s)%Z in
  let totalChars := (totalTypedChars s + totalForeign)%Z in
  if (0 <? totalChars)%Z then
    let pctHuman := ratio (totalTypedChars s) totalChars in
    let pctPaste := ratio (totalPastedChars s) totalChars in
    let pctAI := ratio (totalAiChars s) totalChars in
    if gt pctPaste (1 # 10) then
      with_lastVerification
        (Some {| class_label :=
                   (if gt pctPaste (5 # 10) then "paste" else "paste_detected")%string;
                 verdict := Some "paste_detected"%string;
                 confidence := pctPaste; is_human := false |}) s
    else if gt pctAI (1 # 10) then
      with_lastVerification
        (Some {| class_label := "ai_assisted"; verdict := Some "ai_assisted"%string;
                 confidence := pctAI; is_human := false |}) s
    else if ge pctHuman (9 # 10) then
      with_lastVerification
        (Some {| class_label := "human_organic";
                 verdict := Some "human_verified"%string;
                 confidence := pctHuman; is_human := true |}) s
    else s
  else s.

Definition handle_KEYSTROKE_BATCH (events : list KeystrokeEvent)
    (s : SessionState) : SessionState :=
  let s1 := with_events (keystrokes s ++ events) (pasteEvents s) s in
  let s2 := fold_left count_event events s1 in
  live_verdict s2.

(** *** [handleMessage]: PASTE_EVENT *)

Definition handle_PASTE_EVENT (event : PasteEvent) (s : SessionState)
  : SessionState :=
  let s1 := with_events (keystrokes s) (pasteEvents s ++ [event]) s in
  let s2 := with_ledger (totalTypedChars s1)
                        (totalPastedChars s1 + pasted_length event)
                        (totalAiChars s1) s1 in
  let totalForeign := (totalPastedChars s2 + totalAiChars s2)%Z in
  let totalChars := (totalTypedChars s2 + totalForeign)%Z in
  if (0 <? totalChars)%Z then
    let pctPaste := ratio (totalPastedChars s2) totalChars in
    if gt pctPaste (1 # 10) then
      with_lastVerification
        (Some {| class_label :=
                   (if gt pctPaste (5 # 10) then "paste" else "paste_detected")%string;
                 verdict := Some "paste_detected"%string;
                 confidence := Math_min ((5 # 10) + pctPaste * (5 # 10)) (99 # 100);
                 is_human := false |}) s2
    else s2
  else s2.

(** *** [handleMessage]: VERIFY_SESSION *)

(** What the remote verification resolves with. *)
Record RemoteResult : Type := {
  remote_verdict : string;
  remote_confidence_score : number;
  remote_is_human : bool
}.

Module LocalResult.
Record t : Type := {
  is_human : bool;
  confidence_score : number;
  class_label : string;
  paste_detected : bool;
  paste_ratio : number;
  paste_count : Z
}.
End LocalResult.

(** The [catch] arm: local verification from the statistics alone. *)
Definition local_verification (stats : Stats.t) : LocalResult.t :=
  let isPasteDetected := gt (Stats.pasteRatio stats) (1 # 10) in
  let isAiDetected := gt (Stats.aiRatio stats) (1 # 10) in
  let hasSignificantPaste := (50 <? Stats.totalPastedChars stats)%Z in
  let hasSignificantAi := (50 <? Stats.totalAiChars stats)%Z in
  let hasNormalDwell :=
    gt (Stats.avgDwell stats) 30 && lt (Stats.avgDwell stats) 500 in
  let hasNormalFlight :=
    gt (Stats.avgFlight stats) 50 && lt (Stats.avgFlight stats) 1000 in
  let hasReasonableWpm := gt (Stats.wpm stats) 5 && lt (Stats.wpm stats) 150 in
  let hasEnoughKeystrokes := (20 <? Stats.keystrokeCount stats)%Z in
  let '(classLabel, isHuman, confidence) :=
    if isPasteDetected || hasSignificantPaste then
      ((if gt (Stats.pasteRatio stats) (5 # 10)
        then "paste" else "paste_detected")%string,
       false,
       Math_min (99 # 100) ((5 # 10) + Stats.pasteRatio stats * (5 # 10)))
    else if isAiDetected || hasSignificantAi then
      ("ai_assisted"%string, false,
       Math_min (99 # 100) ((5 # 10) + Stats.aiRatio stats * (5 # 10)))
    else if hasEnoughKeystrokes && hasNormalDwell && hasNormalFlight
            && hasReasonableWpm then
      let dwellScore := if hasNormalDwell then 3 # 10 else 0 in
      let flightScore := if hasNormalFlight then 3 # 10 else 0 in
      let wpmScore := if hasReasonableWpm then 2 # 10 else 0 in
      let volumeScore :=
        Math_min (2 # 10) (inject_Z (Stats.keystrokeCount stats) / 500) in
      ("human_organic"%string, true,
       dwellScore + flightScore + wpmScore + volumeScore)
    else
      ("unknown"%string, false, 3 # 10) in
  {| LocalResult.is_human := isHuman;
     LocalResult.confidence_score := confidence;
     LocalResult.class_label := classLabel;
     LocalResult.paste_detected := isPasteDetected || hasSignificantPaste;
     LocalResult.paste_ratio := Stats.pasteRatio stats;
     LocalResult.paste_count := Stats.pasteCount stats |}.

Inductive VerifyResponse : Type :=
| NoActiveSession
| FromServer (r : RemoteResult)
| LocalFallback (l : LocalResult.t).

Definition first_truthy (a b : option string) : option string :=
  if truthy_string a then a else b.

(** [remote] is what the awaited API call resolves with; [None] when it
    rejects, which is when the local fallback runs. *)
Definition handle_VERIFY_SESSION (now : number) (remote : option RemoteResult)
    (payload_session_id payload_text_content : option string)
    (s : SessionState) : SessionState * VerifyResponse :=
  let session_id := first_truthy payload_session_id (sessionId s) in
  let textContent :=
    match payload_text_content with Some t => t | None => EmptyString end in
  if negb (truthy_string session_id) then (s, NoActiveSession)
  else
    match remote with
    | Some result =>
        if (50 <=? String.length textContent)%nat then
          (with_lastVerification
             (Some {| class_label := remote_verdict result; verdict := None;
                      confidence := remote_confidence_score result;
                      is_human := remote_is_human result |}) s,
           FromServer result)
        else
          (with_lastVerification
             (Some {| class_label :=
                        (if remote_is_human result
                         then "human_organic" else "unknown")%string;
                      verdict := None;
                      confidence := remote_confidence_score result;
                      is_human := remote_is_human result |}) s,
           FromServer result)
    | None =>
        let l := local_verification (calculateStats now s) in
        (with_lastVerification
           (Some {| class_label := LocalResult.class_label l; verdict := None;
                    confidence := LocalResult.confidence_score l;
                    is_human := LocalResult.is_human l |}) s,
         LocalFallback l)
    end.

(** *** [handleMessage]: DOWNLOAD_COMBINED, the classification of the report *)

Module Classification.
Record t : Type := {
  verdict : string;
  class_label : string;
  confidence : number;
  is_human : bool;
  paste_ratio : number;
  ai_ratio : number;
  human_ratio : number
}.
End Classification.

Definition classificationData (s : SessionState) : Classification.t :=
  let totalForeign := (totalPastedChars s + totalAiChars s)%Z in
  let totalChars := (totalTypedChars s + totalForeign)%Z in
  if (20 <? totalChars)%Z then
    let pctHuman := ratio (totalTypedChars s) totalChars in
    let pctPaste := ratio (totalPastedChars s) totalChars in
    let pctAi := ratio (totalAiChars s) totalChars in
    let '(verdict, isHuman, confidence) :=
      if gt pctPaste (1 # 10) then
        ((if gt pctPaste (5 # 10) then "paste" else "paste_detected")%string,
         false, Math_min ((5 # 10) + pctPaste * (5 # 10)) (99 # 100))
      else if gt pctAi (1 # 10) then
        ("ai_assisted"%string, false,
         Math_min ((5 # 10) + pctAi * (5 # 10)) (99 # 100))
      else if ge pctHuman (9 # 10) then
        ("human_organic"%string, true,
         Math_min ((7 # 10) + pctHuman * (3 # 10)) (99 # 100))
      else
        (or_label (lastVerification s) "unknown",
         or_is_human (lastVerification s),
         or_confidence (lastVerification s) (5 # 10)) in
    {| Classification.verdict := verdict;
       Classification.class_label := verdict;
       Classification.confidence := confidence;
       Classification.is_human := isHuman;
       Classification.paste_ratio := pctPaste;
       Classification.ai_ratio := pctAi;
       Classification.human_ratio := pctHuman |}
  else
    {| Classification.verdict := "unverified";
       Classification.class_label := "unverified";
       Classification.confidence := 0;
       Classification.is_human := false;
       Classification.paste_ratio := 0;
       Classification.ai_ratio := 0;
       Classification.human_ratio := 1 |}.

(** *** The capture messages, and a run of the worker over them *)

Inductive Message : Type :=
| START_SESSION (env : Env) (payload_domain : string)
| END_SESSION (session_id : string)
| KEYSTROKE_BATCH (session_id : string) (events : list KeystrokeEvent)
                  (batch_sequence : Z)
| PASTE_EVENT (session_id : string) (event : PasteEvent)
| STOP_RECORDING.

(** The state after [handleMessage(message)]; each message carries what
    its handler reads from outside. *)
Definition handleMessage (s : SessionState) (message : Message) : SessionState :=
  match message with
  | START_SESSION env payload_domain => handle_START_SESSION env payload_domain s
  | END_SESSION _ => handle_END_SESSION s
  | KEYSTROKE_BATCH _ events _ => handle_KEYSTROKE_BATCH events s
  | PASTE_EVENT _ event => handle_PASTE_EVENT event s
  | STOP_RECORDING => handle_STOP_RECORDING s
  end.

Definition run (s : SessionState) (messages : list Message) : SessionState :=
  fold_left handleMessage messages s.

End Background.

(** ** Content script: [KeystrokeTracker]
    ([client/src/content/keystroke-tracker.ts]) *)

Module Tracker.

Import JS Types.

Definition BATCH_SIZE : nat := 100.
Definition FLUSH_INTERVAL_MS : number := 500.
Definition MIN_FLUSH_SIZE : nat := 10.

Record KeystrokeTracker : Type := {
  events : list KeystrokeEvent;
  pasteEvents : list PasteEvent;
  sessionId : option string;
  batchSequence : Z;
  isTracking : bool;
  flushScheduled : bool;
  lastFlushTime : number;
  lastInputTime : number;
  totalTypedChars : Z;
  totalPastedChars : Z;
  aiInsertInProgress : bool;
  aiInsertIgnoreUntil : number;
  lastAiInsertLength : Z
}.

(** [new KeystrokeTracker()]. *)
Definition keystrokeTracker : KeystrokeTracker := {|
  events := []; pasteEvents := []; sessionId := None; batchSequence := 0;
  isTracking := false; flushScheduled := false;
  lastFlushTime := 0; lastInputTime := 0;
  totalTypedChars := 0; totalPastedChars := 0;
  aiInsertInProgress := false; aiInsertIgnoreUntil := 0;
  lastAiInsertLength := 0
|}.

(** Messages the tracker sends to the background worker. *)
Inductive Outgoing : Type :=
| SendStart (hostname : string)
| SendEnd (session_id : string)
| SendBatch (session_id : string) (batch : list KeystrokeEvent)
            (batch_sequence : Z)
| SendPaste (session_id : string) (event : PasteEvent).

Definition with_buffer (es : list KeystrokeEvent) (typed pasted : Z)
    (t : KeystrokeTracker) : KeystrokeTracker :=
  {| events := es; pasteEvents := pasteEvents t; sessionId := sessionId t;
     batchSequence := batchSequence t; isTracking := isTracking t;
     flushScheduled := flushScheduled t;
     lastFlushTime := lastFlushTime t; lastInputTime := lastInputTime t;
     totalTypedChars := typed; totalPastedChars := pasted;
     aiInsertInProgress := aiInsertInProgress t;
     aiInsertIgnoreUntil := aiInsertIgnoreUntil t;
     lastAiInsertLength := lastAiInsertLength t |}.

(** [flush(force)]: the synchronous part takes the batch out of the buffer;
    [delivered] tells whether the promise of [sendMessage] then resolved or
    was rejected (the call of [chrome.runtime.sendMessage] threw), in which
    case the batch goes back to the front of the buffer.  The promise
    resolves also when no response comes back, and [flush] does not read the
    response: whether the worker handled the message is not known here, see
    [Channel]. *)
Definition flush (force delivered : bool) (now : number) (t : KeystrokeTracker)
  : KeystrokeTracker * list Outgoing :=
  match sessionId t with
  | Some (String c0 r0) =>
      let sid := String c0 r0 in
      if (length (events t) =? 0)%nat then (t, [])
      else if negb force && (length (events t) <? MIN_FLUSH_SIZE)%nat then (t, [])
      else
        let eventsToSend := take BATCH_SIZE (events t) in
        let rest := drop BATCH_SIZE (events t) in
        if delivered then
          ({| events := rest; pasteEvents := pasteEvents t;
              sessionId := sessionId t;
              batchSequence := batchSequence t + 1;
              isTracking := isTracking t; flushScheduled := flushScheduled t;
              lastFlushTime := now; lastInputTime := lastInputTime t;
              totalTypedChars := totalTypedChars t;
              totalPastedChars := totalPastedChars t;
              aiInsertInProgress := aiInsertInProgress t;
              aiInsertIgnoreUntil := aiInsertIgnoreUntil t;
              lastAiInsertLength := lastAiInsertLength t |},
           [SendBatch sid eventsToSend (batchSequence t)])
        else
          ({| events := eventsToSend ++ rest; pasteEvents := pasteEvents t;
              sessionId := sessionId t;
              batchSequence := batchSequence t + 1;
              isTracking := isTracking t; flushScheduled := flushScheduled t;
              lastFlushTime := lastFlushTime t;
              lastInputTime := lastInputTime t;
              totalTypedChars := totalTypedChars t;
              totalPastedChars := totalPastedChars t;
              aiInsertInProgress := aiInsertInProgress t;
              aiInsertIgnoreUntil := aiInsertIgnoreUntil t;
              lastAiInsertLength := lastAiInsertLength t |},
           [])
  | _ => (t, [])
  end.

(** [scheduleFlush()]: an immediate flush when the buffer is full, a timer
    otherwise (the timer's firing is a later [flush]). *)
Definition scheduleFlush (delivered : bool) (now : number) (t : KeystrokeTracker)
  : KeystrokeTracker * list Outgoing :=
  if (BATCH_SIZE <=? length (events t))%nat then flush false delivered now t
  else
    ({| events := events t; pasteEvents := pasteEvents t;
        sessionId := sessionId t; batchSequence := batchSequence t;
        isTracking := isTracking t; flushScheduled := true;
        lastFlushTime := lastFlushTime t; lastInputTime := lastInputTime t;
        totalTypedChars := totalTypedChars t;
        totalPastedChars := totalPastedChars t;
        aiInsertInProgress := aiInsertInProgress t;
        aiInsertIgnoreUntil := aiInsertIgnoreUntil t;
        lastAiInsertLength := lastAiInsertLength t |}, []).

(** A DOM [KeyboardEvent]: [event.key] and [event.keyCode]. *)
Record KeyboardEvent : Type := { key : string; keyCode : Z }.

Definition printable (k : string) : bool := (String.length k =? 1)%nat.

(** [handleKeyDown]: the buffered event, before [scheduleFlush]. *)
Definition handleKeyDown_record (event : KeyboardEvent) (now : number)
    (t : KeystrokeTracker) : KeystrokeTracker :=
  if negb (isTracking t) then t
  else
    let keystrokeEvent :=
      {| event_type := keydown; key_code := keyCode event;
         key_char := if printable (key event) then Some (key event) else None;
         client_timestamp := now; input_method := None |} in
    with_buffer (events t ++ [keystrokeEvent])
                (if printable (key event)
                 then totalTypedChars t + 1 else totalTypedChars t)%Z
                (totalPastedChars t) t.

Definition handleKeyDown (event : KeyboardEvent) (now : number)
    (delivered : bool) (t : KeystrokeTracker)
  : KeystrokeTracker * list Outgoing :=
  if negb (isTracking t) then (t, [])
  else scheduleFlush delivered now (handleKeyDown_record event now t).

Definition handleKeyUp (event : KeyboardEvent) (now : number)
    (delivered : bool) (t : KeystrokeTracker)
  : KeystrokeTracker * list Outgoing :=
  if negb (isTracking t) then (t, [])
  else
    let keystrokeEvent :=
      {| event_type := keyup; key_code := keyCode event;
         key_char := if printable (key event) then Some (key event) else None;
         client_timestamp := now; input_method := None |} in
    scheduleFlush delivered now
      (with_buffer (events t ++ [keystrokeEvent])
                   (totalTypedChars t) (totalPastedChars t) t).

(** [attachListeners] registers the same [handleKeyDown] on [window] and on
    [document], both in the capture phase: one key press on the page runs
    the handler at [window], then at [document]. *)
Definition dispatch_keydown (event : KeyboardEvent) (now_window now_document : number)
    (delivered : bool) (t : KeystrokeTracker)
  : KeystrokeTracker * list Outgoing :=
  let '(t1, out1) := handleKeyDown event now_window delivered t in
  let '(t2, out2) := handleKeyDown event now_document delivered t1 in
  (t2, out1 ++ out2).

(** *** Paste, input and assistant-insertion handlers *)

Definition with_ai_flags (inProgress : bool) (ignoreUntil : number)
    (lastLength : Z) (t : KeystrokeTracker) : KeystrokeTracker :=
  {| events := events t; pasteEvents := pasteEvents t; sessionId := sessionId t;
     batchSequence := batchSequence t; isTracking := isTracking t;
     flushScheduled := flushScheduled t;
     lastFlushTime := lastFlushTime t; lastInputTime := lastInputTime t;
     totalTypedChars := totalTypedChars t;
     totalPastedChars := totalPastedChars t;
     aiInsertInProgress := inProgress;
     aiInsertIgnoreUntil := ignoreUntil;
     lastAiInsertLength := lastLength |}.

Definition with_lastInputTime (now : number) (t : KeystrokeTracker)
  : KeystrokeTracker :=
  {| events := events t; pasteEvents := pasteEvents t; sessionId := sessionId t;
     batchSequence := batchSequence t; isTracking := isTracking t;
     flushScheduled := flushScheduled t;
     lastFlushTime := lastFlushTime t; lastInputTime := now;
     totalTypedChars := totalTypedChars t;
     totalPastedChars := totalPastedChars t;
     aiInsertInProgress := aiInsertInProgress t;
     aiInsertIgnoreUntil := aiInsertIgnoreUntil t;
     lastAiInsertLength := lastAiInsertLength t |}.

Definition with_pasteEvents (ps : list PasteEvent) (t : KeystrokeTracker)
  : KeystrokeTracker :=
  {| events := events t; pasteEvents := ps; sessionId := sessionId t;
     batchSequence := batchSequence t; isTracking := isTracking t;
     flushScheduled := flushScheduled t;
     lastFlushTime := lastFlushTime t; lastInputTime := lastInputTime t;
     totalTypedChars := totalTypedChars t;
     totalPastedChars := totalPastedChars t;
     aiInsertInProgress := aiInsertInProgress t;
     aiInsertIgnoreUntil := aiInsertIgnoreUntil t;
     lastAiInsertLength := lastAiInsertLength t |}.

Definition with_session (tracking : bool) (sid : option string)
    (t : KeystrokeTracker) : KeystrokeTracker :=
  {| events := events t; pasteEvents := pasteEvents t; sessionId := sid;
     batchSequence := batchSequence t; isTracking := tracking;
     flushScheduled := flushScheduled t;
     lastFlushTime := lastFlushTime t; lastInputTime := lastInputTime t;
     totalTypedChars := totalTypedChars t;
     totalPastedChars := totalPastedChars t;
     aiInsertInProgress := aiInsertInProgress t;
     aiInsertIgnoreUntil := aiInsertIgnoreUntil t;
     lastAiInsertLength := lastAiInsertLength t |}.

(** The window in which paste and input events are taken for side effects
    of an assistant insertion. *)
Definition ai_window (currentTime : number) (t : KeystrokeTracker) : bool :=
  aiInsertInProgress t || lt currentTime (aiInsertIgnoreUntil t).

(** [handlePaste]; [clipboard] is [event.clipboardData?.getData("text")]. *)
Definition handlePaste (clipboard : option string) (currentTime : number)
    (delivered : bool) (t : KeystrokeTracker)
  : KeystrokeTracker * list Outgoing :=
  match isTracking t, sessionId t with
  | true, Some (String c0 r0) =>
      let sid := String c0 r0 in
      if ai_window currentTime t then (t, [])
      else
        let pastedText :=
          match clipboard with Some x => x | None => EmptyString end in
        let pastedLength := Z.of_nat (String.length pastedText) in
        if (0 <? pastedLength)%Z then
          let marker :=
            {| event_type := paste; key_code := pastedLength; key_char := None;
               client_timestamp := currentTime;
               input_method := Some method_paste |} in
          let pasteEvent :=
            {| pasted_length := pastedLength; paste_timestamp := currentTime |} in
          let t1 :=
            with_pasteEvents (pasteEvents t ++ [pasteEvent])
              (with_buffer (events t ++ [marker]) (totalTypedChars t)
                           (totalPastedChars t + pastedLength) t) in
          let '(t2, out) := scheduleFlush delivered currentTime t1 in
          (t2, SendPaste sid pasteEvent :: out)
        else (t, [])
  | _, _ => (t, [])
  end.

Definition charCodeAt0 (x : string) : Z :=
  match x with
  | String c _ => Z.of_N (N_of_ascii c)
  | EmptyString => 0
  end.

(** [handleInput]; [data] is [inputEvent.data]. *)
Definition handleInput (data : option string) (currentTime : number)
    (delivered : bool) (t : KeystrokeTracker)
  : KeystrokeTracker * list Outgoing :=
  if negb (isTracking t) then (t, [])
  else
    let t0 := with_lastInputTime currentTime t in
    if ai_window currentTime t0 then (t0, [])
    else
      match data with
      | Some x =>
          if (String.length x =? 1)%nat then
            let keystrokeEvent :=
              {| event_type := keydown; key_code := charCodeAt0 x;
                 key_char := Some x; client_timestamp := currentTime;
                 input_method := None |} in
            let keyupEvent :=
              {| event_type := keyup; key_code := charCodeAt0 x;
                 key_char := Some x; client_timestamp := currentTime + 50;
                 input_method := None |} in
            scheduleFlush delivered currentTime
              (with_buffer (events t0 ++ [keystrokeEvent; keyupEvent])
                           (totalTypedChars t0 + 1) (totalPastedChars t0) t0)
          else (t0, [])
      | None => (t0, [])
      end.

(** The loop of [synthesizeAiBurst] over [text.split("")]: a keydown and a
    keyup per character.  [dwell i] and [flight i] are the random delays
    drawn for the character of index [i]. *)
Fixpoint synthesize (chars : string) (i : nat) (dwell flight : nat -> number)
    (timestamp : number) : list KeystrokeEvent * number :=
  match chars with
  | EmptyString => ([], timestamp)
  | String c rest =>
      let char := String c EmptyString in
      let keyCode := Z.of_N (N_of_ascii c) in
      let dwellTime := dwell i in
      let flightTime := flight i in
      let down :=
        {| event_type := keydown; key_code := keyCode; key_char := Some char;
           client_timestamp := timestamp;
           input_method := Some method_ai_assistant |} in
      let up :=
        {| event_type := keyup; key_code := keyCode; key_char := Some char;
           client_timestamp := timestamp + dwellTime;
           input_method := Some method_ai_assistant |} in
      let '(more, final) :=
        synthesize rest (S i) dwell flight (timestamp + (dwellTime + flightTime)) in
      (down :: up :: more, final)
  end.

(** [synthesizeAiBurst(text)]: the synthetic keystrokes, the volume marker
    and [this.totalPastedChars += text.length]. *)
Definition synthesizeAiBurst (text : string) (currentTime : number)
    (dwell flight : nat -> number) (delivered : bool) (t : KeystrokeTracker)
  : KeystrokeTracker * list Outgoing :=
  let len := Z.of_nat (String.length text) in
  let t1 := with_ai_flags true (currentTime + 500) len t in
  let '(keystrokes, timestamp) := synthesize text 0 dwell flight currentTime in
  let marker :=
    {| event_type := ai_assistant; key_code := len; key_char := None;
       client_timestamp := timestamp;
       input_method := Some method_ai_assistant |} in
  scheduleFlush delivered currentTime
    (with_buffer (events t1 ++ keystrokes ++ [marker])
                 (totalTypedChars t1) (totalPastedChars t1 + len) t1).

(** The timer [synthesizeAiBurst] sets: after 100 ms the flag is lowered. *)
Definition aiInsertTimeout (t : KeystrokeTracker) : KeystrokeTracker :=
  with_ai_flags false (aiInsertIgnoreUntil t) (lastAiInsertLength t) t.

(** [handleWindowMessage]: only a same-window message of type
    [humanSign:aiInsert] with a non-empty [text] is an assistant insertion. *)
Definition handleWindowMessage (source_is_window : bool)
    (data_type data_text : option string) (currentTime : number)
    (dwell flight : nat -> number) (delivered : bool) (t : KeystrokeTracker)
  : KeystrokeTracker * list Outgoing :=
  if negb source_is_window then (t, [])
  else
    match data_type, data_text with
    | Some ty, Some text =>
        if String.eqb ty "humanSign:aiInsert" && truthy_string (Some text)
        then synthesizeAiBurst text currentTime dwell flight delivered t
        else (t, [])
    | _, _ => (t, [])
    end.

(** *** [start], [stop], [reset], [status] *)

Definition stopTrackingState (t : KeystrokeTracker) : KeystrokeTracker :=
  with_buffer [] (totalTypedChars t) (totalPastedChars t)
              (with_session false None t).

(** [start()]; [response] is the session id of a successful START_SESSION
    response, [None] for a failed one. *)
Definition start (hostname : string) (response : option string)
    (now : number) (delivered : bool) (t : KeystrokeTracker)
  : KeystrokeTracker * list Outgoing :=
  if isTracking t then (t, [])
  else
    let t1 := with_session true (sessionId t) t in
    match response with
    | Some session_id =>
        let '(t2, out) :=
          scheduleFlush delivered now (with_session true (Some session_id) t1) in
        (t2, SendStart hostname :: out)
    | None => (stopTrackingState t1, [SendStart hostname])
    end.

Definition reset (t : KeystrokeTracker) : KeystrokeTracker :=
  {| events := []; pasteEvents := []; sessionId := None; batchSequence := 0;
     isTracking := false; flushScheduled := false;
     lastFlushTime := lastFlushTime t; lastInputTime := lastInputTime t;
     totalTypedChars := 0; totalPastedChars := 0;
     aiInsertInProgress := aiInsertInProgress t;
     aiInsertIgnoreUntil := aiInsertIgnoreUntil t;
     lastAiInsertLength := lastAiInsertLength t |}.

(** [stop()]: an unforced flush, END_SESSION, then [reset]. *)
Definition stop (now : number) (delivered : bool) (t : KeystrokeTracker)
  : KeystrokeTracker * list Outgoing :=
  match isTracking t, sessionId t with
  | true, Some (String c0 r0) =>
      let sid := String c0 r0 in
      let '(t1, out) := flush false delivered now t in
      (reset t1, out ++ [SendEnd sid])
  | _, _ => (t, [])
  end.

Module Status.
Record t : Type := {
  isTracking : bool;
  sessionId : option string;
  bufferedEvents : Z;
  typedChars : Z;
  pastedChars : Z;
  pasteRatio : number
}.
End Status.

Definition status (t : KeystrokeTracker) : Status.t :=
  let total := (totalTypedChars t + totalPastedChars t)%Z in
  {| Status.isTracking := isTracking t;
     Status.sessionId := sessionId t;
     Status.bufferedEvents := Z.of_nat (length (events t));
     Status.typedChars := totalTypedChars t;
     Status.pastedChars := totalPastedChars t;
     Status.pasteRatio :=
       if (0 <? total)%Z
       then inject_Z (totalPastedChars t) / inject_Z total else 0 |}.

End Tracker.

(** ** The platform's cryptography

    [crypto.subtle], [TextEncoder], [btoa] and [atob] are the browser's, not
    the repository's: they are the operations of an interface.  Binary data
    and binary strings are byte strings.  A call that can throw returns an
    option.  [generateKey n] is the key pair of the [n]-th draw from the
    system's random source, [subtle_sign] takes the draw of its nonce. *)

Class WebCrypto : Type := {
  PublicKey : Type;
  PrivateKey : Type;
  generateKey : nat -> option (PublicKey * PrivateKey);
  exportKey_spki : PublicKey -> string;
  exportKey_pkcs8 : PrivateKey -> string;
  importKey_spki : string -> option PublicKey;
  importKey_pkcs8 : string -> option PrivateKey;
  subtle_sign : PrivateKey -> string -> nat -> string;
  subtle_verify : PublicKey -> string -> string -> bool;
  subtle_digest_SHA256 : string -> string;
  TextEncoder_encode : string -> string;
  btoa : string -> string;
  atob : string -> option string
}.

(** What the code relies on: the codecs round-trip, exported keys and
    signatures are not empty, and the signature scheme is ideal (a signature
    verifies under the matching public key for the signed bytes and for no
    others). *)
Class WebCryptoLaws `{WebCrypto} : Prop := {
  atob_btoa : forall b, atob (btoa b) = Some b;
  btoa_nonempty : forall b, b <> EmptyString -> btoa b <> EmptyString;
  encode_injective :
    forall a b, TextEncoder_encode a = TextEncoder_encode b -> a = b;
  import_export_spki : forall pk, importKey_spki (exportKey_spki pk) = Some pk;
  import_export_pkcs8 : forall sk, importKey_pkcs8 (exportKey_pkcs8 sk) = Some sk;
  exported_key_nonempty : forall pk, exportKey_spki pk <> EmptyString;
  signature_nonempty : forall sk m r, subtle_sign sk m r <> EmptyString;
  verify_sign :
    forall n pk sk, generateKey n = Some (pk, sk) ->
    forall m m' r, subtle_verify pk (subtle_sign sk m r) m' = true <-> m' = m
}.

(** ** Keystroke-buffer hashing ([client/src/crypto/hashing.ts]) *)

Module Hashing.

Import JS Types.

Local Open Scope string_scope.

(** [b.toString(16).padStart(2, '0')] for each byte, joined. *)
Fixpoint bufferToHex (bytes : string) : string :=
  match bytes with
  | EmptyString => EmptyString
  | String b rest =>
      let n := N_of_ascii b in
      String (Json.hex_digit (n / 16))
        (String (Json.hex_digit (n mod 16)) (bufferToHex rest))
  end.

(** The object [serializeEvents] keeps of an event: [t], [ts], [c]. *)
Definition timingOnly (e : KeystrokeEvent) : Json.value :=
  Json.Obj [ ("t", Json.Str (EventType_name (event_type e)));
             ("ts", Json.Num (Math_round (client_timestamp e)));
             ("c", Json.Num (key_code e)) ].

Definition serializeEvents (events : list KeystrokeEvent) : string :=
  Json.stringify (Json.Arr (List.map timingOnly events)).

Definition hashKeystrokeBuffer `{WebCrypto} (events : list KeystrokeEvent)
  : string :=
  let serialized := serializeEvents events in
  let data := TextEncoder_encode serialized in
  let hashBuffer := subtle_digest_SHA256 data in
  bufferToHex hashBuffer.

Definition createChainedHash `{WebCrypto} (currentEvents : list KeystrokeEvent)
    (previousHash : option string) : string :=
  let currentSerialized := serializeEvents currentEvents in
  let toHash :=
    match previousHash with
    | Some (String c p) => String c p ++ ":" ++ currentSerialized
    | _ => currentSerialized
    end in
  bufferToHex (subtle_digest_SHA256 (TextEncoder_encode toHash)).

(** Two events that the hash cannot tell apart. *)
Definition same_timing (e1 e2 : KeystrokeEvent) : Prop :=
  event_type e1 = event_type e2 /\
  key_code e1 = key_code e2 /\
  Math_round (client_timestamp e1) = Math_round (client_timestamp e2).

End Hashing.

(** ** The stored signing key pair ([client/src/crypto/signing.ts]) *)

Module Signing.

Record CryptoKeyPair `{WebCrypto} : Type := {
  publicKey : PublicKey;
  privateKey : PrivateKey
}.

(** [KeyPairExport]: base64 of the SPKI and PKCS8 encodings. *)
Record KeyPairExport : Type := {
  exported_publicKey : string;
  exported_privateKey : string
}.

Definition generateKeyPair `{WebCrypto} (draw : nat) : option CryptoKeyPair :=
  match generateKey draw with
  | Some (pk, sk) => Some {| publicKey := pk; privateKey := sk |}
  | None => None
  end.

Definition exportKeyPair `{WebCrypto} (keyPair : CryptoKeyPair) : KeyPairExport :=
  {| exported_publicKey := btoa (exportKey_spki (publicKey keyPair));
     exported_privateKey := btoa (exportKey_pkcs8 (privateKey keyPair)) |}.

Definition importKeyPair `{WebCrypto} (exported : KeyPairExport)
  : option CryptoKeyPair :=
  match atob (exported_publicKey exported),
        atob (exported_privateKey exported) with
  | Some publicKeyBuffer, Some privateKeyBuffer =>
      match importKey_spki publicKeyBuffer, importKey_pkcs8 privateKeyBuffer with
      | Some pk, Some sk => Some {| publicKey := pk; privateKey := sk |}
      | _, _ => None
      end
  | _, _ => None
  end.

(** [getOrCreateKeyPair()] on [chrome.storage.local], whose entry
    [humansign_keypair] is [stored]: the key pair, the storage afterwards,
    and whether a draw of the random source was used. *)
Definition getOrCreateKeyPair `{WebCrypto} (draw : nat)
    (stored : option KeyPairExport)
  : option CryptoKeyPair * option KeyPairExport * nat :=
  let generate :=
    match generateKeyPair draw with
    | Some keyPair => (Some keyPair, Some (exportKeyPair keyPair), S draw)
    | None => (None, stored, S draw)
    end in
  match stored with
  | Some exported =>
      match importKeyPair exported with
      | Some keyPair => (Some keyPair, stored, draw)
      | None => generate
      end
  | None => generate
  end.

End Signing.

(** ** The exported report (DOWNLOAD_COMBINED in
    [client/src/background/index.ts]) *)

Module Report.

Import JS Types.

Local Open Scope string_scope.

Record Session : Type := { id : string; domain : string; duration_ms : number }.

Record Metrics : Type := {
  total_keystrokes : Z;
  avg_dwell_ms : Z;
  avg_flight_ms : Z;
  wpm : Z;
  text_length : Z;
  total_typed_chars : Z;
  total_pasted_chars : Z;
  total_ai_chars : Z
}.

Record TimingData : Type := {
  dwell_histogram : list nat;
  flight_histogram : list nat
}.

Record SignatureBlock : Type := {
  algorithm : string;
  public_key : string;
  signature_value : string;
  signed_at : string
}.

Record HumanSignData : Type := {
  version : string;
  generated_at : string;
  session : Session;
  metrics : Metrics;
  classification : Background.Classification.t;
  timing_data : TimingData;
  content_hash : string;
  signature : SignatureBlock
}.

(** The [metrics] object as [JSON.stringify] walks it, key by key. *)
Definition metrics_json (m : Metrics) : Json.value :=
  Json.Obj [ ("total_keystrokes", Json.Num (total_keystrokes m));
             ("avg_dwell_ms", Json.Num (avg_dwell_ms m));
             ("avg_flight_ms", Json.Num (avg_flight_ms m));
             ("wpm", Json.Num (wpm m));
             ("text_length", Json.Num (text_length m));
             ("total_typed_chars", Json.Num (total_typed_chars m));
             ("total_pasted_chars", Json.Num (total_pasted_chars m));
             ("total_ai_chars", Json.Num (total_ai_chars m)) ].

(** [JSON.stringify({content_hash, metrics, session_id})]. *)
Definition dataToSign (hash : string) (m : Metrics) (session_id : string)
  : string :=
  Json.stringify
    (Json.Obj [ ("content_hash", Json.Str hash);
                ("metrics", metrics_json m);
                ("session_id", Json.Str session_id) ]).

(** What the handler reads from outside the state: the clock, its ISO
    rendering, a fresh UUID and the position of the random source. *)
Record Env : Type := {
  Date_now : number;
  toISOString : string;
  randomUUID : string;
  draw : nat
}.

Definition or_string (s : option string) (default : string) : string :=
  match s with
  | Some (String c r) => String c r
  | _ => default
  end.

(** The report before the signature is filled in. *)
Definition humanSignData (env : Env) (textContent : string)
    (s : Background.SessionState) (hash : string) (sig : SignatureBlock)
  : HumanSignData :=
  let stats := Background.calculateStats (Date_now env) s in
  {| version := "1.0";
     generated_at := toISOString env;
     session :=
       {| id := or_string (Background.sessionId s) (randomUUID env);
          domain := or_string (Background.domain s) "unknown";
          duration_ms :=
            match Background.startTime s with
            | Some t => if truthy_number t then Date_now env - t else 0
            | None => 0
            end |};
     metrics :=
       {| total_keystrokes := Background.Stats.keystrokeCount stats;
          avg_dwell_ms := Math_round (Background.Stats.avgDwell stats);
          avg_flight_ms := Math_round (Background.Stats.avgFlight stats);
          wpm := Math_round (Background.Stats.wpm stats);
          text_length := Z.of_nat (String.length textContent);
          total_typed_chars := Background.totalTypedChars s;
          total_pasted_chars := Background.totalPastedChars s;
          total_ai_chars := Background.totalAiChars s |};
     classification := Background.classificationData s;
     timing_data :=
       {| dwell_histogram :=
            Histogram.createHistogram (Background.Stats.dwellTimes stats) 10 0 200;
          flight_histogram :=
            Histogram.createHistogram (Background.Stats.flightTimes stats) 10 0 300 |};
     content_hash := hash;
     signature := sig |}.

Definition with_signatureCount (n : Z) (s : Background.SessionState)
  : Background.SessionState :=
  {| Background.sessionId := Background.sessionId s;
     Background.domain := Background.domain s;
     Background.keystrokes := Background.keystrokes s;
     Background.pasteEvents := Background.pasteEvents s;
     Background.totalTypedChars := Background.totalTypedChars s;
     Background.totalPastedChars := Background.totalPastedChars s;
     Background.totalAiChars := Background.totalAiChars s;
     Background.startTime := Background.startTime s;
     Background.isRecording := Background.isRecording s;
     Background.signatureCount := n;
     Background.lastVerification := Background.lastVerification s |}.

(** [case "DOWNLOAD_COMBINED"]: the state afterwards and the report that is
    written to [metadata.humanSign].  A key pair is generated in the handler;
    when the platform's cryptography throws, the report keeps the empty
    signature fields. *)
Definition handle_DOWNLOAD_COMBINED `{WebCrypto} (env : Env)
    (payload_textContent : option string) (s : Background.SessionState)
  : Background.SessionState * HumanSignData :=
  let textContent := or_string payload_textContent EmptyString in
  let hash :=
    Hashing.bufferToHex (subtle_digest_SHA256 (TextEncoder_encode textContent)) in
  let unsigned :=
    {| algorithm := "ECDSA-P256-SHA256"; public_key := EmptyString;
       signature_value := EmptyString; signed_at := toISOString env |} in
  let report := humanSignData env textContent s hash unsigned in
  match generateKey (draw env) with
  | Some (pk, sk) =>
      let to_sign := dataToSign hash (metrics report) (id (session report)) in
      let signatureData :=
        subtle_sign sk (TextEncoder_encode to_sign) (S (draw env)) in
      (with_signatureCount (Background.signatureCount s + 1) s,
       humanSignData env textContent s hash
         {| algorithm := "ECDSA-P256-SHA256";
            public_key := btoa (exportKey_spki pk);
            signature_value := btoa signatureData;
            signed_at := toISOString env |})
  | None => (s, report)
  end.

End Report.

(** ** The decoder page ([web/src/app/decoder/page.tsx]) *)

Module Decoder.

(** Exceptions, and computations that may throw. *)
Inductive exn : Type := InvalidCharacterError | DataError | TypeError.

Inductive Result (A : Type) : Type :=
| Ok (a : A)
| Throw (e : exn).
Arguments Ok {A} a.
Arguments Throw {A} e.

Definition bind {A B} (m : Result A) (k : A -> Result B) : Result B :=
  match m with
  | Ok a => k a
  | Throw e => Throw e
  end.

Definition try_catch {A} (body : Result A) (handler : exn -> Result A)
  : Result A :=
  match body with
  | Ok a => Ok a
  | Throw e => handler e
  end.

Definition or_throw {A} (e : exn) (x : option A) : Result A :=
  match x with
  | Some a => Ok a
  | None => Throw e
  end.

Notation "x <- m ;; k" := (bind m (fun x => k))
  (at level 100, m at next level, right associativity).

(** The uploaded report after [JSON.parse]: any member may be missing. *)
Record ParsedSignature : Type := {
  public_key : option string;
  signature_value : option string
}.

Record ParsedSession : Type := { id : option Json.value }.

Record HumanSignData : Type := {
  signature : option ParsedSignature;
  content_hash : option Json.value;
  metrics : option Json.value;
  session : option ParsedSession
}.

Inductive VerificationStatus : Type := pending | valid | invalid | none.

(** [JSON.stringify] leaves out the members whose value is [undefined]. *)
Definition defined_members (ms : list (string * option Json.value))
  : list (string * Json.value) :=
  omap (fun kv => match snd kv with
                  | Some v => Some (fst kv, v)
                  | None => None
                  end) ms.

Definition dataToVerify (data : HumanSignData) (s : ParsedSession) : string :=
  Json.stringify
    (Json.Obj (defined_members
                 [ ("content_hash"%string, content_hash data);
                   ("metrics"%string, metrics data);
                   ("session_id"%string, id s) ])).

(** [data.signature?.public_key] and [data.signature?.signature_value]. *)
Definition signature_public_key (data : HumanSignData) : option string :=
  match signature data with Some sg => public_key sg | None => None end.

Definition signature_signature_value (data : HumanSignData) : option string :=
  match signature data with Some sg => signature_value sg | None => None end.

(** [verifySignature(data)]: the status it sets. *)
Definition verifySignature `{WebCrypto} (data : HumanSignData)
  : Result VerificationStatus :=
  match signature_public_key data, signature_signature_value data with
  | Some (String c1 pk1), Some (String c2 sg1) =>
      try_catch
        (binaryDer <- or_throw InvalidCharacterError (atob (String c1 pk1)) ;;
         publicKey <- or_throw DataError (importKey_spki binaryDer) ;;
         signatureBytes <- or_throw InvalidCharacterError (atob (String c2 sg1)) ;;
         parsedSession <- or_throw TypeError (session data) ;;
         let isValid :=
           subtle_verify publicKey signatureBytes
             (TextEncoder_encode (dataToVerify data parsedSession)) in
         Ok (if isValid then valid else invalid))
        (fun _ => Ok invalid)
  | _, _ => Ok none
  end.

(** The report as the decoder reads it back from [metadata.humanSign]:
    every member present, with the values that were written. *)
Definition parse_written (r : Report.HumanSignData) : HumanSignData :=
  {| signature :=
       Some {| public_key := Some (Report.public_key (Report.signature r));
               signature_value :=
                 Some (Report.signature_value (Report.signature r)) |};
     content_hash := Some (Json.Str (Report.content_hash r));
     metrics := Some (Report.metrics_json (Report.metrics r));
     session := Some {| id := Some (Json.Str (Report.id (Report.session r))) |} |}.

(** The same uploaded report with another [content_hash]. *)
Definition with_content_hash (h : string) (data : HumanSignData)
  : HumanSignData :=
  {| signature := signature data;
     content_hash := Some (Json.Str h);
     metrics := metrics data;
     session := session data |}.

(** Key or signature material that the platform refuses: base64 that does
    not decode, or decoded bytes that are not a P-256 public key. *)
Definition malformed `{WebCrypto} (data : HumanSignData) : Prop :=
  match signature_public_key data, signature_signature_value data with
  | Some pk, Some sg =>
      atob pk = None
      \/ (exists der, atob pk = Some der /\ importKey_spki der = None)
      \/ atob sg = None
  | _, _ => False
  end.

(** A field that is missing or empty. *)
Definition absent (field : option string) : Prop :=
  Types.truthy_string field = false.

(** The hash with the byte at index [i] replaced by [c]. *)
Fixpoint mutate_byte (i : nat) (c : ascii) (h : string) : string :=
  match h with
  | EmptyString => EmptyString
  | String x rest =>
      match i with
      | O => String c rest
      | S k => String x (mutate_byte k c rest)
      end
  end.

End Decoder.

(** ** The capture pipeline: tracker and worker together *)

Module Pipeline.

Import JS Types.

(** One call of a capture handler, or of a timer callback.  [now] is the
    clock reading of the call, [delivered] tells whether the send of a batch
    that the call may flush goes through or throws.  A DOM event makes one
    call for every listener it reaches, see [Page]. *)
Inductive Action : Type :=
| KeyDown (event : Tracker.KeyboardEvent) (now : number) (delivered : bool)
| KeyUp (event : Tracker.KeyboardEvent) (now : number) (delivered : bool)
| Input (data : option string) (now : number) (delivered : bool)
| Paste (clipboard : option string) (now : number) (delivered : bool)
| WindowMessage (source_is_window : bool) (data_type data_text : option string)
                (now : number) (dwell flight : nat -> number) (delivered : bool)
| AiInsertTimeout
| FlushTimer (now : number) (delivered : bool)
| BeforeUnload (now : number) (delivered : bool).

Definition handle (a : Action) (t : Tracker.KeystrokeTracker)
  : Tracker.KeystrokeTracker * list Tracker.Outgoing :=
  match a with
  | KeyDown event now delivered => Tracker.handleKeyDown event now delivered t
  | KeyUp event now delivered => Tracker.handleKeyUp event now delivered t
  | Input data now delivered => Tracker.handleInput data now delivered t
  | Paste clipboard now delivered => Tracker.handlePaste clipboard now delivered t
  | WindowMessage src ty text now dwell flight delivered =>
      Tracker.handleWindowMessage src ty text now dwell flight delivered t
  | AiInsertTimeout => (Tracker.aiInsertTimeout t, [])
  | FlushTimer now delivered => Tracker.flush false delivered now t
  | BeforeUnload now delivered => Tracker.flush true delivered now t
  end.

(** The worker's handling of a message of the tracker, for a message that
    reaches the worker and is handled; [Channel] has the messages that get
    no response.  Session start and end are not capture actions. *)
Definition deliver (b : Background.SessionState) (m : Tracker.Outgoing)
  : Background.SessionState :=
  match m with
  | Tracker.SendBatch sid batch seq =>
      Background.handleMessage b (Background.KEYSTROKE_BATCH sid batch seq)
  | Tracker.SendPaste sid event =>
      Background.handleMessage b (Background.PASTE_EVENT sid event)
  | Tracker.SendEnd sid => Background.handleMessage b (Background.END_SESSION sid)
  | Tracker.SendStart _ => b
  end.

Definition System : Type := (Tracker.KeystrokeTracker * Background.SessionState)%type.

Definition step (sys : System) (a : Action) : System :=
  let '(t, out) := handle a (fst sys) in
  (t, fold_left deliver out (snd sys)).

Definition run (sys : System) (actions : list Action) : System :=
  fold_left step actions sys.

(** The three ledger categories, and a count of characters per category. *)
Record Tally : Type := { typed : Z; pasted : Z; assistant : Z }.

Definition tally_add (x y : Tally) : Tally :=
  {| typed := typed x + typed y; pasted := pasted x + pasted y;
     assistant := assistant x + assistant y |}.

Definition no_chars : Tally := {| typed := 0; pasted := 0; assistant := 0 |}.

(** The characters one handler call brings in, under the one category of
    the call: a printable key or a one-character input is one typed character,
    a clipboard paste is as many pasted characters as its text is long, an
    assistant insertion as many assistant characters as its text is long.
    Nothing is accepted while the tracker is off, and paste and input events
    inside the window after an assistant insertion are its side effects. *)
Definition accepted (t : Tracker.KeystrokeTracker) (a : Action) : Tally :=
  match a with
  | KeyDown event _ _ =>
      if Tracker.isTracking t && Tracker.printable (Tracker.key event)
      then {| typed := 1; pasted := 0; assistant := 0 |} else no_chars
  | Input (Some x) now _ =>
      if Tracker.isTracking t
         && negb (Tracker.ai_window now t)
         && (String.length x =? 1)%nat
      then {| typed := 1; pasted := 0; assistant := 0 |} else no_chars
  | Paste (Some text) now _ =>
      match Tracker.isTracking t, Tracker.sessionId t with
      | true, Some (String _ _) =>
          if Tracker.ai_window now t then no_chars
          else {| typed := 0; pasted := Z.of_nat (String.length text);
                  assistant := 0 |}
      | _, _ => no_chars
      end
  | WindowMessage true (Some ty) (Some text) _ _ _ _ =>
      if String.eqb ty "humanSign:aiInsert"
      then {| typed := 0; pasted := 0;
              assistant := Z.of_nat (String.length text) |}
      else no_chars
  | _ => no_chars
  end.

Fixpoint accepted_during (sys : System) (actions : list Action) : Tally :=
  match actions with
  | [] => no_chars
  | a :: rest =>
      tally_add (accepted (fst sys) a) (accepted_during (step sys a) rest)
  end.

(** The characters of buffered events that the worker has yet to count. *)
Definition is_typed (e : KeystrokeEvent) : bool :=
  EventType_eqb (event_type e) keydown
  && truthy_string (key_char e)
  && negb (is_ai_method (input_method e)).

Definition typed_in (es : list KeystrokeEvent) : Z :=
  Z.of_nat (length (List.filter is_typed es)).

Definition marker_chars (e : KeystrokeEvent) : Z :=
  if negb (is_typed e) && EventType_eqb (event_type e) ai_assistant
  then (if (key_code e =? 0)%Z then 1 else key_code e)%Z
  else 0%Z.

Definition assistant_in (es : list KeystrokeEvent) : Z :=
  fold_right (fun e n => (marker_chars e + n)%Z) 0%Z es.

(** The worker's ledger together with what is still buffered on the page. *)
Definition ledger (sys : System) : Tally :=
  {| typed := Background.totalTypedChars (snd sys)
              + typed_in (Tracker.events (fst sys));
     pasted := Background.totalPastedChars (snd sys);
     assistant := Background.totalAiChars (snd sys)
                  + assistant_in (Tracker.events (fst sys)) |}.

(** The ledger invariant read over every counter of the capture layer, the
    tracker's two included: each counter grows by the accepted characters of
    its own category and by nothing else. *)
Definition every_counter_exclusive : Prop :=
  forall (sys : System) (actions : list Action),
    ledger (run sys actions) = tally_add (ledger sys) (accepted_during sys actions)
    /\ Tracker.totalTypedChars (fst (run sys actions))
       = (Tracker.totalTypedChars (fst sys)
          + typed (accepted_during sys actions))%Z
    /\ Tracker.totalPastedChars (fst (run sys actions))
       = (Tracker.totalPastedChars (fst sys)
          + pasted (accepted_during sys actions))%Z.

(** A page where tracking has just started, and an accepted suggestion of
    five characters followed by a forced flush. *)
Definition example_env : Background.Env :=
  {| Background.api_startSession := Some "session-1"%string;
     Background.randomUUID := "uuid-1"%string;
     Background.Date_now := 0 |}.

Definition recording : System :=
  (fst (Tracker.start "example.com" (Some "session-1"%string) 0 true
          Tracker.keystrokeTracker),
   Background.handle_START_SESSION example_env "example.com" Background.state).

Definition suggestion_accepted : list Action :=
  [ WindowMessage true (Some "humanSign:aiInsert"%string) (Some "hello"%string)
                  1000 (fun _ => 4) (fun _ => 3) true;
    BeforeUnload 2000 true ].

(** The session is ended and a second one is started on the same worker. *)
Definition second_env : Background.Env :=
  {| Background.api_startSession := Some "session-2"%string;
     Background.randomUUID := "uuid-2"%string;
     Background.Date_now := 60000 |}.

Definition second_session : Background.SessionState :=
  Background.run (snd (run recording suggestion_accepted))
    [ Background.END_SESSION "session-1";
      Background.START_SESSION second_env "example.com" ].

(** One press of the key [a]: a single [KeyboardEvent], which reaches the
    handler registered on [window] and, a hundredth of a millisecond later,
    the same handler registered on [document]. *)
Definition key_a : Tracker.KeyboardEvent :=
  {| Tracker.key := "a"; Tracker.keyCode := 65 |}.

Definition one_key_press : Tracker.KeystrokeTracker :=
  fst (Tracker.dispatch_keydown key_a 1000 (1000 + (1 # 100)) true (fst recording)).

(** [n] times the key [a], as one call of [handleKeyDown] and one of
    [handleKeyUp] for each: held for 80 ms, one key every 200 ms. *)
Fixpoint type_keys (n : nat) (at_time : number) : list Action :=
  match n with
  | O => []
  | S k =>
      KeyDown key_a at_time true :: KeyUp key_a (at_time + 80) true
      :: type_keys k (at_time + 200)
  end.

(** The worker after fifteen keydown calls, all flushed. *)
Definition fifteen_typed : Background.SessionState :=
  snd (run recording (type_keys 15 1000 ++ [BeforeUnload 5000 true])).

(** The worker after one call of [handlePaste] with twenty characters. *)
Definition twenty_pasted : Background.SessionState :=
  snd (run recording
         [ Paste (Some "01234567890123456789"%string) 1000 true;
           BeforeUnload 2000 true ]).

End Pipeline.

(** ** Messages without response, and DOM events with several listeners *)

Module Channel.

Import JS Types Pipeline.

(** Whether the worker handles a message of the tracker.  [sendMessage]
    resolves in either case, with the fallback response [No response from
    background] when none comes back, and [flush] and [handlePaste] do not
    look at the response: the tracker goes on in the same way, and a message
    that is not handled is lost. *)
Definition Fate : Type := Tracker.Outgoing -> bool.

Definition every_message_handled : Fate := fun _ => true.

(** One handler call, with the fate of the messages it sends. *)
Definition step (sys : System) (call : Action * Fate) : System :=
  let '(t, out) := handle (fst call) (fst sys) in
  (t, fold_left deliver (List.filter (snd call) out) (snd sys)).

Definition run (sys : System) (calls : list (Action * Fate)) : System :=
  fold_left step calls sys.

(** The characters a message carries to the worker's counters. *)
Definition carried (m : Tracker.Outgoing) : Tally :=
  match m with
  | Tracker.SendBatch _ batch _ =>
      {| typed := typed_in batch; pasted := 0; assistant := assistant_in batch |}
  | Tracker.SendPaste _ event =>
      {| typed := 0; pasted := pasted_length event; assistant := 0 |}
  | _ => no_chars
  end.

Definition carried_by (out : list Tracker.Outgoing) : Tally :=
  fold_right (fun m total => tally_add (carried m) total) no_chars out.

(** The characters of the messages that the worker did not handle. *)
Fixpoint lost_during (sys : System) (calls : list (Action * Fate)) : Tally :=
  match calls with
  | [] => no_chars
  | call :: rest =>
      tally_add
        (carried_by
           (List.filter (fun m => negb (snd call m))
                        (snd (handle (fst call) (fst sys)))))
        (lost_during (step sys call) rest)
  end.

End Channel.

Module Page.

Import JS Types Pipeline.

(** A DOM event on the page.  [attachListeners] registers [handleKeyDown]
    and [handleKeyUp] on [window], on [document] and on every editor element
    it finds (ProseMirror, Monaco, contenteditable, textarea, text input),
    [handlePaste] on [document], on [window] and on the ProseMirror and
    contenteditable elements, and [handleInput] on [document] for [input]
    and for [beforeinput]; all in the capture phase.  [attached] is the
    number of elements on the event's path that carry the handler. *)
Inductive DomEvent : Type :=
| keydown_event (event : Tracker.KeyboardEvent) (attached : nat)
| keyup_event (event : Tracker.KeyboardEvent) (attached : nat)
| paste_event (clipboard : option string) (attached : nat)
| input_event (data : option string)
| beforeinput_event (data : option string).

(** The number of listeners the event reaches. *)
Definition listeners (e : DomEvent) : nat :=
  match e with
  | keydown_event _ attached => 2 + attached
  | keyup_event _ attached => 2 + attached
  | paste_event _ attached => 2 + attached
  | input_event _ => 1
  | beforeinput_event _ => 1
  end.

(** The handler call of one listener, which reads the clock itself. *)
Definition call (e : DomEvent) (now : number) (delivered : bool) : Action :=
  match e with
  | keydown_event event _ => KeyDown event now delivered
  | keyup_event event _ => KeyUp event now delivered
  | paste_event clipboard _ => Paste clipboard now delivered
  | input_event data => Input data now delivered
  | beforeinput_event data => Input data now delivered
  end.

(** The handler calls of one DOM event: one per listener, [clock i] being
    the reading of the [i]-th. *)
Definition calls (e : DomEvent) (clock : nat -> number) (delivered : bool)
  : list Action :=
  List.map (fun i => call e (clock i) delivered) (seq 0 (listeners e)).

End Page.

(** ** A symbolic platform

    Keys are numbered by the draw that made them, an encoded key is a tag
    and the number in unary, a signature is the key and the signed bytes,
    and the codecs and the digest leave their input as it is.  It satisfies
    the laws, and serves to run the code on examples. *)

Module Symbolic.

Local Open Scope string_scope.

Fixpoint unary (n : nat) : string :=
  match n with
  | O => EmptyString
  | S k => String "1" (unary k)
  end.

Fixpoint read_unary (s : string) : option nat :=
  match s with
  | EmptyString => Some O
  | String c r =>
      if Ascii.eqb c "1"
      then match read_unary r with Some k => Some (S k) | None => None end
      else None
  end.

Definition export_tagged (tag : ascii) (n : nat) : string := String tag (unary n).

Definition import_tagged (tag : ascii) (s : string) : option nat :=
  match s with
  | String c r => if Ascii.eqb c tag then read_unary r else None
  | EmptyString => None
  end.

Definition signature_of (key : nat) (message : string) : string :=
  unary key ++ ":" ++ message.

#[export] Instance platform : WebCrypto := {|
  PublicKey := nat;
  PrivateKey := nat;
  generateKey := fun n => Some (n, n);
  exportKey_spki := export_tagged "P";
  exportKey_pkcs8 := export_tagged "S";
  importKey_spki := import_tagged "P";
  importKey_pkcs8 := import_tagged "S";
  subtle_sign := fun sk m _ => signature_of sk m;
  subtle_verify := fun pk sg m => String.eqb sg (signature_of pk m);
  subtle_digest_SHA256 := fun b => b;
  TextEncoder_encode := fun s => s;
  btoa := fun b => b;
  atob := fun s => Some s
|}.

End Symbolic.

(** ** Facts about the comparisons *)

Module JSFacts.

Import JS.

Lemma ge_spec x y : ge x y = true <-> y <= x.
Proof. apply Qle_bool_iff. Qed.

Lemma gt_spec x y : gt x y = true <-> y < x.
Proof.
  unfold gt. rewrite negb_true_iff, <- not_true_iff_false, Qle_bool_iff.
  split; [apply Qnot_le_lt | apply Qlt_not_le].
Qed.

Lemma lt_spec x y : lt x y = true <-> x < y.
Proof. apply gt_spec. Qed.

Lemma gt_false x y : gt x y = false <-> x <= y.
Proof. unfold gt. rewrite negb_false_iff. apply Qle_bool_iff. Qed.

Lemma ge_false x y : ge x y = false <-> x < y.
Proof.
  unfold ge. rewrite <- not_true_iff_false, Qle_bool_iff.
  split; [apply Qnot_le_lt | apply Qlt_not_le].
Qed.

End JSFacts.

(** ** Facts about [JSON.stringify] *)

Module JsonFacts.

Import Json.

Local Open Scope string_scope.

Definition unhex (c : ascii) : N :=
  let n := N_of_ascii c in
  if (n <? 58)%N then (n - 48)%N else (n - 87)%N.

(** Reads one escaped code unit back from the front of a string. *)
Definition unescape_head (s : string) : option (ascii * string) :=
  match s with
  | EmptyString => None
  | String c r =>
      if Ascii.eqb c backslash then
        match r with
        | EmptyString => None
        | String c2 r2 =>
            if Ascii.eqb c2 "u" then
              match r2 with
              | String _ (String _ (String h1 (String h2 r3))) =>
                  Some (ascii_of_N (16 * unhex h1 + unhex h2), r3)
              | _ => None
              end
            else if Ascii.eqb c2 "b" then Some ("008"%char, r2)
            else if Ascii.eqb c2 "f" then Some ("012"%char, r2)
            else if Ascii.eqb c2 "n" then Some ("010"%char, r2)
            else if Ascii.eqb c2 "r" then Some ("013"%char, r2)
            else if Ascii.eqb c2 "t" then Some ("009"%char, r2)
            else Some (c2, r2)
        end
      else Some (c, r)
  end.

Lemma unescape_head_escape_char (c : ascii) (r : string) :
  unescape_head (escape_char c ++ r) = Some (c, r).
Proof.
  destruct c as [b0 b1 b2 b3 b4 b5 b6 b7].
  destruct b0, b1, b2, b3, b4, b5, b6, b7; reflexivity.
Qed.

Lemma escape_injective (s1 s2 : string) : escape s1 = escape s2 -> s1 = s2.
Proof.
  revert s2. induction s1 as [|c1 r1 IH]; intros [|c2 r2] H; simpl in H.
  - reflexivity.
  - apply (f_equal unescape_head) in H.
    rewrite unescape_head_escape_char in H. discriminate H.
  - apply (f_equal unescape_head) in H.
    rewrite unescape_head_escape_char in H. discriminate H.
  - apply (f_equal unescape_head) in H.
    rewrite !unescape_head_escape_char in H.
    injection H as -> Hr. f_equal. apply IH. exact Hr.
Qed.

Lemma append_assoc (a b c : string) : (a ++ b) ++ c = a ++ (b ++ c).
Proof. induction a as [|x a IH]; simpl; [reflexivity | rewrite IH; reflexivity]. Qed.

Lemma append_length (a b : string) :
  String.length (a ++ b) = (String.length a + String.length b)%nat.
Proof. induction a as [|x a IH]; simpl; [reflexivity | rewrite IH; reflexivity]. Qed.

Lemma append_inv_head (a b c : string) : a ++ b = a ++ c -> b = c.
Proof.
  induction a as [|x a IH]; simpl; intros H; [exact H |].
  injection H as H. apply IH. exact H.
Qed.

Lemma append_inv_tail (a b c : string) : a ++ c = b ++ c -> a = b.
Proof.
  revert b. induction a as [|x a IH]; intros [|y b] H; simpl in H.
  - reflexivity.
  - apply (f_equal String.length) in H. simpl in H.
    rewrite append_length in H. lia.
  - apply (f_equal String.length) in H. simpl in H.
    rewrite append_length in H. lia.
  - injection H as -> H. f_equal. apply IH. exact H.
Qed.

Lemma quote_injective (s1 s2 : string) : quote s1 = quote s2 -> s1 = s2.
Proof.
  unfold quote. intros H. injection H as H.
  apply append_inv_tail in H. apply escape_injective. exact H.
Qed.

(** The text after the first member of an object. *)
Definition after_first (others : list (string * value)) : string :=
  match List.map (fun kv => quote (fst kv) ++ ":" ++ stringify (snd kv)) others with
  | [] => "}"
  | x :: rest => "," ++ String.concat "," (x :: rest) ++ "}"
  end.

Lemma stringify_first_member (key : string) (v : value)
    (others : list (string * value)) :
  stringify (Obj ((key, v) :: others))
  = "{" ++ (quote key ++ ":") ++ stringify v ++ after_first others.
Proof.
  unfold after_first. cbn [stringify List.map fst snd]. unfold join_with_commas.
  destruct (List.map (fun kv => quote (fst kv) ++ ":" ++ stringify (snd kv)) others)
    as [|x rest]; cbn [String.concat].
  - rewrite !append_assoc. reflexivity.
  - rewrite !append_assoc. reflexivity.
Qed.

(** An object's text determines the string value of its first member, the
    other members being the same. *)
Lemma stringify_first_member_injective (key : string) (s1 s2 : string)
    (others : list (string * value)) :
  stringify (Obj ((key, Str s1) :: others))
  = stringify (Obj ((key, Str s2) :: others)) ->
  s1 = s2.
Proof.
  rewrite !stringify_first_member. intros H.
  apply append_inv_head, append_inv_head in H.
  cbn [stringify] in H. apply append_inv_tail in H.
  apply quote_injective. exact H.
Qed.

End JsonFacts.

(** ** Facts about the histograms *)

Module HistogramFacts.

Import JS JSFacts Histogram.

Lemma floor_ge_iff (k : Z) (x : Q) : (k <= Qfloor x)%Z <-> inject_Z k <= x.
Proof.
  split; intros H.
  - apply Qle_trans with (inject_Z (Qfloor x)); [| apply Qfloor_le].
    rewrite <- Zle_Qle. exact H.
  - apply Qfloor_resp_le in H. rewrite Qfloor_Z in H. exact H.
Qed.

Lemma div_ge_iff (k v w : Q) : 0 < w -> k <= v / w <-> k * w <= v.
Proof.
  intros Hw. split; intros H.
  - apply Qmult_le_r with (z := / w); [apply Qinv_lt_0_compat; exact Hw |].
    rewrite <- Qmult_assoc, Qmult_inv_r, Qmult_1_r;
      [exact H | intros E; rewrite E in Hw; discriminate].
  - apply Qle_shift_div_l; assumption.
Qed.

Lemma binIndex_ge_iff (k : Z) (v binSize w : Q) :
  0 < w -> binSize == w ->
  (k <= Math_floor ((v - 0) / binSize)%Q)%Z <-> inject_Z k * w <= v.
Proof.
  intros Hw E. unfold Math_floor. rewrite floor_ge_iff.
  assert (E' : (v - 0) / binSize == v / w) by (rewrite E; field;
    intros E0; rewrite E0 in Hw; discriminate).
  rewrite E'. apply div_ge_iff. exact Hw.
Qed.

(** The index the code computes is the bucket of the report format. *)
Lemma binIndex_in_bucket (v binSize w : Q) (i : nat) :
  0 < w -> binSize == w -> (i < 10)%nat ->
  binIndex_of 10 0 binSize v = Z.of_nat i <-> in_bucket w i v = true.
Proof.
  intros Hw E Hi. unfold binIndex_of.
  pose proof (binIndex_ge_iff 1 v binSize w Hw E) as H1.
  pose proof (binIndex_ge_iff 9 v binSize w Hw E) as H9.
  pose proof (binIndex_ge_iff (Z.of_nat i) v binSize w Hw E) as Hlo.
  pose proof (binIndex_ge_iff (Z.of_nat i + 1) v binSize w Hw E) as Hhi.
  set (f := Math_floor ((v - 0) / binSize)) in *.
  destruct i as [|i]; [| destruct (decide (S i = 9%nat)) as [->|Hne]].
  - simpl in_bucket. rewrite lt_spec.
    assert (E1 : inject_Z 1 * w == w) by (unfold inject_Z; ring).
    rewrite E1 in H1. split.
    + intros Hf. apply Qnot_le_lt. intros Hle. apply H1 in Hle. lia.
    + intros Hlt. destruct (Z_le_gt_dec 1 f) as [Hle|Hgt]; [| lia].
      apply H1 in Hle. exfalso. exact (Qlt_not_le _ _ Hlt Hle).
  - simpl in_bucket. rewrite ge_spec. change (inject_Z 9) with 9 in H9.
    rewrite <- H9. simpl Z.of_nat. lia.
  - assert (Hb : in_bucket w (S i) v
                 = ge v (inject_Z (Z.of_nat (S i)) * w)
                   && lt v (inject_Z (Z.of_nat (S i) + 1) * w)).
    { do 9 (destruct i as [|i]; [reflexivity || congruence |]). lia. }
    rewrite Hb, andb_true_iff, ge_spec, lt_spec, <- Hlo. split.
    + intros Hf. split; [lia |]. apply Qnot_le_lt. intros Hle.
      apply Hhi in Hle. lia.
    + intros [Hge Hlt].
      destruct (Z_le_gt_dec (Z.of_nat (S i) + 1) f) as [Hle|Hgt]; [| lia].
      apply Hhi in Hle. exfalso. exact (Qlt_not_le _ _ Hlt Hle).
Qed.

Lemma length_bump (i : Z) (h : list nat) : length (bump i h) = length h.
Proof. unfold bump. destruct (i <? 0)%Z; [reflexivity | apply length_alter]. Qed.

Lemma lookup_bump (i : Z) (h : list nat) (j n : nat) :
  (0 <= i)%Z -> h !! j = Some n ->
  bump i h !! j = Some (if decide (i = Z.of_nat j) then S n else n).
Proof.
  intros Hi Hj. unfold bump.
  destruct (Z.ltb_spec i 0) as [?|_]; [lia |].
  destruct (decide (i = Z.of_nat j)) as [->|Hne].
  - rewrite Nat2Z.id, list_lookup_alter_eq, Hj. reflexivity.
  - rewrite list_lookup_alter_ne; [exact Hj | lia].
Qed.

Lemma binIndex_nonneg (bins : nat) (min binSize v : Q) :
  (0 < bins)%nat -> (0 <= binIndex_of bins min binSize v)%Z.
Proof. unfold binIndex_of. lia. Qed.

Lemma fold_bump_lookup (idx : number -> Z) (vs : list number) :
  (forall v, (0 <= idx v)%Z) ->
  forall (h : list nat) (j n : nat),
  h !! j = Some n ->
  fold_left (fun histogram v => bump (idx v) histogram) vs h !! j
  = Some (n + length (filter (fun v => idx v = Z.of_nat j) vs))%nat.
Proof.
  intros Hidx. induction vs as [|v vs IH]; intros h j n Hj; simpl.
  - rewrite Hj. f_equal. lia.
  - rewrite (IH _ j _ (lookup_bump _ _ _ _ (Hidx v) Hj)).
    rewrite filter_cons. destruct (decide (idx v = Z.of_nat j)); simpl; f_equal; lia.
Qed.

Lemma filter_length_ext {A} (P Q : A -> Prop) `{!forall x, Decision (P x)}
    `{!forall x, Decision (Q x)} (l : list A) :
  (forall x, x ∈ l -> P x <-> Q x) -> length (filter P l) = length (filter Q l).
Proof.
  induction l as [|x l IH]; intros Hpq; [reflexivity |].
  assert (Hx : P x <-> Q x) by (apply Hpq; left).
  assert (Hl : length (filter P l) = length (filter Q l))
    by (apply IH; intros y Hy; apply Hpq; right; exact Hy).
  rewrite !filter_cons.
  destruct (decide (P x)) as [HP|HP], (decide (Q x)) as [HQ|HQ]; simpl;
    rewrite ?Hl; try reflexivity; exfalso.
  - apply HQ, Hx, HP.
  - apply HP, Hx, HQ.
Qed.

Lemma length_createHistogram (vs : list number) (bins : nat) (min max : Q) :
  length (createHistogram vs bins min max) = bins.
Proof.
  unfold createHistogram.
  rewrite <- (length_replicate bins 0%nat) at 2.
  generalize (replicate bins 0%nat) as h.
  induction vs as [|v vs IH]; intros h; simpl; [reflexivity |].
  rewrite IH. apply length_bump.
Qed.

(** A ten-bucket histogram over [0, 10*w) holds, per bucket, the number of
    samples of that bucket. *)
Lemma createHistogram_counts (vs : list number) (max w : Q) :
  0 < w -> (max - 0) / inject_Z (Z.of_nat 10) == w ->
  createHistogram vs 10 0 max = map (fun i => count_in w i vs) (seq 0 10).
Proof.
  intros Hw E. apply list_eq. intros j.
  destruct (decide (j < 10)%nat) as [Hj|Hj].
  - unfold createHistogram.
    set (binSize := (max - 0) / inject_Z (Z.of_nat 10)) in *.
    rewrite (fold_bump_lookup (binIndex_of 10 0 binSize) vs
               (fun v => binIndex_nonneg 10 0 binSize v ltac:(lia))
               (replicate 10 0%nat) j 0%nat).
    + rewrite list_lookup_fmap, lookup_seq_lt by exact Hj. simpl.
      f_equal. unfold count_in. apply filter_length_ext.
      intros v _. apply binIndex_in_bucket; assumption.
    + apply lookup_replicate_2. exact Hj.
  - rewrite !lookup_ge_None_2; [reflexivity | |].
    + rewrite length_map, length_seq. lia.
    + rewrite length_createHistogram. lia.
Qed.

(** Each sample belongs to exactly one of the ten buckets. *)
Lemma one_bucket (w v : Q) :
  0 < w -> length (filter (fun i => in_bucket w i v = true) (seq 0 10)) = 1%nat.
Proof.
  intros Hw.
  assert (Hb : forall i, (i < 10)%nat ->
            (in_bucket w i v = true <-> binIndex_of 10 0 w v = Z.of_nat i)).
  { intros i Hi. symmetry. apply binIndex_in_bucket; [exact Hw | reflexivity | exact Hi]. }
  assert (Hr : (0 <= binIndex_of 10 0%Q w v < 10)%Z) by (unfold binIndex_of; lia).
  set (k := binIndex_of 10 0 w v) in *.
  assert (E : length (filter (fun i => in_bucket w i v = true) (seq 0 10))
              = length (filter (fun i => k = Z.of_nat i) (seq 0 10))).
  { apply filter_length_ext. intros i Hi.
    apply elem_of_seq in Hi. apply Hb. lia. }
  rewrite E. clear E Hb.
  assert (Hk : (k = 0 \/ k = 1 \/ k = 2 \/ k = 3 \/ k = 4 \/ k = 5 \/ k = 6
               \/ k = 7 \/ k = 8 \/ k = 9)%Z) by lia.
  clearbody k. clear Hr.
  repeat (destruct Hk as [->|Hk]; [reflexivity |]). subst k. reflexivity.
Qed.

Lemma sum_list_alter_S (h : list nat) (i : nat) :
  (i < length h)%nat -> sum_list (alter S i h) = S (sum_list h).
Proof.
  revert i. induction h as [|x h IH]; intros i Hi; simpl in Hi; [lia |].
  destruct i as [|i]; [reflexivity |].
  change (alter S (S i) (x :: h)) with (x :: alter S i h).
  change (sum_list (x :: alter S i h)) with (x + sum_list (alter S i h))%nat.
  rewrite IH by lia. simpl. lia.
Qed.

Lemma sum_list_createHistogram (vs : list number) (bins : nat) (min max : Q) :
  (0 < bins)%nat -> sum_list (createHistogram vs bins min max) = length vs.
Proof.
  intros Hb. unfold createHistogram.
  set (binSize := (max - min) / inject_Z (Z.of_nat bins)).
  assert (Hgen : forall (l : list number) (h : list nat),
    length h = bins ->
    sum_list (fold_left (fun histogram v =>
                bump (binIndex_of bins min binSize v) histogram) l h)
    = (sum_list h + length l)%nat).
  { induction l as [|v l IH]; intros h Hh; simpl; [lia |].
    rewrite IH by (rewrite length_bump; exact Hh).
    assert (Hi : (0 <= binIndex_of bins min binSize v < Z.of_nat bins)%Z)
      by (unfold binIndex_of; lia).
    unfold bump. destruct (Z.ltb_spec (binIndex_of bins min binSize v) 0); [lia |].
    rewrite sum_list_alter_S by lia. lia. }
  rewrite Hgen by apply length_replicate.
  rewrite sum_list_replicate. lia.
Qed.

(** [createHistogram(dwellTimes, 10, 0, 200)] and
    [createHistogram(flightTimes, 10, 0, 300)], for any two lists of
    samples: ten buckets each, of width 20 and of width 30; bucket [i]
    counts the samples of [[i*w, (i+1)*w)], the first bucket also taking
    every sample below 0 and the last one every sample at or above the
    range. *)
Lemma createHistogram_clamped_buckets (dwellTimes flightTimes : list number) :
  createHistogram dwellTimes 10 0 200
    = map (fun i => count_in 20 i dwellTimes) (seq 0 10)
  /\ createHistogram flightTimes 10 0 300
    = map (fun i => count_in 30 i flightTimes) (seq 0 10)
  /\ length (createHistogram dwellTimes 10 0 200) = 10%nat
  /\ length (createHistogram flightTimes 10 0 300) = 10%nat
  /\ (forall v : number,
        length (filter (fun i => in_bucket 20 i v = true) (seq 0 10)) = 1%nat)
  /\ (forall v : number,
        length (filter (fun i => in_bucket 30 i v = true) (seq 0 10)) = 1%nat)
  /\ sum_list (createHistogram dwellTimes 10 0 200) = length dwellTimes
  /\ sum_list (createHistogram flightTimes 10 0 300) = length flightTimes.
Proof.
  repeat split.
  - apply createHistogram_counts; reflexivity.
  - apply createHistogram_counts; reflexivity.
  - apply length_createHistogram.
  - apply length_createHistogram.
  - intros v. apply one_bucket. reflexivity.
  - intros v. apply one_bucket. reflexivity.
  - apply sum_list_createHistogram. lia.
  - apply sum_list_createHistogram. lia.
Qed.

(** The [timing_data] of the report DOWNLOAD_COMBINED writes, whether or
    not the signature could be made. *)
Lemma report_timing_data `{WebCrypto} (env : Report.Env)
    (payload_textContent : option string) (s : Background.SessionState) :
  Report.timing_data
    (snd (Report.handle_DOWNLOAD_COMBINED env payload_textContent s))
  = {| Report.dwell_histogram :=
         createHistogram
           (Background.Stats.dwellTimes
              (Background.calculateStats (Report.Date_now env) s)) 10 0 200;
       Report.flight_histogram :=
         createHistogram
           (Background.Stats.flightTimes
              (Background.calculateStats (Report.Date_now env) s)) 10 0 300 |}.
Proof.
  unfold Report.handle_DOWNLOAD_COMBINED.
  destruct (generateKey (Report.draw env)) as [[pk sk]|]; reflexivity.
Qed.

(** C9. In the report DOWNLOAD_COMBINED writes, for every state of the
    worker (so for whatever dwell and flight samples [calculateStats] finds
    in the session), [timing_data.dwell_histogram] and
    [timing_data.flight_histogram] have ten buckets each, of width 20 ms
    over 0-200 ms for the dwell samples and of width 30 ms over 0-300 ms for
    the flight samples; bucket [i] counts the samples of [[i*w, (i+1)*w)],
    the first bucket also taking every sample below 0 and the last one
    every sample at or above the range.  Every sample lies in exactly one
    bucket, and the counts of each histogram add up to the number of
    samples.  The two histograms are [createHistogram(dwellTimes, 10, 0,
    200)] and [createHistogram(flightTimes, 10, 0, 300)], of which the same
    holds for every list of samples. *)
Theorem histograms_clamped_buckets `{WebCrypto} (env : Report.Env)
    (payload_textContent : option string) (s : Background.SessionState) :
  let stats := Background.calculateStats (Report.Date_now env) s in
  let dwellTimes := Background.Stats.dwellTimes stats in
  let flightTimes := Background.Stats.flightTimes stats in
  let timing_data :=
    Report.timing_data
      (snd (Report.handle_DOWNLOAD_COMBINED env payload_textContent s)) in
  Report.dwell_histogram timing_data
    = map (fun i => count_in 20 i dwellTimes) (seq 0 10)
  /\ Report.flight_histogram timing_data
    = map (fun i => count_in 30 i flightTimes) (seq 0 10)
  /\ length (Report.dwell_histogram timing_data) = 10%nat
  /\ length (Report.flight_histogram timing_data) = 10%nat
  /\ (forall v : number,
        length (filter (fun i => in_bucket 20 i v = true) (seq 0 10)) = 1%nat)
  /\ (forall v : number,
        length (filter (fun i => in_bucket 30 i v = true) (seq 0 10)) = 1%nat)
  /\ sum_list (Report.dwell_histogram timing_data) = length dwellTimes
  /\ sum_list (Report.flight_histogram timing_data) = length flightTimes
  /\ Report.dwell_histogram timing_data = createHistogram dwellTimes 10 0 200
  /\ Report.flight_histogram timing_data = createHistogram flightTimes 10 0 300
  /\ (forall dwellSamples flightSamples : list number,
        createHistogram dwellSamples 10 0 200
        = map (fun i => count_in 20 i dwellSamples) (seq 0 10)
        /\ createHistogram flightSamples 10 0 300
           = map (fun i => count_in 30 i flightSamples) (seq 0 10)
        /\ sum_list (createHistogram dwellSamples 10 0 200)
           = length dwellSamples
        /\ sum_list (createHistogram flightSamples 10 0 300)
           = length flightSamples).
Proof.
  intros stats dwellTimes flightTimes timing_data.
  unfold timing_data. rewrite report_timing_data.
  cbn [Report.dwell_histogram Report.flight_histogram].
  fold stats. fold dwellTimes. fold flightTimes.
  destruct (createHistogram_clamped_buckets dwellTimes flightTimes)
    as (Hd & Hf & Hld & Hlf & Hbd & Hbf & Hsd & Hsf).
  repeat match goal with |- _ /\ _ => split end;
    try assumption; try reflexivity.
  intros dwellSamples flightSamples.
  destruct (createHistogram_clamped_buckets dwellSamples flightSamples)
    as (Hd' & Hf' & _ & _ & _ & _ & Hsd' & Hsf').
  repeat split; assumption.
Qed.

End HistogramFacts.

(** ** Facts about the worker's ledger *)

Module BackgroundFacts.

Import JS Types Background.

(** A handler keeps (or changes) the three counters; the tactic below
    decides the conditionals of a handler that only touches other fields. *)
Ltac case_ifs :=
  repeat match goal with
         | |- context [if ?c then _ else _] => destruct c
         end.

Lemma live_verdict_ledger (s : SessionState) :
  totalTypedChars (live_verdict s) = totalTypedChars s
  /\ totalPastedChars (live_verdict s) = totalPastedChars s
  /\ totalAiChars (live_verdict s) = totalAiChars s.
Proof. unfold live_verdict. case_ifs; repeat split; reflexivity. Qed.

Lemma count_event_ledger (s : SessionState) (e : KeystrokeEvent) :
  totalTypedChars (count_event s e)
  = (totalTypedChars s + Pipeline.typed_in [e])%Z
  /\ totalPastedChars (count_event s e) = totalPastedChars s
  /\ totalAiChars (count_event s e)
     = (totalAiChars s + Pipeline.marker_chars e)%Z.
Proof.
  unfold count_event, Pipeline.typed_in, Pipeline.marker_chars. simpl.
  fold (Pipeline.is_typed e).
  destruct (Pipeline.is_typed e); simpl.
  - repeat split; lia.
  - destruct (EventType_eqb (event_type e) ai_assistant); simpl;
      repeat split; lia.
Qed.

Lemma typed_in_cons (e : KeystrokeEvent) (es : list KeystrokeEvent) :
  Pipeline.typed_in (e :: es)
  = (Pipeline.typed_in [e] + Pipeline.typed_in es)%Z.
Proof.
  unfold Pipeline.typed_in. simpl.
  destruct (Pipeline.is_typed e); simpl length; lia.
Qed.

Lemma typed_in_app (es1 es2 : list KeystrokeEvent) :
  Pipeline.typed_in (es1 ++ es2)
  = (Pipeline.typed_in es1 + Pipeline.typed_in es2)%Z.
Proof.
  induction es1 as [|e es1 IH]; [reflexivity |].
  change ((e :: es1) ++ es2) with (e :: (es1 ++ es2)).
  rewrite (typed_in_cons e (es1 ++ es2)), (typed_in_cons e es1), IH. lia.
Qed.

Lemma assistant_in_app (es1 es2 : list KeystrokeEvent) :
  Pipeline.assistant_in (es1 ++ es2)
  = (Pipeline.assistant_in es1 + Pipeline.assistant_in es2)%Z.
Proof.
  induction es1 as [|e es1 IH]; simpl; [reflexivity |].
  rewrite IH. lia.
Qed.

Lemma fold_count_event_ledger (es : list KeystrokeEvent) :
  forall s : SessionState,
  totalTypedChars (fold_left count_event es s)
  = (totalTypedChars s + Pipeline.typed_in es)%Z
  /\ totalPastedChars (fold_left count_event es s) = totalPastedChars s
  /\ totalAiChars (fold_left count_event es s)
     = (totalAiChars s + Pipeline.assistant_in es)%Z.
Proof.
  induction es as [|e es IH]; intros s.
  - unfold Pipeline.typed_in. simpl. repeat split; lia.
  - change (fold_left count_event (e :: es) s)
      with (fold_left count_event es (count_event s e)).
    destruct (IH (count_event s e)) as (Ht & Hp & Ha).
    destruct (count_event_ledger s e) as (Ht1 & Hp1 & Ha1).
    rewrite Ht, Hp, Ha, Ht1, Hp1, Ha1, (typed_in_cons e es). simpl.
    repeat split; lia.
Qed.

(** A batch adds its typed characters to the typed counter and the counts of
    its assistant markers to the assistant counter, and nothing else. *)
Lemma handle_KEYSTROKE_BATCH_ledger (events : list KeystrokeEvent)
    (s : SessionState) :
  totalTypedChars (handle_KEYSTROKE_BATCH events s)
  = (totalTypedChars s + Pipeline.typed_in events)%Z
  /\ totalPastedChars (handle_KEYSTROKE_BATCH events s) = totalPastedChars s
  /\ totalAiChars (handle_KEYSTROKE_BATCH events s)
     = (totalAiChars s + Pipeline.assistant_in events)%Z.
Proof.
  unfold handle_KEYSTROKE_BATCH.
  set (s1 := with_events (keystrokes s ++ events) (pasteEvents s) s).
  destruct (live_verdict_ledger (fold_left count_event events s1)) as (Ht & Hp & Ha).
  destruct (fold_count_event_ledger events s1) as (Ht1 & Hp1 & Ha1).
  rewrite Ht, Hp, Ha, Ht1, Hp1, Ha1. repeat split; reflexivity.
Qed.

(** A paste event adds its length to the pasted counter, and nothing else. *)
Lemma handle_PASTE_EVENT_ledger (event : PasteEvent) (s : SessionState) :
  totalTypedChars (handle_PASTE_EVENT event s) = totalTypedChars s
  /\ totalPastedChars (handle_PASTE_EVENT event s)
     = (totalPastedChars s + pasted_length event)%Z
  /\ totalAiChars (handle_PASTE_EVENT event s) = totalAiChars s.
Proof. unfold handle_PASTE_EVENT. case_ifs; repeat split; reflexivity. Qed.

End BackgroundFacts.

(** ** Facts about the capture pipeline *)

Module PipelineFacts.

Import JS Types Pipeline BackgroundFacts.

Lemma tally_eq (t1 p1 a1 t2 p2 a2 : Z) :
  t1 = t2 -> p1 = p2 -> a1 = a2 ->
  {| typed := t1; pasted := p1; assistant := a1 |}
  = {| typed := t2; pasted := p2; assistant := a2 |}.
Proof. intros -> -> ->. reflexivity. Qed.

Lemma tally_add_no_chars (x : Tally) : tally_add x no_chars = x.
Proof.
  destruct x as [t p a]. unfold tally_add. simpl.
  apply tally_eq; lia.
Qed.

(** Flushing moves events from the page to the worker: the ledger of the
    whole does not change, whether the batch is delivered or put back. *)
Lemma flush_ledger (force delivered : bool) (now : number)
    (t : Tracker.KeystrokeTracker) (b : Background.SessionState) :
  ledger (fst (Tracker.flush force delivered now t),
          fold_left deliver (snd (Tracker.flush force delivered now t)) b)
  = ledger (t, b).
Proof.
  unfold Tracker.flush.
  destruct (Tracker.sessionId t) as [[|c0 r0]|]; [reflexivity | | reflexivity].
  cbv zeta.
  destruct (length (Tracker.events t) =? 0)%nat; [reflexivity |].
  destruct (negb force && (length (Tracker.events t) <? Tracker.MIN_FLUSH_SIZE)%nat);
    [reflexivity |].
  destruct delivered.
  - unfold ledger. cbn [fst snd fold_left deliver Background.handleMessage
                        Tracker.events].
    destruct (handle_KEYSTROKE_BATCH_ledger
                (take Tracker.BATCH_SIZE (Tracker.events t)) b) as (Ht & Hp & Ha).
    rewrite Ht, Hp, Ha.
    assert (Et : typed_in (Tracker.events t)
                 = (typed_in (take Tracker.BATCH_SIZE (Tracker.events t))
                    + typed_in (drop Tracker.BATCH_SIZE (Tracker.events t)))%Z)
      by (rewrite <- typed_in_app, take_drop; reflexivity).
    assert (Ea : assistant_in (Tracker.events t)
                 = (assistant_in (take Tracker.BATCH_SIZE (Tracker.events t))
                    + assistant_in (drop Tracker.BATCH_SIZE (Tracker.events t)))%Z)
      by (rewrite <- assistant_in_app, take_drop; reflexivity).
    rewrite Et, Ea. apply tally_eq; lia.
  - unfold ledger. cbn [fst snd fold_left Tracker.events].
    rewrite take_drop. reflexivity.
Qed.

Lemma scheduleFlush_ledger (delivered : bool) (now : number)
    (t : Tracker.KeystrokeTracker) (b : Background.SessionState) :
  ledger (fst (Tracker.scheduleFlush delivered now t),
          fold_left deliver (snd (Tracker.scheduleFlush delivered now t)) b)
  = ledger (t, b).
Proof.
  unfold Tracker.scheduleFlush.
  destruct (Tracker.BATCH_SIZE <=? length (Tracker.events t))%nat.
  - apply flush_ledger.
  - reflexivity.
Qed.

(** The ledger of a system whose buffer and counters are given. *)
Lemma ledger_with_buffer (es : list KeystrokeEvent) (ty pa : Z)
    (t : Tracker.KeystrokeTracker) (b : Background.SessionState) :
  ledger (Tracker.with_buffer es ty pa t, b)
  = {| typed := Background.totalTypedChars b + typed_in es;
       pasted := Background.totalPastedChars b;
       assistant := Background.totalAiChars b + assistant_in es |}.
Proof. reflexivity. Qed.

(** The synthetic keystrokes of an assistant insertion carry no typed
    character and no assistant count: only the volume marker counts. *)
Lemma synthesize_uncounted (chars : string) :
  forall (i : nat) (dwell flight : nat -> number) (timestamp : number),
  typed_in (fst (Tracker.synthesize chars i dwell flight timestamp)) = 0%Z
  /\ assistant_in (fst (Tracker.synthesize chars i dwell flight timestamp)) = 0%Z.
Proof.
  induction chars as [|c rest IH]; intros i dwell flight timestamp; simpl.
  - split; reflexivity.
  - specialize (IH (S i) dwell flight
                   (timestamp + (dwell i + flight i))).
    destruct (Tracker.synthesize rest (S i) dwell flight
                (timestamp + (dwell i + flight i))) as [more final].
    simpl in *. destruct IH as [IHt IHa]. split.
    + unfold typed_in in *. simpl. exact IHt.
    + unfold marker_chars. simpl. rewrite IHa. reflexivity.
Qed.

Lemma step_eq (sys : System) (a : Action) :
  step sys a
  = (fst (handle a (fst sys)),
     fold_left deliver (snd (handle a (fst sys))) (snd sys)).
Proof. unfold step. destruct (handle a (fst sys)); reflexivity. Qed.

Lemma printable_truthy (k : string) :
  Tracker.printable k = true -> truthy_string (Some k) = true.
Proof. destruct k; [discriminate | reflexivity]. Qed.

Lemma typed_in_snoc (es : list KeystrokeEvent) (e : KeystrokeEvent) :
  typed_in (es ++ [e]) = (typed_in es + if is_typed e then 1 else 0)%Z.
Proof.
  rewrite typed_in_app. unfold typed_in at 2. simpl.
  destruct (is_typed e); reflexivity.
Qed.

Lemma assistant_in_snoc (es : list KeystrokeEvent) (e : KeystrokeEvent) :
  assistant_in (es ++ [e]) = (assistant_in es + marker_chars e)%Z.
Proof. rewrite assistant_in_app. simpl. lia. Qed.

Lemma ledger_pair (t : Tracker.KeystrokeTracker) (b : Background.SessionState) :
  ledger (t, b)
  = {| typed := Background.totalTypedChars b + typed_in (Tracker.events t);
       pasted := Background.totalPastedChars b;
       assistant := Background.totalAiChars b + assistant_in (Tracker.events t) |}.
Proof. reflexivity. Qed.

Lemma handleKeyDown_ledger (event : Tracker.KeyboardEvent) (now : number)
    (delivered : bool) (t : Tracker.KeystrokeTracker)
    (b : Background.SessionState) :
  ledger (step (t, b) (KeyDown event now delivered))
  = tally_add (ledger (t, b)) (accepted t (KeyDown event now delivered)).
Proof.
  rewrite step_eq. cbn [fst snd handle accepted].
  unfold Tracker.handleKeyDown, Tracker.handleKeyDown_record.
  destruct (Tracker.isTracking t); cbn [negb andb].
  - rewrite scheduleFlush_ledger, ledger_with_buffer, ledger_pair.
    rewrite typed_in_snoc, assistant_in_snoc.
    unfold is_typed, marker_chars, tally_add. cbn.
    destruct (Tracker.printable (Tracker.key event)) eqn:Hp; cbn.
    + pose proof (printable_truthy _ Hp) as Ht. cbn in Ht.
      rewrite Ht, ?andb_false_r. cbn. apply tally_eq; lia.
    + rewrite ?andb_false_r. cbn. apply tally_eq; lia.
  - cbn [fst snd fold_left]. rewrite tally_add_no_chars. reflexivity.
Qed.

Lemma handleKeyUp_ledger (event : Tracker.KeyboardEvent) (now : number)
    (delivered : bool) (t : Tracker.KeystrokeTracker)
    (b : Background.SessionState) :
  ledger (step (t, b) (KeyUp event now delivered))
  = tally_add (ledger (t, b)) (accepted t (KeyUp event now delivered)).
Proof.
  rewrite step_eq. cbn [fst snd handle accepted].
  rewrite tally_add_no_chars. unfold Tracker.handleKeyUp.
  destruct (Tracker.isTracking t); cbn [negb]; [| reflexivity].
  rewrite scheduleFlush_ledger, ledger_with_buffer, ledger_pair.
  rewrite typed_in_snoc, assistant_in_snoc.
  unfold is_typed, marker_chars. cbn. rewrite ?andb_false_r. cbn.
  apply tally_eq; lia.
Qed.

Lemma marker_chars_other (e : KeystrokeEvent) :
  event_type e <> ai_assistant -> marker_chars e = 0%Z.
Proof.
  intros H. unfold marker_chars.
  destruct (event_type e); try contradiction; cbn;
    rewrite ?andb_false_r; reflexivity.
Qed.

Lemma is_typed_other (e : KeystrokeEvent) :
  event_type e <> keydown -> is_typed e = false.
Proof.
  intros H. unfold is_typed.
  destruct (event_type e); try contradiction; reflexivity.
Qed.

Lemma typed_in_single (e : KeystrokeEvent) :
  typed_in [e] = if is_typed e then 1%Z else 0%Z.
Proof. unfold typed_in. simpl. destruct (is_typed e); reflexivity. Qed.

Lemma handleInput_ledger (data : option string) (now : number)
    (delivered : bool) (t : Tracker.KeystrokeTracker)
    (b : Background.SessionState) :
  ledger (step (t, b) (Input data now delivered))
  = tally_add (ledger (t, b)) (accepted t (Input data now delivered)).
Proof.
  rewrite step_eq. cbn [fst snd handle accepted].
  unfold Tracker.handleInput.
  destruct (Tracker.isTracking t); cbn [negb andb].
  - change (Tracker.ai_window now (Tracker.with_lastInputTime now t))
      with (Tracker.ai_window now t).
    destruct (Tracker.ai_window now t); cbn [negb andb].
    + destruct data; rewrite tally_add_no_chars; reflexivity.
    + destruct data as [x|]; [| rewrite tally_add_no_chars; reflexivity].
      destruct (String.length x =? 1)%nat eqn:Hx;
        [| rewrite tally_add_no_chars; reflexivity].
      rewrite scheduleFlush_ledger, ledger_with_buffer, ledger_pair.
      change (Tracker.events (Tracker.with_lastInputTime now t))
        with (Tracker.events t).
      set (down := {| event_type := keydown; key_code := Tracker.charCodeAt0 x;
                      key_char := Some x; client_timestamp := now;
                      input_method := None |}).
      set (up := {| event_type := keyup; key_code := Tracker.charCodeAt0 x;
                    key_char := Some x; client_timestamp := now + 50;
                    input_method := None |}).
      assert (Hd : is_typed down = true).
      { unfold is_typed, down. cbn [event_type key_char input_method].
        rewrite (printable_truthy x Hx). reflexivity. }
      rewrite typed_in_app, assistant_in_app, (typed_in_cons down [up]).
      rewrite !typed_in_single, Hd, (is_typed_other up) by discriminate.
      unfold assistant_in at 2. cbn [fold_right].
      rewrite (marker_chars_other down), (marker_chars_other up) by discriminate.
      unfold tally_add. cbn [typed pasted assistant].
      apply tally_eq; lia.
  - destruct data; rewrite tally_add_no_chars; reflexivity.
Qed.

Lemma handlePaste_ledger (clipboard : option string) (now : number)
    (delivered : bool) (t : Tracker.KeystrokeTracker)
    (b : Background.SessionState) :
  ledger (step (t, b) (Paste clipboard now delivered))
  = tally_add (ledger (t, b)) (accepted t (Paste clipboard now delivered)).
Proof.
  rewrite step_eq. cbn [fst snd handle accepted].
  unfold Tracker.handlePaste.
  destruct (Tracker.isTracking t);
    [| destruct clipboard; rewrite tally_add_no_chars; reflexivity].
  destruct (Tracker.sessionId t) as [[|c0 r0]|];
    [destruct clipboard; rewrite tally_add_no_chars; reflexivity |
     | destruct clipboard; rewrite tally_add_no_chars; reflexivity].
  cbv zeta. set (sid := String c0 r0).
  destruct (Tracker.ai_window now t);
    [destruct clipboard; rewrite tally_add_no_chars; reflexivity |].
  set (pastedText := match clipboard with Some x => x | None => EmptyString end).
  assert (Hacc : match clipboard with
                 | Some text => {| typed := 0; pasted := Z.of_nat (String.length text);
                                   assistant := 0 |}
                 | None => no_chars
                 end
                 = {| typed := 0; pasted := Z.of_nat (String.length pastedText);
                      assistant := 0 |})
    by (destruct clipboard; reflexivity).
  rewrite Hacc. clear Hacc.
  destruct (0 <? Z.of_nat (String.length pastedText))%Z eqn:Hlen.
  - set (marker := {| event_type := paste;
                      key_code := Z.of_nat (String.length pastedText);
                      key_char := None; client_timestamp := now;
                      input_method := Some method_paste |}).
    set (pasteEvent := {| pasted_length := Z.of_nat (String.length pastedText);
                          paste_timestamp := now |}).
    set (t1 := Tracker.with_pasteEvents _ _).
    destruct (Tracker.scheduleFlush delivered now t1) as [t2 out] eqn:Hsf.
    cbn [fst snd fold_left].
    pose proof (scheduleFlush_ledger delivered now t1
                  (deliver b (Tracker.SendPaste sid pasteEvent))) as Hl.
    rewrite Hsf in Hl. cbn [fst snd] in Hl. rewrite Hl.
    rewrite !ledger_pair.
    change (Tracker.events t1) with (Tracker.events t ++ [marker]).
    cbn [deliver Background.handleMessage].
    destruct (handle_PASTE_EVENT_ledger pasteEvent b) as (Ht & Hp & Ha).
    rewrite Ht, Hp, Ha, typed_in_snoc, assistant_in_snoc.
    rewrite (is_typed_other marker), (marker_chars_other marker) by discriminate.
    unfold tally_add, pasteEvent. cbn [typed pasted assistant pasted_length].
    apply tally_eq; lia.
  - cbn [fst snd fold_left]. apply Z.ltb_ge in Hlen.
    rewrite ledger_pair. unfold tally_add. cbn [typed pasted assistant].
    apply tally_eq; lia.
Qed.

Lemma synthesizeAiBurst_ledger (text : string) (now : number)
    (dwell flight : nat -> number) (delivered : bool)
    (t : Tracker.KeystrokeTracker) (b : Background.SessionState) :
  truthy_string (Some text) = true ->
  ledger (fst (Tracker.synthesizeAiBurst text now dwell flight delivered t),
          fold_left deliver
            (snd (Tracker.synthesizeAiBurst text now dwell flight delivered t)) b)
  = tally_add (ledger (t, b))
      {| typed := 0; pasted := 0; assistant := Z.of_nat (String.length text) |}.
Proof.
  intros Htext. unfold Tracker.synthesizeAiBurst.
  pose proof (synthesize_uncounted text 0 dwell flight now) as [Hkt Hka].
  destruct (Tracker.synthesize text 0 dwell flight now) as [keystrokes timestamp].
  cbn [fst] in Hkt, Hka.
  set (len := Z.of_nat (String.length text)) in *.
  set (marker := {| event_type := ai_assistant; key_code := len;
                    key_char := None; client_timestamp := timestamp;
                    input_method := Some method_ai_assistant |}).
  rewrite scheduleFlush_ledger, ledger_with_buffer, ledger_pair.
  change (Tracker.events (Tracker.with_ai_flags true (now + 500) len t))
    with (Tracker.events t).
  rewrite !typed_in_app, !assistant_in_app, Hkt, Hka, typed_in_single.
  rewrite (is_typed_other marker) by discriminate.
  assert (Hm : marker_chars marker = len).
  { unfold marker_chars, is_typed, marker.
    cbn [event_type key_char key_code input_method EventType_eqb
         truthy_string andb negb].
    assert (Hpos : (len =? 0)%Z = false).
    { apply Z.eqb_neq. subst len. destruct text; [discriminate | simpl; lia]. }
    rewrite Hpos. reflexivity. }
  unfold assistant_in at 2. cbn [fold_right]. rewrite Hm.
  unfold tally_add. cbn [typed pasted assistant].
  apply tally_eq; lia.
Qed.

Lemma handleWindowMessage_ledger (src : bool) (ty text : option string)
    (now : number) (dwell flight : nat -> number) (delivered : bool)
    (t : Tracker.KeystrokeTracker) (b : Background.SessionState) :
  ledger (step (t, b) (WindowMessage src ty text now dwell flight delivered))
  = tally_add (ledger (t, b))
      (accepted t (WindowMessage src ty text now dwell flight delivered)).
Proof.
  rewrite step_eq. cbn [fst snd handle accepted].
  unfold Tracker.handleWindowMessage.
  destruct src; cbn [negb]; [| rewrite tally_add_no_chars; reflexivity].
  destruct ty as [ty|]; [| rewrite tally_add_no_chars; reflexivity].
  destruct text as [text|]; [| rewrite tally_add_no_chars; reflexivity].
  destruct (String.eqb ty "humanSign:aiInsert"); cbn [andb];
    [| rewrite tally_add_no_chars; reflexivity].
  destruct (truthy_string (Some text)) eqn:Htext.
  - apply synthesizeAiBurst_ledger. exact Htext.
  - destruct text; [| discriminate]. cbn [fst snd fold_left].
    rewrite ledger_pair. unfold tally_add. cbn. apply tally_eq; lia.
Qed.

(** One action changes the ledger by what it accepted. *)
Lemma step_ledger (sys : System) (a : Action) :
  ledger (step sys a) = tally_add (ledger sys) (accepted (fst sys) a).
Proof.
  destruct sys as [t b]. cbn [fst].
  destruct a as [event now d | event now d | data now d | clipboard now d
                | src ty text now dwell flight d | | now d | now d].
  - apply handleKeyDown_ledger.
  - apply handleKeyUp_ledger.
  - apply handleInput_ledger.
  - apply handlePaste_ledger.
  - apply handleWindowMessage_ledger.
  - rewrite step_eq. cbn [fst snd handle accepted fold_left].
    rewrite tally_add_no_chars. reflexivity.
  - rewrite step_eq. cbn [fst snd handle accepted].
    rewrite flush_ledger, tally_add_no_chars. reflexivity.
  - rewrite step_eq. cbn [fst snd handle accepted].
    rewrite flush_ledger, tally_add_no_chars. reflexivity.
Qed.

Lemma tally_add_assoc (x y z : Tally) :
  tally_add (tally_add x y) z = tally_add x (tally_add y z).
Proof. unfold tally_add. cbn. apply tally_eq; lia. Qed.

(** An action accepts characters under at most one category. *)
Lemma accepted_one_category (t : Tracker.KeystrokeTracker) (a : Action) :
  (pasted (accepted t a) = 0 /\ assistant (accepted t a) = 0)%Z
  \/ (typed (accepted t a) = 0 /\ assistant (accepted t a) = 0)%Z
  \/ (typed (accepted t a) = 0 /\ pasted (accepted t a) = 0)%Z.
Proof.
  destruct a as [event now d | event now d | data now d | clipboard now d
                | src ty text now dwell flight d | | now d | now d];
    cbn [accepted]; try (left; split; reflexivity).
  - left. destruct (_ && _); split; reflexivity.
  - left. destruct data; [destruct (_ && _) |]; split; reflexivity.
  - right; left. destruct clipboard; [| split; reflexivity].
    destruct (Tracker.isTracking t); [| split; reflexivity].
    destruct (Tracker.sessionId t) as [[|c0 r0]|]; try (split; reflexivity).
    destruct (Tracker.ai_window now t); split; reflexivity.
  - right; right. destruct src; [| split; reflexivity].
    destruct ty; [| split; reflexivity].
    destruct text; [| split; reflexivity].
    destruct (String.eqb _ _); split; reflexivity.
Qed.

(** *** The tracker's own tally *)

Lemma flush_counters (force delivered : bool) (now : number)
    (t : Tracker.KeystrokeTracker) :
  Tracker.totalTypedChars (fst (Tracker.flush force delivered now t))
  = Tracker.totalTypedChars t
  /\ Tracker.totalPastedChars (fst (Tracker.flush force delivered now t))
     = Tracker.totalPastedChars t.
Proof.
  unfold Tracker.flush.
  destruct (Tracker.sessionId t) as [[|c0 r0]|];
    [split; reflexivity | | split; reflexivity].
  cbv zeta.
  destruct (length (Tracker.events t) =? 0)%nat; [split; reflexivity |].
  destruct (negb force && _); [split; reflexivity |].
  destruct delivered; split; reflexivity.
Qed.

Lemma scheduleFlush_counters (delivered : bool) (now : number)
    (t : Tracker.KeystrokeTracker) :
  Tracker.totalTypedChars (fst (Tracker.scheduleFlush delivered now t))
  = Tracker.totalTypedChars t
  /\ Tracker.totalPastedChars (fst (Tracker.scheduleFlush delivered now t))
     = Tracker.totalPastedChars t.
Proof.
  unfold Tracker.scheduleFlush.
  destruct (Tracker.BATCH_SIZE <=? length (Tracker.events t))%nat.
  - apply flush_counters.
  - split; reflexivity.
Qed.

(** The tracker keeps two counters: typed characters go to the first, and
    both pasted characters and assistant insertions go to the second. *)
Lemma handle_tracker_tally (t : Tracker.KeystrokeTracker) (a : Action) :
  Tracker.totalTypedChars (fst (handle a t))
  = (Tracker.totalTypedChars t + typed (accepted t a))%Z
  /\ Tracker.totalPastedChars (fst (handle a t))
     = (Tracker.totalPastedChars t
        + (pasted (accepted t a) + assistant (accepted t a)))%Z.
Proof.
  destruct a as [event now d | event now d | data now d | clipboard now d
                | src ty text now dwell flight d | | now d | now d];
    cbn [handle accepted].
  - unfold Tracker.handleKeyDown, Tracker.handleKeyDown_record.
    destruct (Tracker.isTracking t); cbn [negb andb fst].
    + destruct (scheduleFlush_counters d now
                  (Tracker.with_buffer
                     (Tracker.events t ++
                        [{| event_type := keydown;
                            key_code := Tracker.keyCode event;
                            key_char := if Tracker.printable (Tracker.key event)
                                        then Some (Tracker.key event) else None;
                            client_timestamp := now; input_method := None |}])
                     (if Tracker.printable (Tracker.key event)
                      then Tracker.totalTypedChars t + 1
                      else Tracker.totalTypedChars t)%Z
                     (Tracker.totalPastedChars t) t)) as [Ht Hp].
      rewrite Ht, Hp.
      destruct (Tracker.printable (Tracker.key event)); cbn; split; lia.
    + cbn. split; lia.
  - unfold Tracker.handleKeyUp.
    destruct (Tracker.isTracking t); cbn [negb fst].
    + match goal with
      | |- context [Tracker.scheduleFlush d now ?t'] =>
          destruct (scheduleFlush_counters d now t') as [Ht Hp]
      end.
      rewrite Ht, Hp. cbn. split; lia.
    + cbn. split; lia.
  - unfold Tracker.handleInput.
    destruct (Tracker.isTracking t); cbn [negb andb fst];
      [| destruct data; cbn; split; lia].
    change (Tracker.ai_window now (Tracker.with_lastInputTime now t))
      with (Tracker.ai_window now t).
    destruct (Tracker.ai_window now t); cbn [negb andb];
      [destruct data; cbn; split; lia |].
    destruct data as [x|]; [| cbn; split; lia].
    destruct (String.length x =? 1)%nat; [| cbn; split; lia].
    match goal with
    | |- context [Tracker.scheduleFlush d now ?t'] =>
        destruct (scheduleFlush_counters d now t') as [Ht Hp]
    end.
    rewrite Ht, Hp. cbn. split; lia.
  - unfold Tracker.handlePaste.
    destruct (Tracker.isTracking t); [| destruct clipboard; cbn; split; lia].
    destruct (Tracker.sessionId t) as [[|c0 r0]|];
      [destruct clipboard; cbn; split; lia | | destruct clipboard; cbn; split; lia].
    cbv zeta.
    destruct (Tracker.ai_window now t); [destruct clipboard; cbn; split; lia |].
    set (pastedText := match clipboard with Some x => x | None => EmptyString end).
    assert (Hacc : match clipboard with
                   | Some text => {| typed := 0;
                                     pasted := Z.of_nat (String.length text);
                                     assistant := 0 |}
                   | None => no_chars
                   end
                   = {| typed := 0; pasted := Z.of_nat (String.length pastedText);
                        assistant := 0 |})
      by (destruct clipboard; reflexivity).
    rewrite Hacc. clear Hacc.
    destruct (0 <? Z.of_nat (String.length pastedText))%Z eqn:Hlen.
    + match goal with
      | |- context [Tracker.scheduleFlush d now ?t'] =>
          destruct (scheduleFlush_counters d now t') as [Ht Hp];
          destruct (Tracker.scheduleFlush d now t') as [t2 out]
      end.
      cbn [fst] in *. rewrite Ht, Hp. cbn. split; lia.
    + apply Z.ltb_ge in Hlen. cbn. split; lia.
  - unfold Tracker.handleWindowMessage.
    destruct src; cbn [negb]; [| cbn; split; lia].
    destruct ty as [ty|]; [| cbn; split; lia].
    destruct text as [text|]; [| cbn; split; lia].
    destruct (String.eqb ty "humanSign:aiInsert"); cbn [andb];
      [| cbn; split; lia].
    destruct (truthy_string (Some text)) eqn:Htext.
    + unfold Tracker.synthesizeAiBurst.
      destruct (Tracker.synthesize text 0 dwell flight now) as [ks ts].
      match goal with
      | |- context [Tracker.scheduleFlush d now ?t'] =>
          destruct (scheduleFlush_counters d now t') as [Ht Hp]
      end.
      rewrite Ht, Hp. cbn. split; lia.
    + destruct text; [| discriminate]. cbn. split; lia.
  - cbn. split; lia.
  - destruct (flush_counters false d now t) as [Ht Hp].
    rewrite Ht, Hp. cbn. split; lia.
  - destruct (flush_counters true d now t) as [Ht Hp].
    rewrite Ht, Hp. cbn. split; lia.
Qed.

(** *** The ledger over a run of capture actions *)

Lemma run_cons (sys : System) (a : Action) (actions : list Action) :
  run sys (a :: actions) = run (step sys a) actions.
Proof. reflexivity. Qed.


(** Over any run of handler calls whose messages the worker all handles,
    from any state of the tracker and of the worker, the worker's three
    counters (with the events still buffered on the page) grow by exactly
    the characters the calls accepted in each category, and every call
    accepts characters in at most one category.  The tracker's own tally has
    two counters; it counts typed characters in the first and both pasted
    and assistant characters in the second. *)
Lemma ledger_when_every_message_is_handled
    (sys : System) (actions : list Action) :
  ledger (run sys actions) = tally_add (ledger sys) (accepted_during sys actions)
  /\ (typed (ledger (run sys actions)) + pasted (ledger (run sys actions))
      + assistant (ledger (run sys actions))
      = typed (ledger sys) + pasted (ledger sys) + assistant (ledger sys)
        + (typed (accepted_during sys actions)
           + pasted (accepted_during sys actions)
           + assistant (accepted_during sys actions)))%Z
  /\ (forall (t : Tracker.KeystrokeTracker) (a : Action),
        (pasted (accepted t a) = 0 /\ assistant (accepted t a) = 0)%Z
        \/ (typed (accepted t a) = 0 /\ assistant (accepted t a) = 0)%Z
        \/ (typed (accepted t a) = 0 /\ pasted (accepted t a) = 0)%Z)
  /\ Tracker.totalTypedChars (fst (run sys actions))
     = (Tracker.totalTypedChars (fst sys) + typed (accepted_during sys actions))%Z
  /\ Tracker.totalPastedChars (fst (run sys actions))
     = (Tracker.totalPastedChars (fst sys)
        + (pasted (accepted_during sys actions)
           + assistant (accepted_during sys actions)))%Z.
Proof.
  assert (Hledger : forall actions sys,
            ledger (run sys actions)
            = tally_add (ledger sys) (accepted_during sys actions)).
  { clear. induction actions as [|a actions IH]; intros sys.
    - cbn [run fold_left accepted_during]. rewrite tally_add_no_chars. reflexivity.
    - rewrite run_cons, IH, step_ledger. cbn [accepted_during].
      apply tally_add_assoc. }
  assert (Htracker : forall actions sys,
            Tracker.totalTypedChars (fst (run sys actions))
            = (Tracker.totalTypedChars (fst sys)
               + typed (accepted_during sys actions))%Z
            /\ Tracker.totalPastedChars (fst (run sys actions))
               = (Tracker.totalPastedChars (fst sys)
                  + (pasted (accepted_during sys actions)
                     + assistant (accepted_during sys actions)))%Z).
  { clear. induction actions as [|a actions IH]; intros sys.
    - cbn. split; lia.
    - rewrite run_cons. destruct (IH (step sys a)) as [Ht Hp].
      rewrite Ht, Hp. cbn [accepted_during].
      destruct (handle_tracker_tally (fst sys) a) as [Ht1 Hp1].
      assert (Hf : fst (step sys a) = fst (handle a (fst sys)))
        by (rewrite step_eq; reflexivity).
      rewrite Hf, Ht1, Hp1. unfold tally_add. cbn [typed pasted assistant].
      split; lia. }
  split; [apply Hledger |].
  split; [rewrite Hledger; unfold tally_add; cbn [typed pasted assistant]; lia |].
  split; [apply accepted_one_category |].
  apply Htracker.
Qed.

(** *** Session start *)

(** [start()] on a tracker that is already tracking does nothing. *)
Lemma start_while_tracking (hostname : string) (response : option string)
    (now : number) (delivered : bool) (t : Tracker.KeystrokeTracker) :
  Tracker.isTracking t = true ->
  Tracker.start hostname response now delivered t = (t, []).
Proof. intros H. unfold Tracker.start. rewrite H. reflexivity. Qed.

(** START_SESSION empties both event lists and zeroes the typed and the
    pasted counter; the assistant counter keeps its value. *)
Lemma handle_START_SESSION_resets (env : Background.Env) (d : string)
    (s : Background.SessionState) :
  let s' := Background.handle_START_SESSION env d s in
  Background.isRecording s' = true
  /\ Background.keystrokes s' = [] /\ Background.pasteEvents s' = []
  /\ Background.totalTypedChars s' = 0%Z
  /\ Background.totalPastedChars s' = 0%Z
  /\ Background.totalAiChars s' = Background.totalAiChars s.
Proof.
  unfold Background.handle_START_SESSION.
  destruct (Background.api_startSession env); cbn; repeat split; reflexivity.
Qed.

(** C8, at the failing input: a session in which a five-character
    suggestion was accepted is ended and a new session is started.  The new
    session is recording with empty buffers and zero typed and pasted
    counters, but its assistant counter is still 5. *)
Theorem START_SESSION_keeps_assistant_counter :
  Background.isRecording second_session = true
  /\ Background.keystrokes second_session = []
  /\ Background.pasteEvents second_session = []
  /\ Background.totalTypedChars second_session = 0%Z
  /\ Background.totalPastedChars second_session = 0%Z
  /\ Background.totalAiChars second_session = 5%Z.
Proof. vm_compute. repeat split; reflexivity. Qed.

(** *** Repeated events *)

(** [handleKeyDown] has no test on what the buffer already holds: while
    tracking, every call appends its event. *)
Lemma handleKeyDown_accepts_every_call (event : Tracker.KeyboardEvent)
    (now : number) (t : Tracker.KeystrokeTracker) :
  Tracker.isTracking t = true ->
  Tracker.events (Tracker.handleKeyDown_record event now t)
  = Tracker.events t
    ++ [ {| event_type := keydown; key_code := Tracker.keyCode event;
            key_char := if Tracker.printable (Tracker.key event)
                        then Some (Tracker.key event) else None;
            client_timestamp := now; input_method := None |} ].
Proof.
  intros H. unfold Tracker.handleKeyDown_record. rewrite H. reflexivity.
Qed.

(** C2, at the failing input: one press of [a] runs [handleKeyDown] at
    [window] and at [document]; both calls are accepted, so the buffer holds
    two keydown events of key code 65 a hundredth of a millisecond apart and
    the typed counter is 2. *)
Theorem same_keydown_accepted_twice :
  map (fun e => (event_type e, key_code e, key_char e))
      (Tracker.events one_key_press)
  = [ (keydown, 65%Z, Some "a"%string); (keydown, 65%Z, Some "a"%string) ]
  /\ map client_timestamp (Tracker.events one_key_press)
     = [ 1000; 1000 + (1 # 100) ]
  /\ Tracker.totalTypedChars one_key_press = 2%Z.
Proof. vm_compute. repeat split; reflexivity. Qed.

End PipelineFacts.

(** ** Facts about the classification paths *)

Module ClassificationFacts.

Import JS JSFacts Types Background.

Definition total_chars (s : SessionState) : Z :=
  (totalTypedChars s + (totalPastedChars s + totalAiChars s))%Z.

(** The neutral labels of a session with too little data. *)
Definition neutral (label : string) : bool :=
  String.eqb label "waiting" || String.eqb label "insufficient_data".

(** The response of VERIFY_SESSION when the server cannot be reached. *)
Definition offline_verification (now : number) (s : SessionState)
  : VerifyResponse :=
  snd (handle_VERIFY_SESSION now None None None s).

(** C5, as stated, fails: with fifteen typed characters and the server out
    of reach, VERIFY_SESSION answers from the local fallback with the label
    [unknown], [is_human = false] and confidence 0.3, while [calculateStats]
    reports [waiting] for the same session. *)
Lemma below_gate_fallback_reports_unknown :
  total_chars Pipeline.fifteen_typed = 15%Z
  /\ Stats.currentVerdict (calculateStats 6000 Pipeline.fifteen_typed)
     = "waiting"%string
  /\ exists l : LocalResult.t,
       offline_verification 6000 Pipeline.fifteen_typed = LocalFallback l
       /\ LocalResult.class_label l = "unknown"%string
       /\ neutral (LocalResult.class_label l) = false
       /\ LocalResult.is_human l = false
       /\ LocalResult.confidence_score l = 3 # 10.
Proof.
  split; [vm_compute; reflexivity |].
  split; [vm_compute; reflexivity |].
  eexists. split; [vm_compute; reflexivity |].
  cbn. repeat split; reflexivity.
Qed.

Definition keydown_count (s : SessionState) : Z :=
  Z.of_nat (length (List.filter
              (fun e => EventType_eqb (event_type e) keydown) (keystrokes s))).

Lemma calculateStats_verdict (now : number) (s : SessionState) :
  Stats.currentVerdict (calculateStats now s)
  = fst (currentVerdict_of s (keydown_count s))
  /\ Stats.currentConfidence (calculateStats now s)
     = snd (currentVerdict_of s (keydown_count s))
  /\ Stats.keystrokeCount (calculateStats now s) = keydown_count s
  /\ Stats.totalPastedChars (calculateStats now s) = totalPastedChars s
  /\ Stats.totalAiChars (calculateStats now s) = totalAiChars s.
Proof.
  unfold calculateStats. fold (keydown_count s).
  destruct (timings 0 (keystrokes s)) as [dwellTimes flightTimes].
  destruct (currentVerdict_of s (keydown_count s)) as [v c].
  repeat split; reflexivity.
Qed.

Lemma currentVerdict_of_below_gate (s : SessionState) (k : Z) :
  (total_chars s < 20)%Z -> fst (currentVerdict_of s k) = "waiting"%string.
Proof.
  intros H. unfold currentVerdict_of. fold (total_chars s).
  destruct ((total_chars s =? 0)%Z && (k =? 0)%Z); [reflexivity |].
  apply Z.ltb_lt in H. rewrite H. reflexivity.
Qed.

Lemma classificationData_at_most_20 (s : SessionState) :
  (total_chars s <= 20)%Z ->
  classificationData s
  = {| Classification.verdict := "unverified";
       Classification.class_label := "unverified";
       Classification.confidence := 0;
       Classification.is_human := false;
       Classification.paste_ratio := 0;
       Classification.ai_ratio := 0;
       Classification.human_ratio := 1 |}.
Proof.
  intros H. unfold classificationData. fold (total_chars s).
  apply Z.ltb_ge in H. rewrite H. reflexivity.
Qed.

(** The labels the local fallback can give: it has no waiting state. *)
Lemma local_verification_labels (stats : Stats.t) :
  In (LocalResult.class_label (local_verification stats))
     [ "paste"; "paste_detected"; "ai_assisted"; "human_organic"; "unknown" ]%string.
Proof.
  unfold local_verification.
  destruct (gt (Stats.pasteRatio stats) (1 # 10) || (50 <? Stats.totalPastedChars stats)%Z).
  - destruct (gt (Stats.pasteRatio stats) (5 # 10)); cbn; auto.
  - destruct (gt (Stats.aiRatio stats) (1 # 10) || (50 <? Stats.totalAiChars stats)%Z);
      [cbn; auto |].
    destruct ((20 <? Stats.keystrokeCount stats)%Z && _ && _ && _); cbn; auto 6.
Qed.

Lemma local_verification_unknown (stats : Stats.t) :
  Stats.pasteRatio stats <= 1 # 10 -> (Stats.totalPastedChars stats <= 50)%Z ->
  Stats.aiRatio stats <= 1 # 10 -> (Stats.totalAiChars stats <= 50)%Z ->
  (Stats.keystrokeCount stats <= 20)%Z ->
  LocalResult.class_label (local_verification stats) = "unknown"%string
  /\ LocalResult.is_human (local_verification stats) = false
  /\ LocalResult.confidence_score (local_verification stats) = 3 # 10.
Proof.
  intros Hp Hpc Ha Hac Hk. unfold local_verification.
  apply gt_false in Hp, Ha. apply Z.ltb_ge in Hpc, Hac, Hk.
  rewrite Hp, Hpc, Ha, Hac, Hk. cbn. repeat split; reflexivity.
Qed.

(** C5, amended.  For a session whose total character count is below 20,
    [calculateStats] reports [waiting], and the exported report classifies
    it [unverified] with confidence 0 and [is_human = false].  The local
    fallback of VERIFY_SESSION applies no character gate: its label is one
    of [paste], [paste_detected], [ai_assisted], [human_organic] and
    [unknown], and it is [unknown] with [is_human = false] and confidence
    0.3 when neither paste nor assistant content triggers and the session
    has at most 20 keydown events. *)
Theorem below_gate_verdicts (now : number) (s : SessionState) :
  (total_chars s < 20)%Z ->
  Stats.currentVerdict (calculateStats now s) = "waiting"%string
  /\ Classification.verdict (classificationData s) = "unverified"%string
  /\ Classification.confidence (classificationData s) = 0
  /\ Classification.is_human (classificationData s) = false
  /\ In (LocalResult.class_label (local_verification (calculateStats now s)))
        [ "paste"; "paste_detected"; "ai_assisted"; "human_organic";
          "unknown" ]%string
  /\ (Stats.pasteRatio (calculateStats now s) <= 1 # 10 ->
      (totalPastedChars s <= 50)%Z ->
      Stats.aiRatio (calculateStats now s) <= 1 # 10 ->
      (totalAiChars s <= 50)%Z ->
      (keydown_count s <= 20)%Z ->
      LocalResult.class_label (local_verification (calculateStats now s))
      = "unknown"%string
      /\ LocalResult.is_human (local_verification (calculateStats now s)) = false
      /\ LocalResult.confidence_score (local_verification (calculateStats now s))
         = 3 # 10).
Proof.
  intros Hgate.
  destruct (calculateStats_verdict now s) as (Hv & _ & Hk & Hpc & Hac).
  split; [rewrite Hv; apply currentVerdict_of_below_gate; exact Hgate |].
  rewrite (classificationData_at_most_20 s) by lia.
  repeat (split; [reflexivity |]).
  split; [apply local_verification_labels |].
  intros Hp Hp50 Ha Ha50 Hkd.
  apply local_verification_unknown; rewrite ?Hk, ?Hpc, ?Hac; assumption.
Qed.

(** The amended C5 at the session of fifteen typed characters. *)
Lemma below_gate_verdicts_witness :
  (total_chars Pipeline.fifteen_typed < 20)%Z
  /\ Stats.currentVerdict (calculateStats 6000 Pipeline.fifteen_typed)
     = "waiting"%string
  /\ Classification.verdict (classificationData Pipeline.fifteen_typed)
     = "unverified"%string.
Proof.
  assert (H : (total_chars Pipeline.fifteen_typed < 20)%Z)
    by (vm_compute; reflexivity).
  split; [exact H |].
  destruct (below_gate_verdicts 6000 Pipeline.fifteen_typed H)
    as (Hw & Hu & _).
  split; assumption.
Defined.

(** *** The volume rule *)

Definition pasted_ratio (s : SessionState) : number :=
  ratio (totalPastedChars s) (total_chars s).

(** What the first rule of the cascade yields when it fires. *)
Definition paste_verdict (r : number) : string * number :=
  ((if gt r (5 # 10) then "paste" else "paste_detected")%string,
   Math_min ((5 # 10) + r * (5 # 10)) (99 # 100)).

(** In [calculateStats] the rule is applied from 20 characters on, with a
    strict comparison of the ratio to 0.10. *)
Lemma volume_rule_calculateStats (s : SessionState) (k : Z) :
  (20 <= total_chars s)%Z -> 1 # 10 < pasted_ratio s ->
  currentVerdict_of s k = paste_verdict (pasted_ratio s).
Proof.
  intros Hgate Hr. unfold currentVerdict_of. fold (total_chars s).
  assert (H0 : (total_chars s =? 0)%Z = false) by (apply Z.eqb_neq; lia).
  assert (H20 : (total_chars s <? 20)%Z = false) by (apply Z.ltb_ge; lia).
  rewrite H0, H20. cbn [andb]. fold (pasted_ratio s).
  apply gt_spec in Hr. rewrite Hr. reflexivity.
Qed.

Lemma volume_rule_not_fired_calculateStats (s : SessionState) (k : Z) :
  (20 <= total_chars s)%Z -> pasted_ratio s <= 1 # 10 ->
  ratio (totalAiChars s) (total_chars s) <= 1 # 10 ->
  9 # 10 <= ratio (totalTypedChars s) (total_chars s) ->
  fst (currentVerdict_of s k) = "human_organic"%string.
Proof.
  intros Hgate Hr Ha Hh. unfold currentVerdict_of. fold (total_chars s).
  assert (H0 : (total_chars s =? 0)%Z = false) by (apply Z.eqb_neq; lia).
  assert (H20 : (total_chars s <? 20)%Z = false) by (apply Z.ltb_ge; lia).
  rewrite H0, H20. cbn [andb]. fold (pasted_ratio s).
  apply gt_false in Hr, Ha. apply ge_spec in Hh. rewrite Hr, Ha, Hh. reflexivity.
Qed.

(** In the exported report the same rule is applied from 21 characters on. *)
Lemma volume_rule_classificationData (s : SessionState) :
  (20 < total_chars s)%Z -> 1 # 10 < pasted_ratio s ->
  (Classification.verdict (classificationData s),
   Classification.confidence (classificationData s))
  = paste_verdict (pasted_ratio s)
  /\ Classification.is_human (classificationData s) = false.
Proof.
  intros Hgate Hr. unfold classificationData. fold (total_chars s).
  apply Z.ltb_lt in Hgate. rewrite Hgate. fold (pasted_ratio s).
  apply gt_spec in Hr. rewrite Hr. split; reflexivity.
Qed.

(** C6, at the failing input: a session of exactly 20 characters, all of
    them pasted.  [calculateStats] applies the volume rule (ratio 1, verdict
    [paste], confidence 0.99); the exported report, whose gate is
    [totalChars > 20], does not, and says [unverified] with confidence 0. *)
Theorem volume_rule_skipped_at_20_in_report :
  total_chars Pipeline.twenty_pasted = 20%Z
  /\ pasted_ratio Pipeline.twenty_pasted == 1
  /\ Stats.currentVerdict (calculateStats 3000 Pipeline.twenty_pasted)
     = "paste"%string
  /\ Stats.currentConfidence (calculateStats 3000 Pipeline.twenty_pasted)
     = 99 # 100
  /\ Classification.verdict (classificationData Pipeline.twenty_pasted)
     = "unverified"%string
  /\ Classification.confidence (classificationData Pipeline.twenty_pasted) = 0
  /\ Classification.paste_ratio (classificationData Pipeline.twenty_pasted) = 0.
Proof. vm_compute. repeat split; reflexivity. Qed.

End ClassificationFacts.

(** ** The symbolic platform satisfies the laws *)

Module SymbolicFacts.

Import Symbolic.

Local Open Scope string_scope.

Lemma read_unary_unary (n : nat) : read_unary (unary n) = Some n.
Proof. induction n as [|n IH]; simpl; [reflexivity | rewrite IH; reflexivity]. Qed.

#[export] Instance platform_laws : WebCryptoLaws.
Proof.
  split; cbn.
  - reflexivity.
  - intros b Hb. exact Hb.
  - intros a b H. exact H.
  - intros pk. apply read_unary_unary.
  - intros sk. apply read_unary_unary.
  - intros pk. discriminate.
  - intros sk m r. unfold signature_of.
    destruct (unary sk); discriminate.
  - intros n pk sk Hk m m' r. injection Hk as <- <-.
    rewrite String.eqb_eq. unfold signature_of. split.
    + intros H. apply JsonFacts.append_inv_head in H.
      injection H as H. symmetry. exact H.
    + intros ->. reflexivity.
Qed.

End SymbolicFacts.

(** ** Facts about the keystroke-buffer hash *)

Module HashingFacts.

Import JS Types Hashing.

Lemma timingOnly_same_timing (e1 e2 : KeystrokeEvent) :
  same_timing e1 e2 -> timingOnly e1 = timingOnly e2.
Proof.
  intros (Ht & Hc & Hts). unfold timingOnly. rewrite Ht, Hc, Hts. reflexivity.
Qed.

Lemma serializeEvents_same_timing (events1 events2 : list KeystrokeEvent) :
  Forall2 same_timing events1 events2 ->
  serializeEvents events1 = serializeEvents events2.
Proof.
  intros H. unfold serializeEvents. do 2 f_equal.
  induction H as [|e1 e2 l1 l2 He _ IH]; simpl; [reflexivity |].
  rewrite (timingOnly_same_timing _ _ He), IH. reflexivity.
Qed.

(** C10. Two keystroke buffers of the same length whose events agree, one by
    one, on the event type, the key code and the rounded timestamp have the
    same hash, whatever their [key_char] values are. *)
Theorem hashKeystrokeBuffer_ignores_key_char `{WebCrypto}
    (events1 events2 : list KeystrokeEvent) :
  length events1 = length events2 ->
  Forall2 same_timing events1 events2 ->
  hashKeystrokeBuffer events1 = hashKeystrokeBuffer events2.
Proof.
  intros _ Hsame. unfold hashKeystrokeBuffer.
  rewrite (serializeEvents_same_timing _ _ Hsame). reflexivity.
Qed.

(** C10 at two one-event buffers that differ in the character typed. *)
Lemma hashKeystrokeBuffer_ignores_key_char_witness :
  hashKeystrokeBuffer (H := Symbolic.platform)
    [ {| event_type := keydown; key_code := 65;
         key_char := Some "a"%string; client_timestamp := 1000 + (2 # 10);
         input_method := None |} ]
  = hashKeystrokeBuffer (H := Symbolic.platform)
      [ {| event_type := keydown; key_code := 65;
           key_char := Some "A"%string; client_timestamp := 1000 + (4 # 10);
           input_method := None |} ].
Proof.
  apply (@hashKeystrokeBuffer_ignores_key_char Symbolic.platform).
  - reflexivity.
  - repeat constructor.
Defined.

End HashingFacts.

(** ** Facts about the decoder's signature check *)

Module DecoderFacts.

Import Types Decoder.

(** C4. Verifying an uploaded report always ends with a status, which is
    one of [valid], [invalid] and [none]; it is [none] exactly when the
    public key or the signature value is absent, so that an absent
    signature is never [valid]; and key or signature material that the
    platform refuses gives [invalid], the exception being caught. *)
Theorem verifySignature_status `{WebCrypto} (data : HumanSignData) :
  exists st : VerificationStatus,
    verifySignature data = Ok st
    /\ (st = valid \/ st = invalid \/ st = none)
    /\ (st = none <->
        absent (signature_public_key data)
        \/ absent (signature_signature_value data))
    /\ (malformed data ->
        ~ absent (signature_public_key data) ->
        ~ absent (signature_signature_value data) ->
        st = invalid).
Proof.
  unfold verifySignature, malformed, absent.
  destruct (signature_public_key data) as [[|c1 pk]|];
    try (exists none; repeat split; auto; try contradiction;
         intros; exfalso; auto; fail).
  destruct (signature_signature_value data) as [[|c2 sg]|];
    try (exists none; repeat split; auto; try contradiction;
         intros; exfalso; auto; fail).
  cbn [truthy_string].
  assert (Hnone : forall st, st <> none ->
            (st = none <-> true = false \/ true = false)).
  { intros st Hst. split; [intros E; contradiction | intros [E|E]; discriminate]. }
  destruct (atob (String c1 pk)) as [der|] eqn:Hpk; cbn [or_throw bind try_catch].
  - destruct (importKey_spki der) as [publicKey|] eqn:Himp;
      cbn [or_throw bind try_catch].
    + destruct (atob (String c2 sg)) as [sigBytes|] eqn:Hsg;
        cbn [or_throw bind try_catch].
      * destruct (session data) as [sess|]; cbn [or_throw bind try_catch].
        -- destruct (subtle_verify publicKey sigBytes _).
           ++ exists valid. split; [reflexivity |]. split; [auto |].
              split; [apply Hnone; discriminate |].
              intros [E | [(der' & E1 & E2) | E]] _ _; congruence.
           ++ exists invalid. split; [reflexivity |]. split; [auto |].
              split; [apply Hnone; discriminate | reflexivity].
        -- exists invalid. split; [reflexivity |]. split; [auto |].
           split; [apply Hnone; discriminate | reflexivity].
      * exists invalid. split; [reflexivity |]. split; [auto |].
        split; [apply Hnone; discriminate | reflexivity].
    + exists invalid. split; [reflexivity |]. split; [auto |].
      split; [apply Hnone; discriminate | reflexivity].
  - exists invalid. split; [reflexivity |]. split; [auto |].
    split; [apply Hnone; discriminate | reflexivity].
Qed.

End DecoderFacts.

(** ** Facts about signing and verifying a report *)

Module SigningFacts.

Import Types.

(** The signed report carries the hash of the text, whatever the keys. *)
Lemma report_fields `{WebCrypto} (env : Report.Env)
    (payload_textContent : option string) (s : Background.SessionState)
    (pk : PublicKey) (sk : PrivateKey) :
  generateKey (Report.draw env) = Some (pk, sk) ->
  let r := snd (Report.handle_DOWNLOAD_COMBINED env payload_textContent s) in
  Report.content_hash r
  = Hashing.bufferToHex
      (subtle_digest_SHA256
         (TextEncoder_encode (Report.or_string payload_textContent EmptyString)))
  /\ Report.algorithm (Report.signature r) = "ECDSA-P256-SHA256"%string
  /\ Report.public_key (Report.signature r) = btoa (exportKey_spki pk)
  /\ Report.signature_value (Report.signature r)
     = btoa (subtle_sign sk
               (TextEncoder_encode
                  (Report.dataToSign (Report.content_hash r) (Report.metrics r)
                     (Report.id (Report.session r))))
               (S (Report.draw env))).
Proof.
  intros Hk. unfold Report.handle_DOWNLOAD_COMBINED. rewrite Hk.
  cbn. repeat split; reflexivity.
Qed.

(** The decoder rebuilds the signed text from the written report. *)
Lemma dataToVerify_written (r : Report.HumanSignData) (h : string) :
  Decoder.dataToVerify
    (Decoder.with_content_hash h (Decoder.parse_written r))
    {| Decoder.id := Some (Json.Str (Report.id (Report.session r))) |}
  = Report.dataToSign h (Report.metrics r) (Report.id (Report.session r)).
Proof. reflexivity. Qed.

Lemma dataToSign_injective (h1 h2 : string) (m : Report.Metrics) (sid : string) :
  Report.dataToSign h1 m sid = Report.dataToSign h2 m sid -> h1 = h2.
Proof. apply JsonFacts.stringify_first_member_injective. Qed.

Lemma btoa_truthy `{WebCrypto} `{!WebCryptoLaws} (b : string) :
  b <> EmptyString -> exists c r, btoa b = String c r.
Proof.
  intros Hb. pose proof (btoa_nonempty b Hb) as Hne.
  destruct (btoa b) as [|c r]; [contradiction | exists c, r; reflexivity].
Qed.

(** Verification of a written report whose [content_hash] is [h]: valid
    exactly when [h] is the hash that was signed. *)
Lemma verify_written `{WebCrypto} `{!WebCryptoLaws} (env : Report.Env)
    (payload_textContent : option string) (s : Background.SessionState)
    (pk : PublicKey) (sk : PrivateKey) (h : string) :
  generateKey (Report.draw env) = Some (pk, sk) ->
  let r := snd (Report.handle_DOWNLOAD_COMBINED env payload_textContent s) in
  Decoder.verifySignature (Decoder.with_content_hash h (Decoder.parse_written r))
  = Decoder.Ok (if String.eqb h (Report.content_hash r)
                then Decoder.valid else Decoder.invalid).
Proof.
  intros Hk r.
  destruct (report_fields env payload_textContent s pk sk Hk)
    as (_ & _ & Hpub & Hsig).
  fold r in Hpub, Hsig.
  unfold Decoder.verifySignature.
  cbn [Decoder.signature_public_key Decoder.signature_signature_value
       Decoder.signature Decoder.with_content_hash Decoder.parse_written
       Decoder.public_key Decoder.signature_value].
  rewrite Hpub, Hsig.
  destruct (btoa_truthy (exportKey_spki pk) (exported_key_nonempty pk))
    as (c1 & r1 & E1).
  set (signed := TextEncoder_encode
                   (Report.dataToSign (Report.content_hash r) (Report.metrics r)
                      (Report.id (Report.session r)))) in *.
  destruct (btoa_truthy (subtle_sign sk signed (S (Report.draw env)))
              (signature_nonempty sk signed (S (Report.draw env))))
    as (c2 & r2 & E2).
  rewrite E1, E2, <- E1, <- E2, !atob_btoa.
  cbn [Decoder.or_throw Decoder.bind].
  rewrite import_export_spki.
  cbn [Decoder.or_throw Decoder.bind Decoder.session Decoder.with_content_hash
       Decoder.parse_written].
  rewrite (dataToVerify_written r h).
  cbn [Decoder.try_catch]. f_equal.
  destruct (String.eqb_spec h (Report.content_hash r)) as [->|Hne].
  - assert (Hv : subtle_verify pk (subtle_sign sk signed (S (Report.draw env)))
                   signed = true)
      by (apply (verify_sign _ pk sk Hk); reflexivity).
    fold signed. rewrite Hv. reflexivity.
  - destruct (subtle_verify pk (subtle_sign sk signed (S (Report.draw env)))
                (TextEncoder_encode
                   (Report.dataToSign h (Report.metrics r)
                      (Report.id (Report.session r))))) eqn:Hv;
      [| reflexivity].
    apply (verify_sign _ pk sk Hk) in Hv.
    apply encode_injective, dataToSign_injective in Hv. contradiction.
Qed.

(** C3. The handler signs, with ECDSA P-256/SHA-256 and the private key of
    the pair it generated, the JSON text of the object with the members
    [content_hash], [metrics] and [session_id], in this order.  The decoder
    finds the written report valid under the public key the report embeds,
    and finds it invalid once its [content_hash] is any other string, in
    particular once any single byte of it is changed.  (On a platform that
    satisfies [WebCryptoLaws].) *)
Theorem signed_report_round_trip `{WebCrypto} `{!WebCryptoLaws}
    (env : Report.Env) (payload_textContent : option string)
    (s : Background.SessionState) (pk : PublicKey) (sk : PrivateKey) :
  generateKey (Report.draw env) = Some (pk, sk) ->
  let r := snd (Report.handle_DOWNLOAD_COMBINED env payload_textContent s) in
  Report.algorithm (Report.signature r) = "ECDSA-P256-SHA256"%string
  /\ Report.public_key (Report.signature r) = btoa (exportKey_spki pk)
  /\ Report.signature_value (Report.signature r)
     = btoa (subtle_sign sk
               (TextEncoder_encode
                  (Json.stringify
                     (Json.Obj
                        [ ("content_hash"%string, Json.Str (Report.content_hash r));
                          ("metrics"%string, Report.metrics_json (Report.metrics r));
                          ("session_id"%string,
                           Json.Str (Report.id (Report.session r))) ])))
               (S (Report.draw env)))
  /\ Decoder.verifySignature (Decoder.parse_written r) = Decoder.Ok Decoder.valid
  /\ (forall h' : string,
        h' <> Report.content_hash r ->
        Decoder.verifySignature
          (Decoder.with_content_hash h' (Decoder.parse_written r))
        = Decoder.Ok Decoder.invalid)
  /\ (forall (i : nat) (c : ascii),
        Decoder.mutate_byte i c (Report.content_hash r) <> Report.content_hash r ->
        Decoder.verifySignature
          (Decoder.with_content_hash
             (Decoder.mutate_byte i c (Report.content_hash r))
             (Decoder.parse_written r))
        = Decoder.Ok Decoder.invalid).
Proof.
  intros Hk r.
  destruct (report_fields env payload_textContent s pk sk Hk)
    as (_ & Halg & Hpub & Hsig).
  fold r in Halg, Hpub, Hsig.
  assert (Hmut : forall h' : string,
            h' <> Report.content_hash r ->
            Decoder.verifySignature
              (Decoder.with_content_hash h' (Decoder.parse_written r))
            = Decoder.Ok Decoder.invalid).
  { intros h' Hne.
    pose proof (verify_written env payload_textContent s pk sk h' Hk) as Hv.
    cbv zeta in Hv. fold r in Hv. rewrite Hv.
    apply String.eqb_neq in Hne. rewrite Hne. reflexivity. }
  split; [exact Halg |]. split; [exact Hpub |]. split; [exact Hsig |].
  split; [| split; [exact Hmut | intros i c; apply Hmut]].
  change (Decoder.parse_written r)
    with (Decoder.with_content_hash (Report.content_hash r)
            (Decoder.parse_written r)).
  pose proof (verify_written env payload_textContent s pk sk
                (Report.content_hash r) Hk) as Hv.
  cbv zeta in Hv. fold r in Hv. rewrite Hv, String.eqb_refl. reflexivity.
Qed.

(** *** The key pair of a report *)

Lemma importKeyPair_exportKeyPair `{WebCrypto} `{!WebCryptoLaws}
    (keyPair : Signing.CryptoKeyPair) :
  Signing.importKeyPair (Signing.exportKeyPair keyPair) = Some keyPair.
Proof.
  unfold Signing.importKeyPair, Signing.exportKeyPair.
  cbn [Signing.exported_publicKey Signing.exported_privateKey].
  rewrite !atob_btoa, import_export_spki, import_export_pkcs8.
  destruct keyPair; reflexivity.
Qed.

(** [getOrCreateKeyPair] generates a key pair when the storage has none,
    stores it, and from then on returns the stored one without drawing. *)
Lemma getOrCreateKeyPair_reuses `{WebCrypto} `{!WebCryptoLaws}
    (draw : nat) (keyPair : Signing.CryptoKeyPair) :
  Signing.generateKeyPair draw = Some keyPair ->
  Signing.getOrCreateKeyPair draw None
  = (Some keyPair, Some (Signing.exportKeyPair keyPair), S draw)
  /\ forall later : nat,
       Signing.getOrCreateKeyPair later (Some (Signing.exportKeyPair keyPair))
       = (Some keyPair, Some (Signing.exportKeyPair keyPair), later).
Proof.
  intros Hg. split.
  - unfold Signing.getOrCreateKeyPair. rewrite Hg. reflexivity.
  - intros later. unfold Signing.getOrCreateKeyPair.
    rewrite importKeyPair_exportKeyPair. reflexivity.
Qed.

(** Two reports downloaded one after the other in the same session, on the
    symbolic platform; the random source has moved on by two draws (the key
    pair and the nonce of the first report). *)
Definition first_env : Report.Env :=
  {| Report.Date_now := 7000; Report.toISOString := "2025-01-01T00:00:07.000Z";
     Report.randomUUID := "uuid-3"; Report.draw := 0 |}.

Definition later_env : Report.Env :=
  {| Report.Date_now := 9000; Report.toISOString := "2025-01-01T00:00:09.000Z";
     Report.randomUUID := "uuid-4"; Report.draw := 2 |}.

Definition first_download : Background.SessionState * Report.HumanSignData :=
  Report.handle_DOWNLOAD_COMBINED (H := Symbolic.platform) first_env
    (Some "some text"%string) Pipeline.fifteen_typed.

Definition second_download : Background.SessionState * Report.HumanSignData :=
  Report.handle_DOWNLOAD_COMBINED (H := Symbolic.platform) later_env
    (Some "some text"%string) (fst first_download).

(** C7, at the failing input: two reports of the same session embed two
    different public keys, each generated by the handler for that report. *)
Theorem each_report_has_its_own_key_pair :
  Report.id (Report.session (snd first_download))
  = Report.id (Report.session (snd second_download))
  /\ Report.public_key (Report.signature (snd first_download))
     = Symbolic.export_tagged "P" 0
  /\ Report.public_key (Report.signature (snd second_download))
     = Symbolic.export_tagged "P" 2
  /\ Report.public_key (Report.signature (snd first_download))
     <> Report.public_key (Report.signature (snd second_download)).
Proof.
  vm_compute. repeat split; try reflexivity. discriminate.
Qed.

(** C3 on the symbolic platform, for a report of the session of fifteen
    typed characters. *)
Lemma signed_report_round_trip_witness :
  generateKey (WebCrypto := Symbolic.platform) (Report.draw first_env)
  = Some (0%nat, 0%nat)
  /\ Decoder.verifySignature (H := Symbolic.platform)
       (Decoder.parse_written
          (snd (Report.handle_DOWNLOAD_COMBINED (H := Symbolic.platform)
                  first_env (Some "some text"%string) Pipeline.fifteen_typed)))
     = Decoder.Ok Decoder.valid.
Proof.
  split; [reflexivity |].
  pose proof (@signed_report_round_trip Symbolic.platform
                SymbolicFacts.platform_laws first_env (Some "some text"%string)
                Pipeline.fifteen_typed 0%nat 0%nat eq_refl) as Hround.
  cbv zeta in Hround. destruct Hround as (_ & _ & _ & Hvalid & _).
  exact Hvalid.
Defined.

End SigningFacts.

(** ** Facts about the tracker's buffer and its flushes *)

Module TrackerFacts.

Import JS Types Tracker.

(** When a flush has nothing to do: no session id, an empty buffer, or,
    unless forced, fewer than [MIN_FLUSH_SIZE] events. *)
Definition flush_idle (force : bool) (t : KeystrokeTracker) : bool :=
  negb (truthy_string (sessionId t))
  || (length (events t) =? 0)%nat
  || (negb force && (length (events t) <? MIN_FLUSH_SIZE)%nat).

(** What a flush does.  Without a session id, with an empty buffer, or
    unforced with fewer than [MIN_FLUSH_SIZE] events, it sends nothing and
    changes nothing.  Otherwise it takes the first [BATCH_SIZE] events of
    the buffer, in order, under the current sequence number, which grows by
    one: when the send goes through, exactly this batch is sent, the buffer
    keeps the events after it and the time of the flush is recorded; when
    the send throws, nothing is sent and the batch is put back in front of
    the buffer. *)
Theorem flush_keeps_order (force delivered : bool) (now : number)
    (t : KeystrokeTracker) :
  let t' := fst (flush force delivered now t) in
  let out := snd (flush force delivered now t) in
  (flush_idle force t = true -> t' = t /\ out = [])
  /\ (flush_idle force t = false -> delivered = false ->
      out = [] /\ events t' = events t
      /\ batchSequence t' = (batchSequence t + 1)%Z
      /\ lastFlushTime t' = lastFlushTime t)
  /\ (flush_idle force t = false -> delivered = true ->
      exists sid,
        sessionId t = Some sid
        /\ out = [SendBatch sid (take BATCH_SIZE (events t)) (batchSequence t)]
        /\ take BATCH_SIZE (events t) <> []
        /\ events t' = drop BATCH_SIZE (events t)
        /\ take BATCH_SIZE (events t) ++ events t' = events t
        /\ batchSequence t' = (batchSequence t + 1)%Z
        /\ lastFlushTime t' = now).
Proof.
  unfold flush, flush_idle.
  destruct (sessionId t) as [[|c0 r0]|] eqn:Hsid; cbn [truthy_string negb orb];
    try (repeat split; intros; (reflexivity || discriminate)).
  cbv zeta.
  destruct (length (events t) =? 0)%nat eqn:Hlen; cbn [orb];
    [repeat split; intros; (reflexivity || discriminate) |].
  destruct (negb force && (length (events t) <? MIN_FLUSH_SIZE)%nat);
    [repeat split; intros; (reflexivity || discriminate) |].
  split; [intros E; discriminate E |].
  split; intros _ Hd; subst delivered; cbn [fst snd events batchSequence lastFlushTime].
  - repeat split. apply take_drop.
  - exists (String c0 r0). repeat split.
    + intros E. apply Nat.eqb_neq in Hlen.
      apply (f_equal length) in E. rewrite length_take in E.
      unfold BATCH_SIZE in E. change (length (@nil KeystrokeEvent)) with 0%nat in E.
      lia.
    + apply take_drop.
Qed.

(** An unforced flush of fewer than [MIN_FLUSH_SIZE] events, a flush without
    a session and a flush of an empty buffer send nothing and change
    nothing. *)
Lemma flush_too_small (delivered : bool) (now : number) (t : KeystrokeTracker) :
  (length (events t) < MIN_FLUSH_SIZE)%nat ->
  flush false delivered now t = (t, []).
Proof.
  intros H. unfold flush.
  destruct (sessionId t) as [[|c0 r0]|]; try reflexivity. cbv zeta.
  destruct (length (events t) =? 0)%nat; [reflexivity |].
  apply Nat.ltb_lt in H. rewrite H. reflexivity.
Qed.

(** [stop()] flushes without force: with fewer than [MIN_FLUSH_SIZE] events
    in the buffer it sends none of them, with more than [BATCH_SIZE] it sends
    the first [BATCH_SIZE]; the rest is discarded by [reset], which leaves
    an idle tracker with an empty buffer and zero counters. *)
Theorem stop_sends_one_batch_at_most (now : number) (t : KeystrokeTracker)
    (c : ascii) (r : string) :
  isTracking t = true -> sessionId t = Some (String c r) ->
  snd (stop now true t)
  = (if (MIN_FLUSH_SIZE <=? length (events t))%nat
     then [SendBatch (String c r) (take BATCH_SIZE (events t)) (batchSequence t)]
     else [])
    ++ [SendEnd (String c r)]
  /\ events (fst (stop now true t)) = []
  /\ isTracking (fst (stop now true t)) = false
  /\ sessionId (fst (stop now true t)) = None
  /\ totalTypedChars (fst (stop now true t)) = 0%Z
  /\ totalPastedChars (fst (stop now true t)) = 0%Z.
Proof.
  intros Htr Hsid. unfold stop. rewrite Htr, Hsid. cbv zeta.
  unfold flush. rewrite Hsid. cbv zeta.
  destruct (length (events t) =? 0)%nat eqn:H0.
  - apply Nat.eqb_eq in H0. rewrite H0. cbn. repeat split; reflexivity.
  - cbn [negb andb].
    destruct (length (events t) <? MIN_FLUSH_SIZE)%nat eqn:Hmin.
    + apply Nat.ltb_lt in Hmin.
      assert (Hle : (MIN_FLUSH_SIZE <=? length (events t))%nat = false)
        by (apply Nat.leb_gt; exact Hmin).
      rewrite Hle. cbn. repeat split; reflexivity.
    + apply Nat.ltb_ge in Hmin.
      assert (Hle : (MIN_FLUSH_SIZE <=? length (events t))%nat = true)
        by (apply Nat.leb_le; exact Hmin).
      rewrite Hle. cbn. repeat split; reflexivity.
Qed.

(** The tracker after three keys typed on the page of [Pipeline.recording],
    none of them flushed. *)
Definition three_keys_buffered : KeystrokeTracker :=
  fst (Pipeline.run Pipeline.recording (Pipeline.type_keys 3 1000)).

Lemma stop_sends_one_batch_at_most_witness :
  isTracking three_keys_buffered = true
  /\ sessionId three_keys_buffered = Some "session-1"%string
  /\ length (events three_keys_buffered) = 6%nat
  /\ snd (stop 9000 true three_keys_buffered)
     = (if (MIN_FLUSH_SIZE <=? length (events three_keys_buffered))%nat
        then [SendBatch "session-1"
                (take BATCH_SIZE (events three_keys_buffered))
                (batchSequence three_keys_buffered)]
        else [])
       ++ [SendEnd "session-1"].
Proof.
  assert (Htr : isTracking three_keys_buffered = true) by reflexivity.
  assert (Hsid : sessionId three_keys_buffered = Some "session-1"%string)
    by reflexivity.
  split; [exact Htr |]. split; [exact Hsid |]. split; [reflexivity |].
  pose proof (stop_sends_one_batch_at_most 9000 three_keys_buffered
                "s"%char "ession-1"%string Htr Hsid) as H.
  destruct H as (Hout & _). exact Hout.
Defined.

(** A forced flush of the six buffered events, whose send goes through. *)
Lemma flush_keeps_order_witness :
  exists sid,
    sessionId three_keys_buffered = Some sid
    /\ snd (flush true true 9000 three_keys_buffered)
       = [SendBatch sid (take BATCH_SIZE (events three_keys_buffered))
            (batchSequence three_keys_buffered)]
    /\ events (fst (flush true true 9000 three_keys_buffered)) = [].
Proof.
  pose proof (flush_keeps_order true true 9000 three_keys_buffered) as Hflush.
  cbv zeta in Hflush. destruct Hflush as (_ & _ & Hsent).
  destruct (Hsent eq_refl eq_refl) as (sid & Hsid & Hout & _ & Hrest & _).
  exists sid. split; [exact Hsid |]. split; [exact Hout |].
  rewrite Hrest. reflexivity.
Defined.

(** *** Sequence numbers *)

Definition batch_sequences (out : list Outgoing) : list Z :=
  omap (fun m => match m with
                 | SendBatch _ _ seq => Some seq
                 | _ => None
                 end) out.

(** Everything the tracker sends over a run of capture actions. *)
Fixpoint sent (t : KeystrokeTracker) (actions : list Pipeline.Action)
  : list Outgoing :=
  match actions with
  | [] => []
  | a :: rest =>
      snd (Pipeline.handle a t) ++ sent (fst (Pipeline.handle a t)) rest
  end.

(** A step sends at most one batch; it carries the current sequence number,
    which the step then passes; a step that sends no batch keeps the number
    or, when a flush failed, passes it all the same. *)
Definition sequence_step (t t' : KeystrokeTracker) (out : list Outgoing) : Prop :=
  (batch_sequences out = []
   /\ (batchSequence t' = batchSequence t
       \/ batchSequence t' = (batchSequence t + 1)%Z))
  \/ (batch_sequences out = [batchSequence t]
      /\ batchSequence t' = (batchSequence t + 1)%Z).

Lemma flush_sequence (force delivered : bool) (now : number)
    (t : KeystrokeTracker) :
  sequence_step t (fst (flush force delivered now t))
                (snd (flush force delivered now t)).
Proof.
  unfold flush, sequence_step.
  destruct (sessionId t) as [[|c0 r0]|]; try (left; split; [reflexivity | left; reflexivity]).
  cbv zeta.
  destruct (length (events t) =? 0)%nat;
    [left; split; [reflexivity | left; reflexivity] |].
  destruct (negb force && _);
    [left; split; [reflexivity | left; reflexivity] |].
  destruct delivered.
  - right. split; reflexivity.
  - left. split; [reflexivity | right; reflexivity].
Qed.

Lemma scheduleFlush_sequence (delivered : bool) (now : number)
    (t : KeystrokeTracker) :
  sequence_step t (fst (scheduleFlush delivered now t))
                (snd (scheduleFlush delivered now t)).
Proof.
  unfold scheduleFlush.
  destruct (BATCH_SIZE <=? length (events t))%nat.
  - apply flush_sequence.
  - left. split; [reflexivity | left; reflexivity].
Qed.

Lemma sequence_step_idle (t : KeystrokeTracker) : sequence_step t t [].
Proof. left. split; [reflexivity | left; reflexivity]. Qed.

(** [scheduleFlush] after a change of the buffer, of the counters or of the
    assistant flags: the sequence number it starts from is the old one. *)
Lemma scheduleFlush_sequence_from (delivered : bool) (now : number)
    (t t1 : KeystrokeTracker) :
  batchSequence t1 = batchSequence t ->
  sequence_step t (fst (scheduleFlush delivered now t1))
                (snd (scheduleFlush delivered now t1)).
Proof.
  intros E. pose proof (scheduleFlush_sequence delivered now t1) as H.
  unfold sequence_step in *. rewrite E in H. exact H.
Qed.

Lemma handle_sequence (a : Pipeline.Action) (t : KeystrokeTracker) :
  sequence_step t (fst (Pipeline.handle a t)) (snd (Pipeline.handle a t)).
Proof.
  destruct a as [event now d | event now d | data now d | clipboard now d
                | src ty text now dwell flight d | | now d | now d];
    cbn [Pipeline.handle].
  - unfold handleKeyDown, handleKeyDown_record.
    destruct (isTracking t); cbn [negb]; [| apply sequence_step_idle].
    apply scheduleFlush_sequence_from. reflexivity.
  - unfold handleKeyUp.
    destruct (isTracking t); cbn [negb]; [| apply sequence_step_idle].
    apply scheduleFlush_sequence_from. reflexivity.
  - unfold handleInput.
    destruct (isTracking t); cbn [negb]; [| apply sequence_step_idle].
    destruct (ai_window now (with_lastInputTime now t));
      [left; split; [reflexivity | left; reflexivity] |].
    destruct data as [x|]; [| left; split; [reflexivity | left; reflexivity]].
    destruct (String.length x =? 1)%nat;
      [| left; split; [reflexivity | left; reflexivity]].
    apply scheduleFlush_sequence_from. reflexivity.
  - unfold handlePaste.
    destruct (isTracking t); [| apply sequence_step_idle].
    destruct (sessionId t) as [[|c0 r0]|]; try apply sequence_step_idle.
    cbv zeta.
    destruct (ai_window now t); [apply sequence_step_idle |].
    destruct (0 <? _)%Z; [| apply sequence_step_idle].
    match goal with
    | |- context [scheduleFlush d now ?t1] =>
        pose proof (scheduleFlush_sequence_from d now t t1 eq_refl) as H;
        destruct (scheduleFlush d now t1) as [t2 out]
    end.
    cbn [fst snd] in *. exact H.
  - unfold handleWindowMessage.
    destruct src; cbn [negb]; [| apply sequence_step_idle].
    destruct ty as [ty|]; [| apply sequence_step_idle].
    destruct text as [text|]; [| apply sequence_step_idle].
    destruct (String.eqb ty "humanSign:aiInsert" && truthy_string (Some text));
      [| apply sequence_step_idle].
    unfold synthesizeAiBurst.
    destruct (synthesize text 0 dwell flight now) as [ks ts].
    apply scheduleFlush_sequence_from. reflexivity.
  - left. split; [reflexivity | left; reflexivity].
  - apply flush_sequence.
  - apply flush_sequence.
Qed.

Lemma batch_sequences_app (o1 o2 : list Outgoing) :
  batch_sequences (o1 ++ o2) = batch_sequences o1 ++ batch_sequences o2.
Proof. unfold batch_sequences. apply omap_app. Qed.

Lemma sent_sequences (actions : list Pipeline.Action) :
  forall t : KeystrokeTracker,
  Forall (fun q => (batchSequence t <= q)%Z) (batch_sequences (sent t actions))
  /\ StronglySorted Z.lt (batch_sequences (sent t actions)).
Proof.
  induction actions as [|a rest IH]; intros t; cbn [sent].
  - split; constructor.
  - destruct (IH (fst (Pipeline.handle a t))) as [Hge Hsorted].
    rewrite batch_sequences_app.
    destruct (handle_sequence a t) as [[Hout Hseq] | [Hout Hseq]]; rewrite Hout.
    + cbn [app]. split; [| exact Hsorted].
      eapply Forall_impl; [exact Hge |]. cbn. intros q Hq.
      destruct Hseq as [E|E]; rewrite E in Hq; lia.
    + cbn [app]. split.
      * constructor; [lia |].
        eapply Forall_impl; [exact Hge |]. cbn. intros q Hq.
        rewrite Hseq in Hq. lia.
      * constructor; [exact Hsorted |].
        eapply Forall_impl; [exact Hge |]. cbn. intros q Hq.
        rewrite Hseq in Hq. lia.
Qed.

(** Over any run of capture actions the batches leave the page with
    strictly increasing sequence numbers, none below the number the run
    started with: no two batches share a number, also after failed
    flushes. *)
Theorem batch_sequence_strictly_increasing (t : KeystrokeTracker)
    (actions : list Pipeline.Action) :
  StronglySorted Z.lt (batch_sequences (sent t actions))
  /\ Forall (fun q => (batchSequence t <= q)%Z)
            (batch_sequences (sent t actions)).
Proof. destruct (sent_sequences actions t) as [H1 H2]. split; assumption. Qed.

(** *** The window after an assistant insertion *)

Lemma flush_ai_flags (force delivered : bool) (now : number)
    (t : KeystrokeTracker) :
  aiInsertInProgress (fst (flush force delivered now t)) = aiInsertInProgress t
  /\ aiInsertIgnoreUntil (fst (flush force delivered now t))
     = aiInsertIgnoreUntil t.
Proof.
  unfold flush.
  destruct (sessionId t) as [[|c0 r0]|]; try (split; reflexivity). cbv zeta.
  destruct (length (events t) =? 0)%nat; [split; reflexivity |].
  destruct (negb force && _); [split; reflexivity |].
  destruct delivered; split; reflexivity.
Qed.

Lemma scheduleFlush_ai_flags (delivered : bool) (now : number)
    (t : KeystrokeTracker) :
  aiInsertInProgress (fst (scheduleFlush delivered now t)) = aiInsertInProgress t
  /\ aiInsertIgnoreUntil (fst (scheduleFlush delivered now t))
     = aiInsertIgnoreUntil t.
Proof.
  unfold scheduleFlush.
  destruct (BATCH_SIZE <=? length (events t))%nat.
  - apply flush_ai_flags.
  - split; reflexivity.
Qed.

Lemma synthesizeAiBurst_flags (text : string) (currentTime : number)
    (dwell flight : nat -> number) (delivered : bool) (t : KeystrokeTracker) :
  aiInsertInProgress
    (fst (synthesizeAiBurst text currentTime dwell flight delivered t)) = true
  /\ aiInsertIgnoreUntil
       (fst (synthesizeAiBurst text currentTime dwell flight delivered t))
     = currentTime + 500.
Proof.
  unfold synthesizeAiBurst.
  destruct (synthesize text 0 dwell flight currentTime) as [ks ts].
  match goal with
  | |- context [scheduleFlush delivered currentTime ?t1] =>
      destruct (scheduleFlush_ai_flags delivered currentTime t1) as [H1 H2]
  end.
  rewrite H1, H2. split; reflexivity.
Qed.

(** After an assistant insertion at [currentTime], a paste event is ignored
    as long as the in-progress flag is up, whatever the time, and after the
    flag is lowered it is still ignored until [currentTime + 500]; an input
    event in the same window only updates [lastInputTime].  Nothing is
    buffered, counted or sent. *)
Theorem insertion_silences_paste_and_input (text : string) (currentTime : number)
    (dwell flight : nat -> number) (delivered : bool) (t : KeystrokeTracker) :
  let t1 := fst (synthesizeAiBurst text currentTime dwell flight delivered t) in
  (forall clipboard now d, handlePaste clipboard now d t1 = (t1, []))
  /\ (forall clipboard now d,
        now < currentTime + 500 ->
        handlePaste clipboard now d (aiInsertTimeout t1) = (aiInsertTimeout t1, []))
  /\ (forall data now d,
        snd (handleInput data now d t1) = []
        /\ events (fst (handleInput data now d t1)) = events t1
        /\ totalTypedChars (fst (handleInput data now d t1)) = totalTypedChars t1)
  /\ (forall data now d,
        now < currentTime + 500 ->
        snd (handleInput data now d (aiInsertTimeout t1)) = []
        /\ events (fst (handleInput data now d (aiInsertTimeout t1))) = events t1
        /\ totalTypedChars (fst (handleInput data now d (aiInsertTimeout t1)))
           = totalTypedChars t1).
Proof.
  intros t1.
  destruct (synthesizeAiBurst_flags text currentTime dwell flight delivered t)
    as [Hflag Huntil].
  fold t1 in Hflag, Huntil.
  assert (Hw1 : forall now, ai_window now t1 = true)
    by (intros now; unfold ai_window; rewrite Hflag; reflexivity).
  assert (Hw2 : forall now, now < currentTime + 500 ->
                 ai_window now (aiInsertTimeout t1) = true).
  { intros now Hnow. unfold ai_window.
    change (aiInsertIgnoreUntil (aiInsertTimeout t1)) with (aiInsertIgnoreUntil t1).
    rewrite Huntil. apply JSFacts.lt_spec in Hnow. rewrite Hnow.
    apply orb_true_r. }
  repeat split.
  - intros clipboard now d. unfold handlePaste.
    destruct (isTracking t1); [| reflexivity].
    destruct (sessionId t1) as [[|c0 r0]|]; try reflexivity. cbv zeta.
    rewrite Hw1. reflexivity.
  - intros clipboard now d Hnow. unfold handlePaste.
    destruct (isTracking (aiInsertTimeout t1)); [| reflexivity].
    destruct (sessionId (aiInsertTimeout t1)) as [[|c0 r0]|]; try reflexivity.
    cbv zeta. rewrite (Hw2 now Hnow). reflexivity.
  - unfold handleInput. destruct (isTracking t1); cbn [negb]; [| reflexivity].
    change (ai_window now (with_lastInputTime now t1)) with (ai_window now t1).
    rewrite Hw1. reflexivity.
  - unfold handleInput. destruct (isTracking t1); cbn [negb]; [| reflexivity].
    change (ai_window now (with_lastInputTime now t1)) with (ai_window now t1).
    rewrite Hw1. reflexivity.
  - unfold handleInput. destruct (isTracking t1); cbn [negb]; [| reflexivity].
    change (ai_window now (with_lastInputTime now t1)) with (ai_window now t1).
    rewrite Hw1. reflexivity.
  - unfold handleInput.
    destruct (isTracking (aiInsertTimeout t1)); cbn [negb]; [| reflexivity].
    change (ai_window now (with_lastInputTime now (aiInsertTimeout t1)))
      with (ai_window now (aiInsertTimeout t1)).
    rewrite (Hw2 now H). reflexivity.
  - unfold handleInput.
    destruct (isTracking (aiInsertTimeout t1)); cbn [negb]; [| reflexivity].
    change (ai_window now (with_lastInputTime now (aiInsertTimeout t1)))
      with (ai_window now (aiInsertTimeout t1)).
    rewrite (Hw2 now H). reflexivity.
  - unfold handleInput.
    destruct (isTracking (aiInsertTimeout t1)); cbn [negb]; [| reflexivity].
    change (ai_window now (with_lastInputTime now (aiInsertTimeout t1)))
      with (ai_window now (aiInsertTimeout t1)).
    rewrite (Hw2 now H). reflexivity.
Qed.

End TrackerFacts.

(** ** The synthetic keystrokes of an assistant insertion, as the worker
    times them *)

Module BurstFacts.

Import JS Types.

Lemma synthesize_cons (c : ascii) (rest : string) (i : nat)
    (dwell flight : nat -> number) (timestamp : number) :
  fst (Tracker.synthesize (String c rest) i dwell flight timestamp)
  = {| event_type := keydown; key_code := Z.of_N (N_of_ascii c);
       key_char := Some (String c EmptyString); client_timestamp := timestamp;
       input_method := Some method_ai_assistant |}
    :: {| event_type := keyup; key_code := Z.of_N (N_of_ascii c);
          key_char := Some (String c EmptyString);
          client_timestamp := timestamp + dwell i;
          input_method := Some method_ai_assistant |}
    :: fst (Tracker.synthesize rest (S i) dwell flight
              (timestamp + (dwell i + flight i))).
Proof.
  cbn [Tracker.synthesize].
  destruct (Tracker.synthesize rest (S i) dwell flight
              (timestamp + (dwell i + flight i))) as [more final].
  reflexivity.
Qed.

(** The worker's loop over a synthetic key: the keyup that follows the
    keydown is its match, also when the text repeats a character. *)
Lemma timings_synthetic_key (c : ascii) (rest : list KeystrokeEvent)
    (timestamp d lastKeyup : number) (ch : option string) (m : option InputMethod) :
  Background.timings lastKeyup
    ({| event_type := keydown; key_code := Z.of_N (N_of_ascii c);
        key_char := ch; client_timestamp := timestamp; input_method := m |}
     :: {| event_type := keyup; key_code := Z.of_N (N_of_ascii c);
           key_char := ch; client_timestamp := timestamp + d;
           input_method := m |}
     :: rest)
  = ([timestamp + d - timestamp]
       ++ fst (Background.timings (timestamp + d) rest),
     (if gt lastKeyup 0 then [timestamp - lastKeyup] else [])
       ++ snd (Background.timings (timestamp + d) rest)).
Proof.
  cbn [Background.timings event_type List.find Background.is_matching_keyup
       EventType_eqb key_code client_timestamp andb].
  rewrite Z.eqb_refl.
  destruct (Background.timings (timestamp + d) rest) as [ds fs].
  reflexivity.
Qed.

(** The worker's loop over the synthetic keystrokes of a burst that follows
    a keyup at [lastKeyup]. *)
Lemma burst_shape (chars : string) :
  forall (i : nat) (dwell flight : nat -> number) (timestamp lastKeyup : number),
    0 < timestamp -> (forall k, 0 <= dwell k) -> (forall k, 0 <= flight k) ->
    lastKeyup <= timestamp ->
    let events := fst (Tracker.synthesize chars i dwell flight timestamp) in
    length events = (2 * String.length chars)%nat
    /\ length (List.filter (fun e => EventType_eqb (event_type e) keydown) events)
       = String.length chars
    /\ length (fst (Background.timings lastKeyup events)) = String.length chars
    /\ Forall (Qle 0) (fst (Background.timings lastKeyup events))
    /\ length (snd (Background.timings lastKeyup events))
       = match chars with
         | EmptyString => 0%nat
         | String _ rest =>
             ((if gt lastKeyup 0%Q then 1 else 0) + String.length rest)%nat
         end
    /\ Forall (Qle 0) (snd (Background.timings lastKeyup events)).
Proof.
  induction chars as [|c rest IH];
    intros i dwell flight timestamp lastKeyup Hts Hd Hf Hlast.
  - cbn. repeat split; constructor.
  - cbv zeta. rewrite synthesize_cons, timings_synthetic_key.
    assert (Hup : 0 < timestamp + dwell i).
    { apply Qlt_le_trans with (timestamp + 0).
      - rewrite Qplus_0_r. exact Hts.
      - apply Qplus_le_r. apply Hd. }
    assert (Hnext : 0 < timestamp + (dwell i + flight i)).
    { apply Qlt_le_trans with (timestamp + dwell i); [exact Hup |].
      apply Qplus_le_r. rewrite <- (Qplus_0_r (dwell i)) at 1.
      apply Qplus_le_r. apply Hf. }
    assert (Horder : timestamp + dwell i <= timestamp + (dwell i + flight i)).
    { apply Qplus_le_r. rewrite <- (Qplus_0_r (dwell i)) at 1.
      apply Qplus_le_r. apply Hf. }
    destruct (IH (S i) dwell flight (timestamp + (dwell i + flight i))
                 (timestamp + dwell i) Hnext Hd Hf Horder)
      as (Hlen & Hdown & Hdl & Hdn & Hfl & Hfn).
    cbn [fst snd length List.filter event_type EventType_eqb String.length].
    rewrite !length_app. unfold number in *.
    split; [rewrite Hlen; lia |]. split; [rewrite Hdown; reflexivity |].
    split; [cbn [length]; rewrite Hdl; reflexivity |].
    split.
    { apply Forall_app. split; [| exact Hdn].
      constructor; [| constructor].
      apply (Qle_minus_iff timestamp (timestamp + dwell i)).
      rewrite <- (Qplus_0_r timestamp) at 1. apply Qplus_le_r. apply Hd. }
    split.
    { rewrite Hfl. destruct rest as [|c' rest'].
      - destruct (gt lastKeyup 0); reflexivity.
      - apply JSFacts.gt_spec in Hup. rewrite Hup.
        destruct (gt lastKeyup 0); cbn [length String.length]; lia. }
    apply Forall_app. split; [| exact Hfn].
    destruct (gt lastKeyup 0); constructor; [| constructor].
    apply (Qle_minus_iff lastKeyup timestamp). exact Hlast.
Qed.



End BurstFacts.

(** ** The event stream between the page and the worker *)

Module StreamFacts.

Import JS Types Pipeline.

(** The events the worker holds, followed by those still buffered on the
    page. *)
Definition stream (sys : System) : list KeystrokeEvent :=
  Background.keystrokes (snd sys) ++ Tracker.events (fst sys).

Lemma count_event_keystrokes (s : Background.SessionState) (e : KeystrokeEvent) :
  Background.keystrokes (Background.count_event s e) = Background.keystrokes s.
Proof.
  unfold Background.count_event.
  destruct (_ && _ && _); [reflexivity |].
  destruct (EventType_eqb _ _); reflexivity.
Qed.

Lemma fold_count_event_keystrokes (es : list KeystrokeEvent) :
  forall s, Background.keystrokes (fold_left Background.count_event es s)
            = Background.keystrokes s.
Proof.
  induction es as [|e es IH]; intros s; [reflexivity |].
  cbn [fold_left]. rewrite IH. apply count_event_keystrokes.
Qed.

Lemma live_verdict_keystrokes (s : Background.SessionState) :
  Background.keystrokes (Background.live_verdict s) = Background.keystrokes s.
Proof. unfold Background.live_verdict. BackgroundFacts.case_ifs; reflexivity. Qed.

(** A batch is appended to the worker's event list, in order. *)
Lemma handle_KEYSTROKE_BATCH_keystrokes (events : list KeystrokeEvent)
    (s : Background.SessionState) :
  Background.keystrokes (Background.handle_KEYSTROKE_BATCH events s)
  = Background.keystrokes s ++ events.
Proof.
  unfold Background.handle_KEYSTROKE_BATCH.
  rewrite live_verdict_keystrokes, fold_count_event_keystrokes. reflexivity.
Qed.

Lemma handle_PASTE_EVENT_keystrokes (event : PasteEvent)
    (s : Background.SessionState) :
  Background.keystrokes (Background.handle_PASTE_EVENT event s)
  = Background.keystrokes s.
Proof. unfold Background.handle_PASTE_EVENT. BackgroundFacts.case_ifs; reflexivity. Qed.

Lemma flush_stream (force delivered : bool) (now : number)
    (t : Tracker.KeystrokeTracker) (b : Background.SessionState) :
  stream (fst (Tracker.flush force delivered now t),
          fold_left deliver (snd (Tracker.flush force delivered now t)) b)
  = stream (t, b).
Proof.
  unfold Tracker.flush.
  destruct (Tracker.sessionId t) as [[|c0 r0]|]; try reflexivity. cbv zeta.
  destruct (length (Tracker.events t) =? 0)%nat; [reflexivity |].
  destruct (negb force && _); [reflexivity |].
  destruct delivered; unfold stream;
    cbn [fst snd fold_left deliver Background.handleMessage Tracker.events].
  - rewrite handle_KEYSTROKE_BATCH_keystrokes, <- app_assoc, take_drop.
    reflexivity.
  - rewrite take_drop. reflexivity.
Qed.

Lemma scheduleFlush_stream (delivered : bool) (now : number)
    (t : Tracker.KeystrokeTracker) (b : Background.SessionState) :
  stream (fst (Tracker.scheduleFlush delivered now t),
          fold_left deliver (snd (Tracker.scheduleFlush delivered now t)) b)
  = stream (t, b).
Proof.
  unfold Tracker.scheduleFlush.
  destruct (Tracker.BATCH_SIZE <=? length (Tracker.events t))%nat.
  - apply flush_stream.
  - reflexivity.
Qed.

Lemma prefix_stream_app (t1 : Tracker.KeystrokeTracker)
    (t : Tracker.KeystrokeTracker) (b : Background.SessionState)
    (new : list KeystrokeEvent) :
  Tracker.events t1 = Tracker.events t ++ new ->
  stream (t, b) `prefix_of` stream (t1, b).
Proof.
  intros E. exists new. unfold stream. cbn [fst snd].
  rewrite E, app_assoc. reflexivity.
Qed.

Lemma step_stream (sys : System) (a : Action) :
  stream sys `prefix_of` stream (step sys a).
Proof.
  destruct sys as [t b]. rewrite PipelineFacts.step_eq. cbn [fst snd].
  destruct a as [event now d | event now d | data now d | clipboard now d
                | src ty text now dwell flight d | | now d | now d];
    cbn [handle].
  - unfold Tracker.handleKeyDown, Tracker.handleKeyDown_record.
    destruct (Tracker.isTracking t); cbn [negb fst snd fold_left]; [| reflexivity].
    rewrite scheduleFlush_stream. eapply prefix_stream_app. reflexivity.
  - unfold Tracker.handleKeyUp.
    destruct (Tracker.isTracking t); cbn [negb fst snd fold_left]; [| reflexivity].
    rewrite scheduleFlush_stream. eapply prefix_stream_app. reflexivity.
  - unfold Tracker.handleInput.
    destruct (Tracker.isTracking t); cbn [negb fst snd fold_left]; [| reflexivity].
    destruct (Tracker.ai_window now (Tracker.with_lastInputTime now t));
      [reflexivity |].
    destruct data as [x|]; [| reflexivity].
    destruct (String.length x =? 1)%nat; [| reflexivity].
    rewrite scheduleFlush_stream. eapply prefix_stream_app. reflexivity.
  - unfold Tracker.handlePaste.
    destruct (Tracker.isTracking t); [| reflexivity].
    destruct (Tracker.sessionId t) as [[|c0 r0]|]; try reflexivity. cbv zeta.
    destruct (Tracker.ai_window now t); [reflexivity |].
    destruct (0 <? _)%Z; [| reflexivity].
    match goal with
    | |- context [Tracker.scheduleFlush d now ?t1] =>
        pose proof (fun b' => scheduleFlush_stream d now t1 b') as H;
        set (tp := t1) in *;
        destruct (Tracker.scheduleFlush d now tp) as [t2 out]
    end.
    cbn [fst snd fold_left] in *. rewrite H.
    unfold stream. cbn [fst snd deliver Background.handleMessage].
    rewrite handle_PASTE_EVENT_keystrokes.
    eexists. subst tp. cbn [Tracker.events Tracker.with_pasteEvents
                           Tracker.with_buffer].
    rewrite app_assoc. reflexivity.
  - unfold Tracker.handleWindowMessage.
    destruct src; cbn [negb]; [| reflexivity].
    destruct ty as [ty|]; [| reflexivity].
    destruct text as [text|]; [| reflexivity].
    destruct (String.eqb ty "humanSign:aiInsert" && truthy_string (Some text));
      [| reflexivity].
    unfold Tracker.synthesizeAiBurst.
    destruct (Tracker.synthesize text 0 dwell flight now) as [ks ts].
    rewrite scheduleFlush_stream. eapply prefix_stream_app. reflexivity.
  - reflexivity.
  - rewrite flush_stream. reflexivity.
  - rewrite flush_stream. reflexivity.
Qed.

(** Over any run of handler calls all of whose messages the worker
    handles, with sends that go through or throw, the worker's event list
    followed by the page's buffer only grows at its end. *)
Lemma stream_grows_when_handled (sys : System) (actions : list Action) :
  stream sys `prefix_of` stream (run sys actions).
Proof.
  revert sys. induction actions as [|a rest IH]; intros sys.
  - reflexivity.
  - rewrite PipelineFacts.run_cons.
    transitivity (stream (step sys a)); [apply step_stream | apply IH].
Qed.

End StreamFacts.

(** ** The ledger, per handler call *)

Module LedgerFacts.

Import JS Types Pipeline PipelineFacts.

Ltac tally :=
  unfold tally_add, no_chars; cbn [typed pasted assistant]; apply tally_eq; lia.

(** The worker's three counters. *)
Definition counters (b : Background.SessionState) : Tally :=
  {| typed := Background.totalTypedChars b;
     pasted := Background.totalPastedChars b;
     assistant := Background.totalAiChars b |}.

Lemma deliver_counters (b : Background.SessionState) (m : Tracker.Outgoing) :
  counters (deliver b m) = tally_add (counters b) (Channel.carried m).
Proof.
  destruct m as [hostname | sid | sid batch seq | sid event];
    cbn [deliver Background.handleMessage Channel.carried].
  - unfold counters. tally.
  - unfold counters, Background.handle_END_SESSION, Background.with_isRecording.
    cbn [Background.totalTypedChars Background.totalPastedChars
         Background.totalAiChars]. tally.
  - destruct (BackgroundFacts.handle_KEYSTROKE_BATCH_ledger batch b)
      as (Ht & Hp & Ha).
    unfold counters. rewrite Ht, Hp, Ha. tally.
  - destruct (BackgroundFacts.handle_PASTE_EVENT_ledger event b)
      as (Ht & Hp & Ha).
    unfold counters. rewrite Ht, Hp, Ha. tally.
Qed.

Lemma fold_deliver_counters (out : list Tracker.Outgoing) :
  forall b : Background.SessionState,
    counters (fold_left deliver out b)
    = tally_add (counters b) (Channel.carried_by out).
Proof.
  induction out as [|m out IH]; intros b; cbn [fold_left Channel.carried_by fold_right].
  - unfold counters. tally.
  - rewrite IH, deliver_counters. fold (Channel.carried_by out).
    destruct (Channel.carried m), (Channel.carried_by out). tally.
Qed.

Lemma carried_by_split (fate : Channel.Fate) (out : list Tracker.Outgoing) :
  tally_add (Channel.carried_by (List.filter fate out))
            (Channel.carried_by (List.filter (fun m => negb (fate m)) out))
  = Channel.carried_by out.
Proof.
  induction out as [|m out IH]; [reflexivity |].
  cbn [List.filter Channel.carried_by fold_right].
  fold (Channel.carried_by out). rewrite <- IH.
  destruct (fate m); cbn [negb Channel.carried_by fold_right];
    fold (Channel.carried_by (List.filter fate out));
    fold (Channel.carried_by (List.filter (fun m => negb (fate m)) out));
    destruct (Channel.carried m), (Channel.carried_by (List.filter fate out)),
      (Channel.carried_by (List.filter (fun m => negb (fate m)) out)); tally.
Qed.

Lemma ledger_counters (t : Tracker.KeystrokeTracker)
    (b : Background.SessionState) :
  ledger (t, b)
  = tally_add (counters b)
      {| typed := typed_in (Tracker.events t); pasted := 0;
         assistant := assistant_in (Tracker.events t) |}.
Proof. rewrite ledger_pair. unfold counters. tally. Qed.

(** The tracker does not depend on what becomes of its messages. *)
Lemma step_tracker (sys : System) (call : Action * Channel.Fate) :
  fst (Channel.step sys call) = fst (Pipeline.step sys (fst call)).
Proof.
  unfold Channel.step. rewrite step_eq.
  destruct (handle (fst call) (fst sys)); reflexivity.
Qed.

Lemma run_tracker (calls : list (Action * Channel.Fate)) :
  forall sys sys' : System,
    fst sys = fst sys' ->
    fst (Channel.run sys calls) = fst (Pipeline.run sys' (List.map fst calls)).
Proof.
  induction calls as [|call rest IH]; intros sys sys' E; [exact E |].
  cbn [Channel.run Pipeline.run fold_left List.map].
  apply IH. rewrite step_tracker, !step_eq. cbn [fst]. rewrite E. reflexivity.
Qed.

Lemma accepted_during_tracker (actions : list Action) :
  forall sys sys' : System,
    fst sys = fst sys' ->
    accepted_during sys actions = accepted_during sys' actions.
Proof.
  induction actions as [|a rest IH]; intros sys sys' E; [reflexivity |].
  cbn [accepted_during]. rewrite E. f_equal.
  apply IH. rewrite !step_eq. cbn [fst]. rewrite E. reflexivity.
Qed.

(** One handler call: what the ledger gains and what is lost add up to
    what the call accepted. *)
Lemma step_conservation (sys : System) (call : Action * Channel.Fate) :
  tally_add (ledger (Channel.step sys call))
            (Channel.carried_by
               (List.filter (fun m => negb (snd call m))
                            (snd (handle (fst call) (fst sys)))))
  = tally_add (ledger sys) (accepted (fst sys) (fst call)).
Proof.
  rewrite <- step_ledger. rewrite step_eq. unfold Channel.step.
  destruct (handle (fst call) (fst sys)) as [t out]. cbn [fst snd].
  rewrite !ledger_counters, !fold_deliver_counters.
  rewrite <- (carried_by_split (snd call) out).
  destruct (counters (snd sys)),
    (Channel.carried_by (List.filter (snd call) out)),
    (Channel.carried_by (List.filter (fun m => negb (snd call m)) out)).
  tally.
Qed.

Lemma run_conservation (calls : list (Action * Channel.Fate)) :
  forall sys : System,
    tally_add (ledger (Channel.run sys calls)) (Channel.lost_during sys calls)
    = tally_add (ledger sys) (accepted_during sys (List.map fst calls)).
Proof.
  induction calls as [|call rest IH]; intros sys.
  - reflexivity.
  - cbn [Channel.run fold_left Channel.lost_during List.map accepted_during].
    fold (Channel.run (Channel.step sys call) rest).
    pose proof (IH (Channel.step sys call)) as Hrest.
    pose proof (step_conservation sys call) as Hstep.
    rewrite (accepted_during_tracker (List.map fst rest)
               (Channel.step sys call) (Pipeline.step sys (fst call))
               (step_tracker sys call)) in Hrest.
    destruct (ledger (Channel.run (Channel.step sys call) rest)),
      (Channel.lost_during (Channel.step sys call) rest),
      (ledger (Channel.step sys call)),
      (Channel.carried_by _), (ledger sys), (accepted (fst sys) (fst call)),
      (accepted_during (Pipeline.step sys (fst call)) (List.map fst rest)).
    unfold tally_add in *. cbn [typed pasted assistant] in *.
    injection Hrest as H1 H2 H3. injection Hstep as H4 H5 H6.
    apply tally_eq; lia.
Qed.

Lemma nothing_lost (calls : list (Action * Channel.Fate)) :
  forall sys : System,
    Forall (fun call => forall m, snd call m = true) calls ->
    Channel.lost_during sys calls = no_chars.
Proof.
  induction calls as [|call rest IH]; intros sys Hall; [reflexivity |].
  apply Forall_cons_1 in Hall. destruct Hall as [Hcall Hall].
  cbn [Channel.lost_during]. rewrite (IH _ Hall).
  assert (E : forall out,
            List.filter (fun m => negb (snd call m)) out = []).
  { induction out as [|m out IHout]; [reflexivity |].
    cbn [List.filter]. rewrite Hcall. exact IHout. }
  rewrite E. reflexivity.
Qed.

(** *** One DOM event, several handler calls *)

(** What the guards of the capture handlers read. *)
Definition mode (t : Tracker.KeystrokeTracker)
  : bool * option string * bool * number :=
  (Tracker.isTracking t, Tracker.sessionId t,
   Tracker.aiInsertInProgress t, Tracker.aiInsertIgnoreUntil t).

Lemma flush_mode (force delivered : bool) (now : number)
    (t : Tracker.KeystrokeTracker) :
  mode (fst (Tracker.flush force delivered now t)) = mode t.
Proof.
  unfold Tracker.flush.
  destruct (Tracker.sessionId t) as [[|c0 r0]|] eqn:Hsid; try reflexivity.
  cbv zeta.
  destruct (length (Tracker.events t) =? 0)%nat; [reflexivity |].
  destruct (negb force && _); [reflexivity |].
  destruct delivered; unfold mode;
    cbn [fst Tracker.isTracking Tracker.sessionId Tracker.aiInsertInProgress
         Tracker.aiInsertIgnoreUntil];
    rewrite Hsid; reflexivity.
Qed.

Lemma scheduleFlush_mode (delivered : bool) (now : number)
    (t : Tracker.KeystrokeTracker) :
  mode (fst (Tracker.scheduleFlush delivered now t)) = mode t.
Proof.
  unfold Tracker.scheduleFlush.
  destruct (Tracker.BATCH_SIZE <=? length (Tracker.events t))%nat.
  - apply flush_mode.
  - reflexivity.
Qed.

Lemma call_mode (e : Page.DomEvent) (now : number) (delivered : bool)
    (t : Tracker.KeystrokeTracker) :
  mode (fst (handle (Page.call e now delivered) t)) = mode t.
Proof.
  destruct e as [event n | event n | clipboard n | data | data];
    cbn [Page.call handle].
  - unfold Tracker.handleKeyDown, Tracker.handleKeyDown_record.
    destruct (Tracker.isTracking t) eqn:Htr; cbn [negb]; [| reflexivity].
    rewrite scheduleFlush_mode. unfold mode. cbn. rewrite Htr. reflexivity.
  - unfold Tracker.handleKeyUp.
    destruct (Tracker.isTracking t) eqn:Htr; cbn [negb]; [| reflexivity].
    rewrite scheduleFlush_mode. unfold mode. cbn. rewrite Htr. reflexivity.
  - unfold Tracker.handlePaste.
    destruct (Tracker.isTracking t) eqn:Htr; [| reflexivity].
    destruct (Tracker.sessionId t) as [[|c0 r0]|] eqn:Hsid; try reflexivity.
    cbv zeta.
    destruct (Tracker.ai_window now t); [reflexivity |].
    destruct (0 <? _)%Z; [| reflexivity].
    match goal with
    | |- context [Tracker.scheduleFlush delivered now ?t1] =>
        pose proof (scheduleFlush_mode delivered now t1) as Hm;
        destruct (Tracker.scheduleFlush delivered now t1) as [t2 out]
    end.
    cbn [fst] in *. rewrite Hm. unfold mode. cbn. rewrite Htr, Hsid.
    reflexivity.
  - unfold Tracker.handleInput.
    destruct (Tracker.isTracking t) eqn:Htr; cbn [negb]; [| reflexivity].
    assert (Hm0 : mode (Tracker.with_lastInputTime now t) = mode t)
      by reflexivity.
    destruct (Tracker.ai_window now (Tracker.with_lastInputTime now t));
      [exact Hm0 |].
    destruct data as [x|]; [| exact Hm0].
    destruct (String.length x =? 1)%nat; [| exact Hm0].
    rewrite scheduleFlush_mode. exact Hm0.
  - unfold Tracker.handleInput.
    destruct (Tracker.isTracking t) eqn:Htr; cbn [negb]; [| reflexivity].
    assert (Hm0 : mode (Tracker.with_lastInputTime now t) = mode t)
      by reflexivity.
    destruct (Tracker.ai_window now (Tracker.with_lastInputTime now t));
      [exact Hm0 |].
    destruct data as [x|]; [| exact Hm0].
    destruct (String.length x =? 1)%nat; [| exact Hm0].
    rewrite scheduleFlush_mode. exact Hm0.
Qed.

Lemma accepted_mode (e : Page.DomEvent) (now : number) (delivered : bool)
    (t t' : Tracker.KeystrokeTracker) :
  mode t = mode t' ->
  accepted t (Page.call e now delivered) = accepted t' (Page.call e now delivered).
Proof.
  unfold mode. intros E. injection E as Htr Hsid Hai Huntil.
  destruct e as [event n | event n | clipboard n | data | data];
    cbn [Page.call accepted]; unfold Tracker.ai_window;
    rewrite ?Htr, ?Hsid, ?Hai, ?Huntil; reflexivity.
Qed.

(** The calls of one DOM event accept, one after the other, what the first
    of them accepts. *)
Lemma accepted_during_calls (e : Page.DomEvent) (clock : nat -> number)
    (delivered : bool) (indices : list nat) :
  forall sys : System,
    accepted_during sys
      (List.map (fun i => Page.call e (clock i) delivered) indices)
    = fold_right
        (fun i total =>
           tally_add (accepted (fst sys) (Page.call e (clock i) delivered)) total)
        no_chars indices.
Proof.
  induction indices as [|i rest IH]; intros sys; [reflexivity |].
  cbn [List.map accepted_during fold_right]. f_equal.
  rewrite IH.
  assert (Hm : mode (fst (Pipeline.step sys (Page.call e (clock i) delivered)))
               = mode (fst sys))
    by (rewrite step_eq; apply call_mode).
  clear IH. induction rest as [|j rest IHrest]; [reflexivity |].
  cbn [fold_right]. rewrite IHrest.
  rewrite (accepted_mode e (clock j) delivered _ _ Hm). reflexivity.
Qed.

Lemma keydown_accepted_per_listener (sys : System)
    (event : Tracker.KeyboardEvent) (attached : nat) (clock : nat -> number)
    (delivered : bool) :
  Tracker.isTracking (fst sys) = true ->
  Tracker.printable (Tracker.key event) = true ->
  accepted_during sys
    (Page.calls (Page.keydown_event event attached) clock delivered)
  = {| typed := Z.of_nat (2 + attached); pasted := 0; assistant := 0 |}.
Proof.
  intros Htr Hkey. unfold Page.calls. rewrite accepted_during_calls.
  cbn [Page.listeners Page.call accepted]. rewrite Htr, Hkey. cbn [andb].
  assert (Hsum : forall n start : nat,
            fold_right
              (fun (_ : nat) total =>
                 tally_add {| typed := 1; pasted := 0; assistant := 0 |} total)
              no_chars (seq start n)
            = {| typed := Z.of_nat n; pasted := 0; assistant := 0 |}).
  { induction n as [|n IH]; intros start; [reflexivity |].
    cbn [seq fold_right]. rewrite IH. tally. }
  apply Hsum.
Qed.

Lemma paste_accepted_per_listener (sys : System) (text : string)
    (attached : nat) (clock : nat -> number) (delivered : bool)
    (c : ascii) (r : string) :
  Tracker.isTracking (fst sys) = true ->
  Tracker.sessionId (fst sys) = Some (String c r) ->
  Tracker.aiInsertInProgress (fst sys) = false ->
  (forall i, Tracker.aiInsertIgnoreUntil (fst sys) <= clock i) ->
  accepted_during sys
    (Page.calls (Page.paste_event (Some text) attached) clock delivered)
  = {| typed := 0;
       pasted := Z.of_nat (2 + attached) * Z.of_nat (String.length text);
       assistant := 0 |}.
Proof.
  intros Htr Hsid Hai Hclock. unfold Page.calls. rewrite accepted_during_calls.
  cbn [Page.listeners Page.call accepted]. rewrite Htr, Hsid.
  assert (Hwindow : forall i, Tracker.ai_window (clock i) (fst sys) = false).
  { intros i. unfold Tracker.ai_window. rewrite Hai. cbn [orb].
    apply JSFacts.gt_false. apply Hclock. }
  assert (Hsum : forall n start : nat,
            fold_right
              (fun (i : nat) total =>
                 tally_add
                   (if Tracker.ai_window (clock i) (fst sys) then no_chars
                    else {| typed := 0;
                            pasted := Z.of_nat (String.length text);
                            assistant := 0 |}) total)
              no_chars (seq start n)
            = {| typed := 0;
                 pasted := Z.of_nat n * Z.of_nat (String.length text);
                 assistant := 0 |}).
  { induction n as [|n IH]; intros start; [cbn; tally |].
    cbn [seq fold_right]. rewrite IH, Hwindow. tally. }
  apply Hsum.
Qed.

Lemma input_accepted_per_listener (sys : System) (x : string)
    (clock : nat -> number) (delivered : bool) :
  Tracker.isTracking (fst sys) = true ->
  Tracker.aiInsertInProgress (fst sys) = false ->
  Tracker.aiInsertIgnoreUntil (fst sys) <= clock 0%nat ->
  String.length x = 1%nat ->
  accepted_during sys
    (Page.calls (Page.beforeinput_event (Some x)) clock delivered)
  = {| typed := 1; pasted := 0; assistant := 0 |}
  /\ accepted_during sys
       (Page.calls (Page.input_event (Some x)) clock delivered)
     = {| typed := 1; pasted := 0; assistant := 0 |}.
Proof.
  intros Htr Hai Hclock Hlen.
  assert (Hwindow : Tracker.ai_window (clock 0%nat) (fst sys) = false).
  { unfold Tracker.ai_window. rewrite Hai. cbn [orb].
    apply JSFacts.gt_false. exact Hclock. }
  unfold Page.calls.
  cbn [Page.listeners seq List.map Page.call accepted_during accepted].
  rewrite Htr, Hwindow, Hlen. split; reflexivity.
Qed.



End LedgerFacts.

(** ** The keystroke record on its way to the worker *)

Module ChannelFacts.

Import JS Types Pipeline PipelineFacts.

(** The events of the batches among some messages. *)
Definition batches (out : list Tracker.Outgoing) : list KeystrokeEvent :=
  concat (List.map (fun m => match m with
                             | Tracker.SendBatch _ batch _ => batch
                             | _ => []
                             end) out).

Lemma deliver_keystrokes (b : Background.SessionState) (m : Tracker.Outgoing) :
  Background.keystrokes (deliver b m)
  = Background.keystrokes b ++ batches [m].
Proof.
  unfold batches.
  destruct m as [hostname | sid | sid batch seq | sid event];
    cbn [deliver Background.handleMessage List.map concat];
    rewrite ?app_nil_r.
  - reflexivity.
  - reflexivity.
  - apply StreamFacts.handle_KEYSTROKE_BATCH_keystrokes.
  - apply StreamFacts.handle_PASTE_EVENT_keystrokes.
Qed.

Lemma fold_deliver_keystrokes (out : list Tracker.Outgoing) :
  forall b : Background.SessionState,
    Background.keystrokes (fold_left deliver out b)
    = Background.keystrokes b ++ batches out.
Proof.
  induction out as [|m out IH]; intros b; cbn [fold_left].
  - unfold batches. cbn. rewrite app_nil_r. reflexivity.
  - rewrite IH, deliver_keystrokes. unfold batches.
    cbn [List.map concat]. rewrite app_nil_r, <- app_assoc. reflexivity.
Qed.

Lemma batches_handled (fate : Channel.Fate) (out : list Tracker.Outgoing) :
  batches (List.filter fate out) `sublist_of` batches out.
Proof.
  unfold batches. induction out as [|m out IH]; [reflexivity |].
  cbn [List.filter List.map concat]. destruct (fate m).
  - cbn [List.map concat]. apply sublist_app; [reflexivity | exact IH].
  - apply sublist_inserts_l. exact IH.
Qed.

Lemma filter_every_message (fate : Channel.Fate) (out : list Tracker.Outgoing) :
  (forall m, fate m = true) -> List.filter fate out = out.
Proof.
  intros Hf. induction out as [|m out IH]; [reflexivity |].
  cbn [List.filter]. rewrite Hf, IH. reflexivity.
Qed.

Lemma run_every_message_handled (calls : list (Action * Channel.Fate)) :
  forall sys : System,
    Forall (fun call => forall m, snd call m = true) calls ->
    Channel.run sys calls = Pipeline.run sys (List.map fst calls).
Proof.
  induction calls as [|call rest IH]; intros sys Hall; [reflexivity |].
  apply Forall_cons_1 in Hall. destruct Hall as [Hcall Hall].
  cbn [Channel.run Pipeline.run fold_left List.map].
  assert (E : Channel.step sys call = Pipeline.step sys (fst call)).
  { unfold Channel.step, Pipeline.step.
    destruct (handle (fst call) (fst sys)) as [t out].
    rewrite (filter_every_message _ _ Hcall). reflexivity. }
  rewrite E. apply IH. exact Hall.
Qed.

Lemma run_record (calls : list (Action * Channel.Fate)) :
  forall handled all : System,
    fst handled = fst all ->
    Background.keystrokes (snd handled)
      `sublist_of` Background.keystrokes (snd all) ->
    Background.keystrokes (snd handled)
      `prefix_of` Background.keystrokes (snd (Channel.run handled calls))
    /\ Background.keystrokes (snd (Channel.run handled calls))
         `sublist_of`
         Background.keystrokes (snd (Pipeline.run all (List.map fst calls))).
Proof.
  induction calls as [|call rest IH]; intros handled all Et Hsub.
  - split; [reflexivity | exact Hsub].
  - cbn [Channel.run Pipeline.run fold_left List.map].
    assert (Hstep : fst (Channel.step handled call)
                    = fst (Pipeline.step all (fst call))
                    /\ exists out,
                         Background.keystrokes (snd (Channel.step handled call))
                         = Background.keystrokes (snd handled)
                           ++ batches (List.filter (snd call) out)
                         /\ Background.keystrokes
                              (snd (Pipeline.step all (fst call)))
                            = Background.keystrokes (snd all) ++ batches out).
    { unfold Channel.step, Pipeline.step. rewrite Et.
      destruct (handle (fst call) (fst all)) as [t out]. cbn [fst snd].
      split; [reflexivity |]. exists out.
      rewrite !fold_deliver_keystrokes. split; reflexivity. }
    destruct Hstep as (Et' & out & Eh & Ea).
    destruct (IH (Channel.step handled call) (Pipeline.step all (fst call)) Et')
      as [Hprefix Hsublist].
    { rewrite Eh, Ea. apply sublist_app; [exact Hsub | apply batches_handled]. }
    split; [| exact Hsublist].
    transitivity (Background.keystrokes (snd (Channel.step handled call)));
      [| exact Hprefix].
    rewrite Eh. apply prefix_app_r. reflexivity.
Qed.


End ChannelFacts.

(** ** Hex decoding ([hexToBuffer] in [client/src/crypto/hashing.ts] and
    [client/src/crypto/signing.ts]) *)

Module HexBuffer.

Local Open Scope string_scope.

(** The white space [parseInt] skips, among the code units below 256: TAB,
    LF, VT, FF, CR, space and the no-break space. *)
Definition isWhiteSpace (c : ascii) : bool :=
  let n := N_of_ascii c in
  ((9 <=? n) && (n <=? 13) || (n =? 32) || (n =? 160))%N.

Fixpoint trimStart (s : string) : string :=
  match s with
  | EmptyString => EmptyString
  | String c r => if isWhiteSpace c then trimStart r else s
  end.

(** The value of a radix-16 digit, in either case. *)
Definition digit16 (c : ascii) : option Z :=
  let n := Z.of_N (N_of_ascii c) in
  if ((48 <=? n) && (n <=? 57))%Z then Some (n - 48)%Z
  else if ((97 <=? n) && (n <=? 102))%Z then Some (n - 87)%Z
  else if ((65 <=? n) && (n <=? 70))%Z then Some (n - 55)%Z
  else None.

(** The digits at the front of a string, up to the first code unit that is
    not a digit. *)
Fixpoint digits16 (s : string) : list Z :=
  match s with
  | EmptyString => []
  | String c r =>
      match digit16 c with
      | Some d => d :: digits16 r
      | None => []
      end
  end.

(** [parseInt(s, 16)]: leading white space, a sign, the prefix [0x] or [0X],
    then the longest run of digits; [None] is NaN.  (Exact as long as the
    value is below 2^53; the code calls it on two code units.) *)
Definition parseInt16 (s : string) : option Z :=
  let S0 := trimStart s in
  let sign :=
    match S0 with
    | String c _ => if Ascii.eqb c "-" then (-1)%Z else 1%Z
    | EmptyString => 1%Z
    end in
  let S1 :=
    match S0 with
    | String c r => if Ascii.eqb c "+" || Ascii.eqb c "-" then r else S0
    | EmptyString => S0
    end in
  let S2 :=
    match S1 with
    | String z (String x r) =>
        if Ascii.eqb z "0" && (Ascii.eqb x "x" || Ascii.eqb x "X") then r else S1
    | _ => S1
    end in
  match digits16 S2 with
  | [] => None
  | ds => Some (sign * fold_left (fun a d => 16 * a + d) ds 0)%Z
  end.

(** Storing a number in a [Uint8Array]: NaN becomes 0, an integer is taken
    modulo 256. *)
Definition ToUint8 (v : option Z) : ascii :=
  match v with
  | None => zero
  | Some z => ascii_of_N (Z.to_N (z mod 256))
  end.

(** [hexToBuffer(hex)]: the array has [hex.length / 2] bytes (the length is
    truncated), byte [i / 2] is [parseInt(hex.substring(i, i + 2), 16)] for
    [i = 0, 2, 4, ...]; for an odd length the last write, of the single
    remaining code unit, is past the end of the array and has no effect. *)
Fixpoint hexToBuffer (hex : string) : string :=
  match hex with
  | String a (String b rest) =>
      String (ToUint8 (parseInt16 (String a (String b EmptyString))))
             (hexToBuffer rest)
  | _ => EmptyString
  end.

(** [generateNonce()], on the 16 bytes [crypto.getRandomValues] fills in. *)
Definition generateNonce (random : string) : string :=
  Hashing.bufferToHex random.

(** A lower-case hex digit. *)
Definition is_hex (c : ascii) : bool :=
  let n := N_of_ascii c in
  ((48 <=? n) && (n <=? 57) || (97 <=? n) && (n <=? 102))%N.

Fixpoint all_chars (P : ascii -> bool) (s : string) : bool :=
  match s with
  | EmptyString => true
  | String c r => P c && all_chars P r
  end.

Definition all_hex (s : string) : bool := all_chars is_hex s.

End HexBuffer.

(** ** Digest signatures ([client/src/crypto/signing.ts]) *)

Module DigestSigning.

Record SignatureBundle : Type := {
  signature : string;
  publicKey : string;
  timestamp : JS.number;
  nonce : string
}.

(** [signDigest(digest, privateKey)]; [draw] is the draw of the signature's
    nonce. *)
Definition signDigest `{WebCrypto} (digest : string) (privateKey : PrivateKey)
    (draw : nat) : string :=
  let data := HexBuffer.hexToBuffer digest in
  let signature := subtle_sign privateKey data draw in
  btoa signature.

(** [verifySignature(digest, signature, publicKey)]; [None] when [atob]
    throws in [base64ToBuffer]. *)
Definition verifySignature `{WebCrypto} (digest signature : string)
    (publicKey : PublicKey) : option bool :=
  let data := HexBuffer.hexToBuffer digest in
  match atob signature with
  | Some sig => Some (subtle_verify publicKey sig data)
  | None => None
  end.

(** [createSignatureBundle(digest, privateKey, publicKey)], with the draw of
    the signature, the 16 random bytes of the nonce and the clock. *)
Definition createSignatureBundle `{WebCrypto} (digest : string)
    (privateKey : PrivateKey) (publicKey : PublicKey)
    (draw : nat) (random : string) (Date_now : JS.number) : SignatureBundle :=
  let signature := signDigest digest privateKey draw in
  let publicKeyExport := exportKey_spki publicKey in
  let nonce := Hashing.bufferToHex random in
  {| signature := signature;
     publicKey := btoa publicKeyExport;
     timestamp := Date_now;
     nonce := nonce |}.

(** [getPublicKeyForBackend()]: the exported public key, the storage
    afterwards and the next draw. *)
Definition getPublicKeyForBackend `{WebCrypto} (draw : nat)
    (stored : option Signing.KeyPairExport)
  : option string * option Signing.KeyPairExport * nat :=
  match Signing.getOrCreateKeyPair draw stored with
  | (Some keyPair, stored', draw') =>
      (Some (btoa (exportKey_spki (Signing.publicKey keyPair))), stored', draw')
  | (None, stored', draw') => (None, stored', draw')
  end.

End DigestSigning.

Module HexBufferFacts.

Import HexBuffer.

Local Open Scope string_scope.

Lemma byte_round_trip (c : ascii) :
  ToUint8
    (parseInt16
       (String (Json.hex_digit (N_of_ascii c / 16))
          (String (Json.hex_digit (N_of_ascii c mod 16)) EmptyString)))
  = c.
Proof.
  destruct c as [b0 b1 b2 b3 b4 b5 b6 b7].
  destruct b0, b1, b2, b3, b4, b5, b6, b7; vm_compute; reflexivity.
Qed.

Lemma hexToBuffer_pair (a b : ascii) (rest : string) :
  hexToBuffer (String a (String b rest))
  = String (ToUint8 (parseInt16 (String a (String b EmptyString))))
           (hexToBuffer rest).
Proof. reflexivity. Qed.

(** The array [hexToBuffer] returns has [hex.length / 2] bytes. *)
Lemma hexToBuffer_length (hex : string) :
  String.length (hexToBuffer hex) = (String.length hex / 2)%nat.
Proof.
  assert (H : forall n hex, (String.length hex <= n)%nat ->
            String.length (hexToBuffer hex) = (String.length hex / 2)%nat).
  { intros n. induction n as [|n IH]; intros [|a [|b rest]] Hn;
      try reflexivity; cbn [String.length] in Hn; try lia.
    rewrite hexToBuffer_pair. cbn [String.length].
    rewrite IH by lia.
    change (S (S (String.length rest))) with (1 * 2 + String.length rest)%nat.
    rewrite Nat.add_comm, Nat.div_add by lia. lia. }
  apply (H (String.length hex)). lia.
Qed.

Lemma hexToBuffer_bufferToHex (bytes : string) :
  hexToBuffer (Hashing.bufferToHex bytes) = bytes.
Proof.
  induction bytes as [|c rest IH]; [reflexivity |].
  cbn [Hashing.bufferToHex]. cbv zeta.
  rewrite hexToBuffer_pair, byte_round_trip, IH. reflexivity.
Qed.

Lemma pair_round_trip (a b : ascii) :
  is_hex a = true -> is_hex b = true ->
  Hashing.bufferToHex
    (String (ToUint8 (parseInt16 (String a (String b EmptyString)))) EmptyString)
  = String a (String b EmptyString).
Proof.
  destruct a as [a0 a1 a2 a3 a4 a5 a6 a7].
  destruct a0, a1, a2, a3, a4, a5, a6, a7; intros Ha; try discriminate Ha;
    clear Ha;
    destruct b as [b0 b1 b2 b3 b4 b5 b6 b7];
    destruct b0, b1, b2, b3, b4, b5, b6, b7; intros Hb; try discriminate Hb;
    vm_compute; reflexivity.
Qed.

Lemma bufferToHex_hexToBuffer (hex : string) :
  all_hex hex = true -> Nat.even (String.length hex) = true ->
  Hashing.bufferToHex (hexToBuffer hex) = hex.
Proof.
  assert (H : forall n hex, (String.length hex <= n)%nat ->
            all_hex hex = true -> Nat.even (String.length hex) = true ->
            Hashing.bufferToHex (hexToBuffer hex) = hex).
  { intros n. induction n as [|n IH]; intros [|a [|b rest]] Hn Hhex Heven;
      try reflexivity; cbn [String.length] in Hn; try lia;
      try discriminate Heven.
    unfold all_hex in Hhex. cbn [all_chars] in Hhex.
    apply andb_true_iff in Hhex. destruct Hhex as [Ha Hhex].
    apply andb_true_iff in Hhex. destruct Hhex as [Hb Hhex].
    rewrite hexToBuffer_pair.
    pose proof (pair_round_trip a b Ha Hb) as Hpair.
    cbn [Hashing.bufferToHex] in Hpair |- *. cbv zeta in Hpair |- *.
    injection Hpair as -> ->.
    rewrite IH; [reflexivity | lia | exact Hhex | exact Heven]. }
  apply (H (String.length hex)). lia.
Qed.

(** [hexToBuffer] and [bufferToHex] are inverse to each other: decoding the
    hex text of a byte buffer gives the buffer back, and a string of an even
    number of lower-case hex digits is the hex text of the bytes it decodes
    to. *)
Theorem hex_round_trip :
  (forall bytes : string, hexToBuffer (Hashing.bufferToHex bytes) = bytes)
  /\ (forall hex : string,
        all_hex hex = true -> Nat.even (String.length hex) = true ->
        Hashing.bufferToHex (hexToBuffer hex) = hex).
Proof.
  split; [exact hexToBuffer_bufferToHex | exact bufferToHex_hexToBuffer].
Qed.

Lemma bufferToHex_injective (b1 b2 : string) :
  Hashing.bufferToHex b1 = Hashing.bufferToHex b2 -> b1 = b2.
Proof.
  intros H. apply (f_equal hexToBuffer) in H.
  rewrite !hexToBuffer_bufferToHex in H. exact H.
Qed.

Lemma hex_digit_is_hex (c : ascii) :
  is_hex (Json.hex_digit (N_of_ascii c / 16)) = true
  /\ is_hex (Json.hex_digit (N_of_ascii c mod 16)) = true.
Proof.
  destruct c as [b0 b1 b2 b3 b4 b5 b6 b7].
  destruct b0, b1, b2, b3, b4, b5, b6, b7; vm_compute; split; reflexivity.
Qed.

Lemma bufferToHex_length (bytes : string) :
  String.length (Hashing.bufferToHex bytes) = (2 * String.length bytes)%nat.
Proof.
  induction bytes as [|c rest IH]; [reflexivity |].
  cbn [Hashing.bufferToHex String.length]. cbv zeta. cbn [String.length].
  rewrite IH. lia.
Qed.

Lemma bufferToHex_all_hex (bytes : string) :
  all_hex (Hashing.bufferToHex bytes) = true.
Proof.
  induction bytes as [|c rest IH]; [reflexivity |].
  cbn [Hashing.bufferToHex]. cbv zeta. unfold all_hex in *. cbn [all_chars].
  destruct (hex_digit_is_hex c) as [-> ->]. exact IH.
Qed.

(** A nonce is 32 lower-case hex digits, and two draws of 16 random bytes
    give the same nonce only when they are the same bytes. *)
Theorem generateNonce_shape (random : string) :
  String.length random = 16%nat ->
  String.length (generateNonce random) = 32%nat
  /\ all_hex (generateNonce random) = true
  /\ hexToBuffer (generateNonce random) = random
  /\ forall random' : string,
       generateNonce random' = generateNonce random -> random' = random.
Proof.
  intros Hlen. unfold generateNonce.
  rewrite bufferToHex_length, Hlen, bufferToHex_all_hex, hexToBuffer_bufferToHex.
  repeat split. intros random'. apply bufferToHex_injective.
Qed.

Lemma generateNonce_shape_witness :
  String.length (generateNonce "0123456789abcdef") = 32%nat.
Proof.
  exact (proj1 (generateNonce_shape "0123456789abcdef" eq_refl)).
Defined.

End HexBufferFacts.

Module DigestSigningFacts.

Import DigestSigning.

(** The key pair of the [n]-th draw on the symbolic platform. *)
Definition symbolic_pair (n : nat) : Signing.CryptoKeyPair (H := Symbolic.platform) :=
  @Signing.Build_CryptoKeyPair Symbolic.platform n n.

(** A signature made by [signDigest] over the hex text of a digest is
    accepted by [verifySignature], under the public key of the same pair,
    for that digest and for no other digest. *)
Theorem signDigest_verifySignature `{WebCrypto} `{!WebCryptoLaws}
    (n : nat) (keyPair : Signing.CryptoKeyPair) (digest1 digest2 : string)
    (draw : nat) :
  Signing.generateKeyPair n = Some keyPair ->
  verifySignature (Hashing.bufferToHex digest1)
    (signDigest (Hashing.bufferToHex digest1) (Signing.privateKey keyPair) draw)
    (Signing.publicKey keyPair) = Some true
  /\ (digest2 <> digest1 ->
      verifySignature (Hashing.bufferToHex digest2)
        (signDigest (Hashing.bufferToHex digest1) (Signing.privateKey keyPair) draw)
        (Signing.publicKey keyPair) = Some false).
Proof.
  intros Hg. unfold Signing.generateKeyPair in Hg.
  destruct (generateKey n) as [[pk sk]|] eqn:Hk; [| discriminate Hg].
  injection Hg as <-. cbn [Signing.privateKey Signing.publicKey].
  unfold verifySignature, signDigest. cbv zeta.
  rewrite atob_btoa, !HexBufferFacts.hexToBuffer_bufferToHex. split.
  - f_equal. apply (verify_sign _ pk sk Hk). reflexivity.
  - intros Hne. f_equal.
    destruct (subtle_verify pk (subtle_sign sk digest1 draw) digest2) eqn:Hv;
      [| reflexivity].
    apply (verify_sign _ pk sk Hk) in Hv. contradiction.
Qed.

Lemma signDigest_verifySignature_witness :
  verifySignature (H := Symbolic.platform) (Hashing.bufferToHex "digest")
    (signDigest (H := Symbolic.platform) (Hashing.bufferToHex "digest") 3%nat 0%nat)
    3%nat = Some true.
Proof.
  pose proof (@signDigest_verifySignature Symbolic.platform
                SymbolicFacts.platform_laws 3%nat
                (symbolic_pair 3)
                "digest"%string "other"%string 0%nat eq_refl) as Hround.
  destruct Hround as [Hsame _]. exact Hsame.
Defined.

(** A signature bundle is self-contained: the public key it carries imports
    to the signer's public key, and under that key the bundle's signature
    verifies for the signed digest; its nonce has two hex digits for each
    random byte. *)
Theorem createSignatureBundle_verifies `{WebCrypto} `{!WebCryptoLaws}
    (n : nat) (keyPair : Signing.CryptoKeyPair) (digest : string)
    (draw : nat) (random : string) (Date_now : JS.number) :
  Signing.generateKeyPair n = Some keyPair ->
  let bundle :=
    createSignatureBundle (Hashing.bufferToHex digest)
      (Signing.privateKey keyPair) (Signing.publicKey keyPair)
      draw random Date_now in
  (exists spki, atob (publicKey bundle) = Some spki
                /\ importKey_spki spki = Some (Signing.publicKey keyPair))
  /\ verifySignature (Hashing.bufferToHex digest) (signature bundle)
       (Signing.publicKey keyPair) = Some true
  /\ String.length (nonce bundle) = (2 * String.length random)%nat
  /\ HexBuffer.hexToBuffer (nonce bundle) = random.
Proof.
  intros Hg bundle. split; [| split; [| split]].
  - exists (exportKey_spki (Signing.publicKey keyPair)). split.
    + apply atob_btoa.
    + apply import_export_spki.
  - unfold Signing.generateKeyPair in Hg.
    destruct (generateKey n) as [[pk sk]|] eqn:Hk; [| discriminate Hg].
    injection Hg as <-.
    unfold bundle, createSignatureBundle, verifySignature, signDigest.
    cbn [signature Signing.privateKey Signing.publicKey].
    rewrite atob_btoa, !HexBufferFacts.hexToBuffer_bufferToHex.
    f_equal. apply (verify_sign _ pk sk Hk). reflexivity.
  - apply HexBufferFacts.bufferToHex_length.
  - apply HexBufferFacts.hexToBuffer_bufferToHex.
Qed.

Lemma createSignatureBundle_verifies_witness :
  verifySignature (H := Symbolic.platform) (Hashing.bufferToHex "digest")
    (signature
       (createSignatureBundle (H := Symbolic.platform)
          (Hashing.bufferToHex "digest") 3%nat 3%nat 0%nat "0123456789abcdef"
          1000))
    3%nat = Some true.
Proof.
  pose proof (@createSignatureBundle_verifies Symbolic.platform
                SymbolicFacts.platform_laws 3%nat
                (symbolic_pair 3)
                "digest"%string 0%nat "0123456789abcdef"%string 1000 eq_refl)
    as Hbundle.
  cbv zeta in Hbundle. destruct Hbundle as (_ & Hverifies & _).
  exact Hverifies.
Defined.

(** The key registered with the backend is stable: once
    [getPublicKeyForBackend] has generated and stored a pair, every later
    call returns the same public key, draws nothing and leaves the storage
    as it is; a stored pair that does not import is replaced by a freshly
    generated one. *)
Theorem getPublicKeyForBackend_stable `{WebCrypto} `{!WebCryptoLaws}
    (draw : nat) (keyPair : Signing.CryptoKeyPair) :
  Signing.generateKeyPair draw = Some keyPair ->
  let key := btoa (exportKey_spki (Signing.publicKey keyPair)) in
  let stored := Some (Signing.exportKeyPair keyPair) in
  getPublicKeyForBackend draw None = (Some key, stored, S draw)
  /\ (forall later : nat,
        getPublicKeyForBackend later stored = (Some key, stored, later))
  /\ (forall corrupted : Signing.KeyPairExport,
        Signing.importKeyPair corrupted = None ->
        getPublicKeyForBackend draw (Some corrupted) = (Some key, stored, S draw)).
Proof.
  intros Hg key stored.
  destruct (SigningFacts.getOrCreateKeyPair_reuses draw keyPair Hg)
    as [Hfirst Hlater].
  split; [| split].
  - unfold getPublicKeyForBackend. rewrite Hfirst. reflexivity.
  - intros later. unfold getPublicKeyForBackend. unfold stored.
    rewrite Hlater. reflexivity.
  - intros corrupted Hbad. unfold getPublicKeyForBackend.
    unfold Signing.getOrCreateKeyPair. rewrite Hbad, Hg. reflexivity.
Qed.

Lemma getPublicKeyForBackend_stable_witness :
  getPublicKeyForBackend (H := Symbolic.platform) 5%nat
    (Some (Signing.exportKeyPair (H := Symbolic.platform)
             (symbolic_pair 2)))
  = (Some (Symbolic.export_tagged "P" 2),
     Some (Signing.exportKeyPair (H := Symbolic.platform)
             (symbolic_pair 2)),
     5%nat).
Proof.
  pose proof (@getPublicKeyForBackend_stable Symbolic.platform
                SymbolicFacts.platform_laws 2%nat
                (symbolic_pair 2)
                eq_refl) as Hstable.
  cbv zeta in Hstable. destruct Hstable as (_ & Hlater & _).
  exact (Hlater 5%nat).
Defined.

End DigestSigningFacts.

(** ** The verdict of the exported report and of the local fallback *)

Module VerdictFacts.

Import JS JSFacts Types Background.

Lemma ratio_le_tenth (part total : Z) :
  (0 < total)%Z -> ratio part total <= 1 # 10 -> (10 * part <= total)%Z.
Proof.
  intros Ht H. unfold ratio in H.
  apply (Qmult_le_compat_r _ _ (inject_Z total)) in H;
    [| unfold Qle; simpl; lia].
  assert (E : inject_Z part / inject_Z total * inject_Z total == inject_Z part).
  { field. intros E0. unfold Qeq in E0. simpl in E0. lia. }
  rewrite E in H. unfold Qle in H. simpl in H. lia.
Qed.

Lemma ratio_unit (part total : Z) :
  (0 <= part <= total)%Z -> (0 < total)%Z ->
  0 <= ratio part total /\ ratio part total <= 1.
Proof.
  intros Hp Ht. unfold ratio.
  assert (Hpos : 0 < inject_Z total) by (unfold Qlt; simpl; lia).
  split.
  - apply Qle_shift_div_l; [exact Hpos |].
    rewrite Qmult_0_l. unfold Qle; simpl; lia.
  - apply Qle_shift_div_r; [exact Hpos |].
    rewrite Qmult_1_l. unfold Qle; simpl; lia.
Qed.

(** Above the report's gate of 20 characters the exported report carries
    the verdict and the confidence the popup shows for the same state. *)
Theorem report_agrees_with_popup (now : number) (s : SessionState) :
  (20 < ClassificationFacts.total_chars s)%Z ->
  Classification.verdict (classificationData s)
  = Stats.currentVerdict (calculateStats now s)
  /\ Classification.confidence (classificationData s)
     = Stats.currentConfidence (calculateStats now s)
  /\ Classification.class_label (classificationData s)
     = Classification.verdict (classificationData s).
Proof.
  intros Hgate.
  destruct (ClassificationFacts.calculateStats_verdict now s)
    as (-> & -> & _).
  unfold classificationData, currentVerdict_of.
  fold (ClassificationFacts.total_chars s).
  assert (H0 : (ClassificationFacts.total_chars s =? 0)%Z = false)
    by (apply Z.eqb_neq; lia).
  assert (H20 : (ClassificationFacts.total_chars s <? 20)%Z = false)
    by (apply Z.ltb_ge; lia).
  apply Z.ltb_lt in Hgate. rewrite Hgate, H0, H20. cbn [andb].
  destruct (gt (ratio (totalPastedChars s) _) (1 # 10));
    [repeat split; reflexivity |].
  destruct (gt (ratio (totalAiChars s) _) (1 # 10));
    [repeat split; reflexivity |].
  destruct (ge (ratio (totalTypedChars s) _) (9 # 10));
    repeat split; reflexivity.
Qed.

(** The worker after thirty typed characters, all flushed, in a session
    started at clock reading 100. *)
Definition started_at_100 : Pipeline.System :=
  (fst Pipeline.recording,
   handle_START_SESSION
     {| api_startSession := Some "session-1"%string;
        randomUUID := "uuid-1"%string; Date_now := 100 |}
     "example.com" state).

Definition thirty_typed : SessionState :=
  snd (Pipeline.run started_at_100
         (Pipeline.type_keys 30 1000 ++ [Pipeline.BeforeUnload 9000 true])).

Lemma report_agrees_with_popup_witness :
  Classification.verdict (classificationData thirty_typed)
  = Stats.currentVerdict (calculateStats 9000 thirty_typed).
Proof.
  refine (proj1 (report_agrees_with_popup 9000 thirty_typed _)).
  vm_compute. reflexivity.
Defined.

(** A report says [is_human] only for a session of more than 20 characters
    of which at most a tenth was pasted and at most a tenth was inserted by
    an assistant. *)
Theorem report_human_bounds (s : SessionState) :
  Classification.is_human (classificationData s) = true ->
  (20 < ClassificationFacts.total_chars s)%Z
  /\ (10 * totalPastedChars s <= ClassificationFacts.total_chars s)%Z
  /\ (10 * totalAiChars s <= ClassificationFacts.total_chars s)%Z
  /\ (Classification.verdict (classificationData s) = "human_organic"%string
      \/ or_is_human (lastVerification s) = true).
Proof.
  unfold classificationData. fold (ClassificationFacts.total_chars s).
  destruct (20 <? ClassificationFacts.total_chars s)%Z eqn:Hgate;
    [| discriminate].
  apply Z.ltb_lt in Hgate.
  destruct (gt (ratio (totalPastedChars s) _) (1 # 10)) eqn:Hp; [discriminate |].
  destruct (gt (ratio (totalAiChars s) _) (1 # 10)) eqn:Ha; [discriminate |].
  apply gt_false in Hp, Ha.
  apply ratio_le_tenth in Hp, Ha; try lia.
  destruct (ge (ratio (totalTypedChars s) _) (9 # 10)); cbn; intros H;
    (split; [exact Hgate | split; [exact Hp | split; [exact Ha |]]]).
  - left. reflexivity.
  - right. exact H.
Qed.

Lemma report_human_bounds_witness :
  (20 < ClassificationFacts.total_chars thirty_typed)%Z.
Proof.
  refine (proj1 (report_human_bounds thirty_typed _)).
  vm_compute. reflexivity.
Defined.

(** The three ratios of a report are shares of the same total: while no
    counter of the worker is negative, each of [paste_ratio], [ai_ratio] and
    [human_ratio] lies between 0 and 1, and at or below the gate of 20
    characters the report carries the constants 0, 0 and 1.  (The bounds are
    those a quotient [part / total] with [0 <= part <= total] keeps under
    rounding; nothing is said of the sum of the three quotients.) *)
Theorem report_ratios_within_unit (s : SessionState) :
  (0 <= totalTypedChars s)%Z -> (0 <= totalPastedChars s)%Z ->
  (0 <= totalAiChars s)%Z ->
  let report := classificationData s in
  (0 <= Classification.paste_ratio report
   /\ Classification.paste_ratio report <= 1)
  /\ (0 <= Classification.ai_ratio report
      /\ Classification.ai_ratio report <= 1)
  /\ (0 <= Classification.human_ratio report
      /\ Classification.human_ratio report <= 1)
  /\ ((ClassificationFacts.total_chars s <= 20)%Z ->
      Classification.paste_ratio report = 0
      /\ Classification.ai_ratio report = 0
      /\ Classification.human_ratio report = 1).
Proof.
  intros Ht Hp Ha. cbv zeta.
  unfold classificationData. fold (ClassificationFacts.total_chars s).
  destruct (20 <? ClassificationFacts.total_chars s)%Z eqn:Hgate.
  - apply Z.ltb_lt in Hgate.
    assert (Htotal : ClassificationFacts.total_chars s
                     = (totalTypedChars s
                        + (totalPastedChars s + totalAiChars s))%Z)
      by reflexivity.
    assert (Hpaste := ratio_unit (totalPastedChars s)
                        (ClassificationFacts.total_chars s)
                        ltac:(lia) ltac:(lia)).
    assert (Hai := ratio_unit (totalAiChars s)
                     (ClassificationFacts.total_chars s)
                     ltac:(lia) ltac:(lia)).
    assert (Hhuman := ratio_unit (totalTypedChars s)
                        (ClassificationFacts.total_chars s)
                        ltac:(lia) ltac:(lia)).
    destruct (gt (ratio (totalPastedChars s) _) (1 # 10));
      [| destruct (gt (ratio (totalAiChars s) _) (1 # 10));
         [| destruct (ge (ratio (totalTypedChars s) _) (9 # 10))]];
      cbn [Classification.paste_ratio Classification.ai_ratio
           Classification.human_ratio];
      (split; [exact Hpaste |]); (split; [exact Hai |]);
      (split; [exact Hhuman |]); intros Hle; lia.
  - cbn [Classification.paste_ratio Classification.ai_ratio
         Classification.human_ratio].
    repeat split; discriminate.
Qed.

Lemma report_ratios_within_unit_witness :
  Classification.human_ratio (classificationData thirty_typed) <= 1.
Proof.
  refine (proj2 (proj1 (proj2 (proj2
            (report_ratios_within_unit thirty_typed _ _ _)))));
    vm_compute; discriminate.
Defined.

(** The local fallback of VERIFY_SESSION says [is_human] only with the label
    [human_organic], for more than 20 keystrokes with no paste or assistant
    content detected and with dwell, flight and typing speed in the normal
    ranges; its confidence is then above 0.8 and at most 1. *)
Theorem local_verification_human (stats : Stats.t) :
  LocalResult.is_human (local_verification stats) = true ->
  LocalResult.class_label (local_verification stats) = "human_organic"%string
  /\ LocalResult.paste_detected (local_verification stats) = false
  /\ (20 < Stats.keystrokeCount stats)%Z
  /\ Stats.pasteRatio stats <= 1 # 10 /\ (Stats.totalPastedChars stats <= 50)%Z
  /\ Stats.aiRatio stats <= 1 # 10 /\ (Stats.totalAiChars stats <= 50)%Z
  /\ 30 < Stats.avgDwell stats < 500
  /\ 50 < Stats.avgFlight stats < 1000
  /\ 5 < Stats.wpm stats < 150
  /\ 8 # 10 < LocalResult.confidence_score (local_verification stats) <= 1.
Proof.
  unfold local_verification.
  destruct (gt (Stats.pasteRatio stats) (1 # 10)) eqn:Hp;
    [destruct (gt (Stats.pasteRatio stats) (5 # 10)); discriminate |].
  destruct (50 <? Stats.totalPastedChars stats)%Z eqn:Hp50;
    [destruct (gt (Stats.pasteRatio stats) (5 # 10)); discriminate |].
  destruct (gt (Stats.aiRatio stats) (1 # 10)) eqn:Ha; [discriminate |].
  destruct (50 <? Stats.totalAiChars stats)%Z eqn:Ha50; [discriminate |].
  destruct (20 <? Stats.keystrokeCount stats)%Z eqn:Hk; [| discriminate].
  destruct (gt (Stats.avgDwell stats) 30) eqn:Hd1; [| discriminate].
  destruct (lt (Stats.avgDwell stats) 500) eqn:Hd2; [| discriminate].
  destruct (gt (Stats.avgFlight stats) 50) eqn:Hf1; [| discriminate].
  destruct (lt (Stats.avgFlight stats) 1000) eqn:Hf2; [| discriminate].
  destruct (gt (Stats.wpm stats) 5) eqn:Hw1; [| discriminate].
  destruct (lt (Stats.wpm stats) 150) eqn:Hw2; [| discriminate].
  cbn. intros _.
  apply gt_false in Hp, Ha. apply Z.ltb_ge in Hp50, Ha50. apply Z.ltb_lt in Hk.
  apply gt_spec in Hd1, Hf1, Hw1. apply lt_spec in Hd2, Hf2, Hw2.
  assert (Hv : 0 < inject_Z (Stats.keystrokeCount stats) / 500).
  { apply Qlt_shift_div_l; [reflexivity |].
    unfold Qlt. simpl. lia. }
  repeat match goal with |- _ /\ _ => split end;
    try assumption; try reflexivity; unfold Math_min.
  - apply Q.min_case_strong.
    + intros x y E. rewrite E. tauto.
    + intros _. reflexivity.
    + intros _.
      apply (Qplus_lt_r _ _ ((3 # 10) + (3 # 10) + (2 # 10))) in Hv.
      eapply Qle_lt_trans; [| exact Hv]. unfold Qle; simpl; lia.
  - pose proof (Q.le_min_l (2 # 10) (inject_Z (Stats.keystrokeCount stats) / 500))
      as Hmin.
    apply (Qplus_le_r _ _ ((3 # 10) + (3 # 10) + (2 # 10))) in Hmin.
    eapply Qle_trans; [exact Hmin |]. unfold Qle; simpl; lia.
Qed.

Lemma local_verification_human_witness :
  LocalResult.class_label (local_verification (calculateStats 9000 thirty_typed))
  = "human_organic"%string.
Proof.
  refine (proj1 (local_verification_human (calculateStats 9000 thirty_typed) _)).
  vm_compute. reflexivity.
Defined.

End VerdictFacts.

(** ** Framing of the serialised texts: where a string or a number ends *)

Module FramingFacts.

Import Json JsonFacts.

Local Open Scope string_scope.

(** A string that is empty or starts with a code unit outside [P]. *)
Definition delimited (P : ascii -> bool) (s : string) : bool :=
  match s with
  | EmptyString => true
  | String c _ => negb (P c)
  end.

(** A run of code units of [P], followed by a code unit outside [P], ends
    where that code unit is. *)
Lemma span_framing (P : ascii -> bool) (n1 n2 r1 r2 : string) :
  HexBuffer.all_chars P n1 = true -> HexBuffer.all_chars P n2 = true ->
  delimited P r1 = true -> delimited P r2 = true ->
  n1 ++ r1 = n2 ++ r2 -> n1 = n2 /\ r1 = r2.
Proof.
  revert n2. induction n1 as [|c1 n1 IH]; intros [|c2 n2] H1 H2 D1 D2 E;
    cbn [append HexBuffer.all_chars] in *.
  - split; [reflexivity | exact E].
  - subst r1. cbn [delimited] in D1.
    apply andb_true_iff in H2. destruct H2 as [H2 _].
    rewrite H2 in D1. discriminate D1.
  - subst r2. cbn [delimited] in D2.
    apply andb_true_iff in H1. destruct H1 as [H1 _].
    rewrite H1 in D2. discriminate D2.
  - injection E as -> E.
    apply andb_true_iff in H1, H2. destruct H1 as [_ H1], H2 as [_ H2].
    destruct (IH n2 H1 H2 D1 D2 E) as [-> ->]. split; reflexivity.
Qed.

(** The code units of a printed integer. *)
Definition is_number_char (c : ascii) : bool :=
  let n := N_of_ascii c in
  ((48 <=? n) && (n <=? 57) || (n =? 45))%N.

Lemma string_of_uint_chars (d : Decimal.uint) :
  HexBuffer.all_chars is_number_char (NilEmpty.string_of_uint d) = true.
Proof. induction d; cbn; auto. Qed.

Lemma number_to_string_chars (z : Z) :
  HexBuffer.all_chars is_number_char (number_to_string z) = true.
Proof.
  unfold number_to_string, NilZero.string_of_int, NilZero.string_of_uint.
  destruct (Z.to_int z) as [d|d]; destruct d; cbn;
    try reflexivity; apply string_of_uint_chars.
Qed.

Lemma number_to_string_injective (z1 z2 : Z) :
  number_to_string z1 = number_to_string z2 -> z1 = z2.
Proof.
  unfold number_to_string. intros H.
  assert (Hn : forall z, Z.to_int z <> Decimal.Pos Decimal.Nil
                         /\ Z.to_int z <> Decimal.Neg Decimal.Nil).
  { intros [|p|p]; cbn; split; try discriminate;
      intros E; injection E as E; exact (DecimalPos.Unsigned.to_uint_nonnil p E). }
  apply (f_equal NilZero.int_of_string) in H.
  rewrite !NilZero.isi in H by apply Hn.
  injection H as H. apply (f_equal Z.of_int) in H.
  rewrite !DecimalZ.of_to in H. exact H.
Qed.

(** A printed integer followed by anything that is not a digit or a sign
    ends there. *)
Lemma number_framing (z1 z2 : Z) (r1 r2 : string) :
  delimited is_number_char r1 = true -> delimited is_number_char r2 = true ->
  number_to_string z1 ++ r1 = number_to_string z2 ++ r2 ->
  z1 = z2 /\ r1 = r2.
Proof.
  intros D1 D2 E.
  destruct (span_framing is_number_char _ _ _ _
              (number_to_string_chars z1) (number_to_string_chars z2) D1 D2 E)
    as [Hn Hr].
  split; [apply number_to_string_injective; exact Hn | exact Hr].
Qed.

Definition starts_with_dquote (s : string) : bool :=
  match s with
  | String c _ => Ascii.eqb c dquote
  | EmptyString => false
  end.

Lemma escape_char_head (c : ascii) (r : string) :
  starts_with_dquote (escape_char c ++ r) = false.
Proof.
  destruct c as [b0 b1 b2 b3 b4 b5 b6 b7].
  destruct b0, b1, b2, b3, b4, b5, b6, b7; reflexivity.
Qed.

(** An escaped string followed by the closing quote ends at that quote. *)
Lemma escape_framing (s1 s2 r1 r2 : string) :
  escape s1 ++ String dquote r1 = escape s2 ++ String dquote r2 ->
  s1 = s2 /\ r1 = r2.
Proof.
  revert s2. induction s1 as [|c1 s1 IH]; intros [|c2 s2] E;
    cbn [escape append] in E.
  - injection E as E. split; [reflexivity | exact E].
  - apply (f_equal starts_with_dquote) in E.
    rewrite append_assoc, escape_char_head in E. discriminate E.
  - apply (f_equal starts_with_dquote) in E.
    rewrite append_assoc, escape_char_head in E. discriminate E.
  - rewrite !append_assoc in E.
    apply (f_equal unescape_head) in E.
    rewrite !unescape_head_escape_char in E. injection E as -> E.
    destruct (IH s2 E) as [-> ->]. split; reflexivity.
Qed.

Lemma quote_framing (s1 s2 r1 r2 : string) :
  quote s1 ++ r1 = quote s2 ++ r2 -> s1 = s2 /\ r1 = r2.
Proof.
  unfold quote. cbn [append]. intros E. injection E as E.
  rewrite !append_assoc in E. cbn [append] in E.
  apply escape_framing. exact E.
Qed.

End FramingFacts.

(** ** What the report's signature covers *)

Module CoverageFacts.

Import Json JsonFacts FramingFacts.

Local Open Scope string_scope.

Ltac frame H :=
  repeat first
    [ apply append_inv_head in H
    | let E := fresh "E" in apply quote_framing in H; destruct H as [E H]
    | let E := fresh "E" in
      apply number_framing in H;
      [destruct H as [E H] | reflexivity | reflexivity] ].

(** The signed text determines the hash, every metric and the session id. *)
Lemma dataToSign_injective_all (h1 h2 : string) (m1 m2 : Report.Metrics)
    (sid1 sid2 : string) :
  Report.dataToSign h1 m1 sid1 = Report.dataToSign h2 m2 sid2 ->
  h1 = h2 /\ m1 = m2 /\ sid1 = sid2.
Proof.
  destruct m1, m2.
  unfold Report.dataToSign, Report.metrics_json. intros H.
  cbn [stringify List.map fst snd join_with_commas String.concat
       Report.total_keystrokes Report.avg_dwell_ms Report.avg_flight_ms
       Report.wpm Report.text_length Report.total_typed_chars
       Report.total_pasted_chars Report.total_ai_chars] in H.
  rewrite !append_assoc in H.
  frame H. subst. repeat split.
Qed.

(** A report with another classification. *)
Definition with_classification (c : Background.Classification.t)
    (r : Report.HumanSignData) : Report.HumanSignData :=
  {| Report.version := Report.version r;
     Report.generated_at := Report.generated_at r;
     Report.session := Report.session r;
     Report.metrics := Report.metrics r;
     Report.classification := c;
     Report.timing_data := Report.timing_data r;
     Report.content_hash := Report.content_hash r;
     Report.signature := Report.signature r |}.

(** A report that carries the signature block of a downloaded report is
    found valid by the decoder exactly when it has the same [content_hash],
    the same [metrics] and the same session id as the downloaded one, and
    invalid otherwise.  The signature covers nothing else: whatever the
    classification (verdict, confidence, [is_human]) is replaced with, the
    report stays valid. *)
Theorem signature_covers_hash_metrics_session `{WebCrypto} `{!WebCryptoLaws}
    (env : Report.Env) (payload_textContent : option string)
    (s : Background.SessionState) (pk : PublicKey) (sk : PrivateKey)
    (tampered : Report.HumanSignData) :
  generateKey (Report.draw env) = Some (pk, sk) ->
  let r := snd (Report.handle_DOWNLOAD_COMBINED env payload_textContent s) in
  Report.signature tampered = Report.signature r ->
  (Decoder.verifySignature (Decoder.parse_written tampered)
   = Decoder.Ok Decoder.valid
   \/ Decoder.verifySignature (Decoder.parse_written tampered)
      = Decoder.Ok Decoder.invalid)
  /\ (Decoder.verifySignature (Decoder.parse_written tampered)
      = Decoder.Ok Decoder.valid
      <-> Report.content_hash tampered = Report.content_hash r
          /\ Report.metrics tampered = Report.metrics r
          /\ Report.id (Report.session tampered) = Report.id (Report.session r))
  /\ (forall c : Background.Classification.t,
        Decoder.verifySignature (Decoder.parse_written (with_classification c r))
        = Decoder.Ok Decoder.valid).
Proof.
  intros Hk r Hsame.
  destruct (SigningFacts.report_fields env payload_textContent s pk sk Hk)
    as (_ & _ & Hpub & Hsig).
  fold r in Hpub, Hsig.
  set (signed := TextEncoder_encode
                   (Report.dataToSign (Report.content_hash r) (Report.metrics r)
                      (Report.id (Report.session r)))) in *.
  assert (Hcore : forall t : Report.HumanSignData,
            Report.signature t = Report.signature r ->
            Decoder.verifySignature (Decoder.parse_written t)
            = Decoder.Ok
                (if subtle_verify pk (subtle_sign sk signed (S (Report.draw env)))
                      (TextEncoder_encode
                         (Report.dataToSign (Report.content_hash t)
                            (Report.metrics t) (Report.id (Report.session t))))
                 then Decoder.valid else Decoder.invalid)).
  { intros t Ht. unfold Decoder.verifySignature.
    cbn [Decoder.signature_public_key Decoder.signature_signature_value
         Decoder.signature Decoder.parse_written
         Decoder.public_key Decoder.signature_value].
    rewrite Ht, Hpub, Hsig.
    destruct (SigningFacts.btoa_truthy (exportKey_spki pk)
                (exported_key_nonempty pk)) as (c1 & r1 & E1).
    destruct (SigningFacts.btoa_truthy (subtle_sign sk signed (S (Report.draw env)))
                (signature_nonempty sk signed (S (Report.draw env))))
      as (c2 & r2 & E2).
    rewrite E1, E2, <- E1, <- E2, !atob_btoa.
    cbn [Decoder.or_throw Decoder.bind].
    rewrite import_export_spki.
    cbn [Decoder.or_throw Decoder.bind Decoder.session Decoder.parse_written
         Decoder.try_catch].
    reflexivity. }
  assert (Hiff : forall t : Report.HumanSignData,
            subtle_verify pk (subtle_sign sk signed (S (Report.draw env)))
              (TextEncoder_encode
                 (Report.dataToSign (Report.content_hash t)
                    (Report.metrics t) (Report.id (Report.session t)))) = true
            <-> Report.content_hash t = Report.content_hash r
                /\ Report.metrics t = Report.metrics r
                /\ Report.id (Report.session t) = Report.id (Report.session r)).
  { intros t. rewrite (verify_sign _ pk sk Hk). unfold signed. split.
    - intros E. apply encode_injective, dataToSign_injective_all in E. exact E.
    - intros (-> & -> & ->). reflexivity. }
  split; [| split].
  - rewrite (Hcore tampered Hsame).
    destruct (subtle_verify _ _ _); [left | right]; reflexivity.
  - rewrite (Hcore tampered Hsame), <- Hiff.
    destruct (subtle_verify _ _ _); split; intros E;
      try reflexivity; discriminate E.
  - intros c. rewrite (Hcore (with_classification c r) eq_refl).
    cbn [with_classification Report.content_hash Report.metrics Report.session].
    fold signed.
    assert (Hv : subtle_verify pk (subtle_sign sk signed (S (Report.draw env)))
                   signed = true)
      by (apply (verify_sign _ pk sk Hk); reflexivity).
    rewrite Hv. reflexivity.
Qed.

(** A downloaded report of fifteen typed characters, which says
    [unverified], edited to say [human_organic] with full confidence. *)
Definition edited_verdict : Report.HumanSignData :=
  with_classification
    {| Background.Classification.verdict := "human_organic";
       Background.Classification.class_label := "human_organic";
       Background.Classification.confidence := 1;
       Background.Classification.is_human := true;
       Background.Classification.paste_ratio := 0;
       Background.Classification.ai_ratio := 0;
       Background.Classification.human_ratio := 1 |}
    (snd SigningFacts.first_download).

Lemma signature_covers_hash_metrics_session_witness :
  Decoder.verifySignature (H := Symbolic.platform)
    (Decoder.parse_written edited_verdict)
  = Decoder.Ok Decoder.valid
  <-> Report.content_hash edited_verdict
      = Report.content_hash (snd SigningFacts.first_download)
      /\ Report.metrics edited_verdict
         = Report.metrics (snd SigningFacts.first_download)
      /\ Report.id (Report.session edited_verdict)
         = Report.id (Report.session (snd SigningFacts.first_download)).
Proof.
  pose proof (@signature_covers_hash_metrics_session Symbolic.platform
                SymbolicFacts.platform_laws SigningFacts.first_env
                (Some "some text"%string) Pipeline.fifteen_typed 0%nat 0%nat
                edited_verdict eq_refl eq_refl) as Hcovers.
  cbv zeta in Hcovers. destruct Hcovers as (_ & Hiff & _).
  exact Hiff.
Defined.

End CoverageFacts.

(** ** What the keystroke hashes cover *)

Module HashCoverageFacts.

Import Json JsonFacts FramingFacts JS Types Hashing.

Local Open Scope string_scope.

Lemma EventType_name_injective (t1 t2 : EventType) :
  EventType_name t1 = EventType_name t2 -> t1 = t2.
Proof. destruct t1, t2; cbn; intros E; try reflexivity; discriminate E. Qed.

(** The text of one event ends where its closing brace is, and determines
    the event's type, rounded timestamp and key code. *)
Lemma timingOnly_framing (e1 e2 : KeystrokeEvent) (r1 r2 : string) :
  stringify (timingOnly e1) ++ r1 = stringify (timingOnly e2) ++ r2 ->
  same_timing e1 e2 /\ r1 = r2.
Proof.
  unfold timingOnly. intros H.
  cbn [stringify List.map fst snd join_with_commas String.concat] in H.
  rewrite !append_assoc in H.
  CoverageFacts.frame H.
  split; [| exact H].
  repeat split; try assumption. apply EventType_name_injective. assumption.
Qed.

Lemma concat_cons (x : string) (xs : list string) (r : string) :
  String.concat "," (x :: xs) ++ r
  = x ++ match xs with
         | [] => r
         | _ => "," ++ String.concat "," xs ++ r
         end.
Proof.
  destruct xs as [|y ys]; cbn [String.concat]; [reflexivity |].
  rewrite !append_assoc. reflexivity.
Qed.

Lemma timingOnly_head (e : KeystrokeEvent) (r : string) :
  exists rest, stringify (timingOnly e) ++ r = String "{" rest.
Proof. eexists. reflexivity. Qed.

Lemma events_framing (l1 : list KeystrokeEvent) :
  forall l2 : list KeystrokeEvent,
    String.concat "," (List.map stringify (List.map timingOnly l1)) ++ "]"
    = String.concat "," (List.map stringify (List.map timingOnly l2)) ++ "]" ->
    Forall2 same_timing l1 l2.
Proof.
  induction l1 as [|e1 l1 IH]; intros [|e2 l2] H; cbn [List.map] in H.
  - constructor.
  - rewrite concat_cons in H.
    destruct (timingOnly_head e2
                match List.map stringify (List.map timingOnly l2) with
                | [] => "]"
                | _ :: _ =>
                    "," ++ String.concat ","
                             (List.map stringify (List.map timingOnly l2)) ++ "]"
                end) as [rest E].
    rewrite E in H. discriminate H.
  - rewrite concat_cons in H.
    destruct (timingOnly_head e1
                match List.map stringify (List.map timingOnly l1) with
                | [] => "]"
                | _ :: _ =>
                    "," ++ String.concat ","
                             (List.map stringify (List.map timingOnly l1)) ++ "]"
                end) as [rest E].
    rewrite E in H. discriminate H.
  - rewrite !concat_cons in H.
    apply timingOnly_framing in H. destruct H as [Hsame H].
    constructor; [exact Hsame |].
    destruct l1 as [|a1 l1], l2 as [|a2 l2]; cbn [List.map] in H.
    + constructor.
    + discriminate H.
    + discriminate H.
    + apply IH. cbn [List.map]. injection H as H. exact H.
Qed.

(** The serialised buffer determines, event by event, the type, the rounded
    timestamp and the key code. *)
Lemma serializeEvents_injective (events1 events2 : list KeystrokeEvent) :
  serializeEvents events1 = serializeEvents events2 ->
  Forall2 same_timing events1 events2.
Proof.
  unfold serializeEvents. cbn [stringify]. unfold join_with_commas.
  intros H. injection H as H. apply events_framing. exact H.
Qed.

(** Two different byte strings with the same SHA-256 digest. *)
Definition SHA256_collision `{WebCrypto} : Prop :=
  exists b1 b2 : string,
    b1 <> b2 /\ subtle_digest_SHA256 b1 = subtle_digest_SHA256 b2.

Lemma digest_text `{WebCrypto} `{!WebCryptoLaws} (x y : string) :
  bufferToHex (subtle_digest_SHA256 (TextEncoder_encode x))
  = bufferToHex (subtle_digest_SHA256 (TextEncoder_encode y)) ->
  x = y \/ SHA256_collision.
Proof.
  intros E. apply HexBufferFacts.bufferToHex_injective in E.
  destruct (string_dec x y) as [Hxy|Hxy]; [left; exact Hxy | right].
  exists (TextEncoder_encode x), (TextEncoder_encode y). split; [| exact E].
  intros Henc. apply encode_injective in Henc. contradiction.
Qed.

(** Two keystroke buffers have the same hash only if they agree, event by
    event, on the type, the rounded timestamp and the key code, unless
    SHA-256 itself collides. *)
Theorem hashKeystrokeBuffer_covers_timing `{WebCrypto} `{!WebCryptoLaws}
    (events1 events2 : list KeystrokeEvent) :
  hashKeystrokeBuffer events1 = hashKeystrokeBuffer events2 ->
  Forall2 same_timing events1 events2 \/ SHA256_collision.
Proof.
  unfold hashKeystrokeBuffer. cbv zeta. intros E.
  destruct (digest_text _ _ E) as [Hser|Hcol]; [left | right; exact Hcol].
  apply serializeEvents_injective. exact Hser.
Qed.

(** Two one-event buffers that differ only in the character typed. *)
Definition lower_a : list KeystrokeEvent :=
  [ {| event_type := keydown; key_code := 65; key_char := Some "a";
       client_timestamp := 1000 + (2 # 10); input_method := None |} ].

Definition upper_a : list KeystrokeEvent :=
  [ {| event_type := keydown; key_code := 65; key_char := Some "A";
       client_timestamp := 1000 + (4 # 10); input_method := None |} ].

Lemma hashKeystrokeBuffer_covers_timing_witness :
  Forall2 same_timing lower_a upper_a
  \/ SHA256_collision (H := Symbolic.platform).
Proof.
  exact (@hashKeystrokeBuffer_covers_timing Symbolic.platform
           SymbolicFacts.platform_laws lower_a upper_a eq_refl).
Defined.

(** A previous hash as the chain passes it on: none, or a non-empty string
    of hex digits. *)
Definition previous_digest (previousHash : option string) : bool :=
  match previousHash with
  | None => true
  | Some EmptyString => false
  | Some s => HexBuffer.all_hex s
  end.

(** The text [createChainedHash] hashes. *)
Definition toHash (events : list KeystrokeEvent) (previousHash : option string)
  : string :=
  match previousHash with
  | Some (String c p) => String c p ++ ":" ++ serializeEvents events
  | _ => serializeEvents events
  end.

Lemma toHash_injective (events1 events2 : list KeystrokeEvent)
    (p1 p2 : option string) :
  previous_digest p1 = true -> previous_digest p2 = true ->
  toHash events1 p1 = toHash events2 p2 ->
  p1 = p2 /\ Forall2 same_timing events1 events2.
Proof.
  intros H1 H2 E.
  destruct p1 as [[|c1 p1]|], p2 as [[|c2 p2]|];
    cbn [previous_digest] in H1, H2; try discriminate; cbn [toHash] in E.
  - apply (span_framing HexBuffer.is_hex) in E;
      [| exact H1 | exact H2 | reflexivity | reflexivity].
    destruct E as [-> E]. apply append_inv_head in E.
    split; [reflexivity | apply serializeEvents_injective; exact E].
  - unfold serializeEvents in E. cbn [stringify append] in E.
    injection E as Ec _. subst c1.
    unfold HexBuffer.all_hex in H1. cbn in H1. discriminate H1.
  - unfold serializeEvents in E. cbn [stringify append] in E.
    injection E as Ec _. subst c2.
    unfold HexBuffer.all_hex in H2. cbn in H2. discriminate H2.
  - split; [reflexivity | apply serializeEvents_injective; exact E].
Qed.

(** The chain starts as a plain buffer hash, and a link binds both the
    previous hash and the timing of its own events: two links are equal only
    if they continue the same previous hash with buffers that agree on type,
    rounded timestamp and key code, unless SHA-256 itself collides. *)
Theorem createChainedHash_binds_history `{WebCrypto} `{!WebCryptoLaws}
    (events1 events2 : list KeystrokeEvent) (previous1 previous2 : option string) :
  previous_digest previous1 = true -> previous_digest previous2 = true ->
  createChainedHash events1 None = hashKeystrokeBuffer events1
  /\ (createChainedHash events1 previous1 = createChainedHash events2 previous2 ->
      (previous1 = previous2 /\ Forall2 same_timing events1 events2)
      \/ SHA256_collision).
Proof.
  intros H1 H2. split; [reflexivity |].
  intros E.
  assert (Et : forall events previous,
            createChainedHash events previous
            = bufferToHex (subtle_digest_SHA256
                             (TextEncoder_encode (toHash events previous)))).
  { intros events [[|c p]|]; reflexivity. }
  rewrite !Et in E.
  destruct (digest_text _ _ E) as [Hser|Hcol]; [left | right; exact Hcol].
  apply toHash_injective; assumption.
Qed.

Lemma createChainedHash_binds_history_witness :
  createChainedHash (H := Symbolic.platform) lower_a None
  = hashKeystrokeBuffer (H := Symbolic.platform) lower_a
  /\ (createChainedHash (H := Symbolic.platform) lower_a (Some "ab12")
      = createChainedHash (H := Symbolic.platform) upper_a (Some "ab12") ->
      (Some "ab12" = Some "ab12" /\ Forall2 same_timing lower_a upper_a)
      \/ SHA256_collision (H := Symbolic.platform)).
Proof.
  exact (@createChainedHash_binds_history Symbolic.platform
           SymbolicFacts.platform_laws lower_a upper_a
           (Some "ab12") (Some "ab12") eq_refl eq_refl).
Defined.

End HashCoverageFacts.

(** ** The worker's state across suspensions ([restoreState], [saveState]
    and the message listener in [client/src/background/index.ts]) *)

Module Persistence.

Import Types Background.

(** The service worker: the [state] object in memory and the entry
    [sessionState] of [chrome.storage.session]. *)
Record Worker : Type := {
  memory : SessionState;
  storage : option SessionState
}.

(** A worker that has just been installed. *)
Definition fresh : Worker := {| memory := state; storage := None |}.

(** [restoreState()]: every field is copied from the stored object; the
    stored arrays and counters are those of a saved [state], on which the
    defaults [|| []] and [|| 0] change nothing. *)
Definition restoreState (w : Worker) : Worker :=
  match storage w with
  | Some s =>
      {| memory :=
           {| sessionId := sessionId s;
              domain := domain s;
              keystrokes := keystrokes s;
              pasteEvents := pasteEvents s;
              totalTypedChars := totalTypedChars s;
              totalPastedChars := totalPastedChars s;
              totalAiChars := totalAiChars s;
              startTime := startTime s;
              isRecording := isRecording s;
              signatureCount := signatureCount s;
              lastVerification := lastVerification s |};
         storage := storage w |}
  | None => w
  end.

(** [saveState()]; [set_ok] is false when [chrome.storage.session.set]
    rejects, which is caught and logged. *)
Definition saveState (set_ok : bool) (w : Worker) : Worker :=
  if set_ok then {| memory := memory w; storage := Some (memory w) |} else w.

(** The handlers that end with [await saveState()]: START_SESSION,
    END_SESSION, KEYSTROKE_BATCH and PASTE_EVENT; STOP_RECORDING returns
    without saving. *)
Definition saves (message : Message) : bool :=
  match message with
  | START_SESSION _ _ => true
  | END_SESSION _ => true
  | KEYSTROKE_BATCH _ _ _ => true
  | PASTE_EVENT _ _ => true
  | STOP_RECORDING => false
  end.

(** The message listener: [if (!state.sessionId) await restoreState();
    return handleMessage(message)]. *)
Definition process (set_ok : bool) (w : Worker) (message : Message) : Worker :=
  let w1 :=
    if negb (truthy_string (sessionId (memory w))) then restoreState w else w in
  let handled :=
    {| memory := handleMessage (memory w1) message; storage := storage w1 |} in
  if saves message then saveState set_ok handled else handled.

(** The worker is suspended and started again: the module is evaluated
    anew, [state] is the initial object, and [restoreState()] runs. *)
Definition wake (w : Worker) : Worker :=
  restoreState {| memory := state; storage := storage w |}.

(** A run in which the worker may be suspended before any message. *)
Definition step (w : Worker) (suspended_message : bool * Message) : Worker :=
  process true (if fst suspended_message then wake w else w)
          (snd suspended_message).

Definition run (w : Worker) (messages : list (bool * Message)) : Worker :=
  fold_left step messages w.

(** Nothing in memory that the storage does not have. *)
Definition consistent (w : Worker) : Prop :=
  storage w = Some (memory w) \/ w = fresh.

End Persistence.

Module PersistenceFacts.

Import Types Background Persistence.

Lemma restoreState_stored (s m : SessionState) :
  restoreState {| memory := m; storage := Some s |}
  = {| memory := s; storage := Some s |}.
Proof. destruct s. reflexivity. Qed.

Lemma wake_consistent (w : Worker) : consistent w -> wake w = w.
Proof.
  intros [H | ->]; [| reflexivity].
  destruct w as [m st]. cbn [storage memory] in H. subst st.
  unfold wake. cbn [storage]. apply restoreState_stored.
Qed.

Lemma restoreState_consistent (w : Worker) : consistent w -> restoreState w = w.
Proof.
  intros [H | ->]; [| reflexivity].
  destruct w as [m st]. cbn [storage memory] in H. subst st.
  apply restoreState_stored.
Qed.

Lemma process_consistent (w : Worker) (message : Message) :
  consistent w -> saves message = true ->
  process true w message
  = {| memory := handleMessage (memory w) message;
       storage := Some (handleMessage (memory w) message) |}.
Proof.
  intros Hc Hs. unfold process. rewrite Hs.
  destruct (negb (truthy_string (sessionId (memory w))));
    [rewrite (restoreState_consistent w Hc) |]; reflexivity.
Qed.


(** A batch and a paste, with the worker suspended before each. *)
Definition one_key : list KeystrokeEvent :=
  [ {| event_type := keydown; key_code := 65; key_char := Some "a"%string;
       client_timestamp := 1000; input_method := None |} ].

Definition suspended_twice : list (bool * Message) :=
  [ (false, START_SESSION Pipeline.example_env "example.com");
    (true, KEYSTROKE_BATCH "session-1" one_key 0);
    (true, PASTE_EVENT "session-1"
             {| pasted_length := 5; paste_timestamp := 2000 |}) ].


(** STOP_RECORDING is not saved: the worker stops recording in memory, and
    is recording again once it has been suspended and woken up. *)
Theorem STOP_RECORDING_is_forgotten (w : Worker) :
  storage w = Some (memory w) ->
  isRecording (memory w) = true ->
  isRecording (memory (process true w STOP_RECORDING)) = false
  /\ isRecording (memory (wake (process true w STOP_RECORDING))) = true
  /\ memory (wake (process true w STOP_RECORDING)) = memory w.
Proof.
  intros Hsync Hrec.
  assert (Hp : process true w STOP_RECORDING
               = {| memory := handle_STOP_RECORDING (memory w);
                    storage := Some (memory w) |}).
  { unfold process. cbn [saves].
    destruct (negb (truthy_string (sessionId (memory w))));
      [rewrite (restoreState_consistent w (or_introl Hsync)) |];
      cbn [handleMessage]; rewrite Hsync; reflexivity. }
  rewrite Hp. unfold wake. cbn [storage]. rewrite restoreState_stored.
  cbn [memory]. repeat split. exact Hrec.
Qed.

Lemma STOP_RECORDING_is_forgotten_witness :
  isRecording
    (memory (wake (process true
                     (process true fresh
                        (START_SESSION Pipeline.example_env "example.com"))
                     STOP_RECORDING))) = true.
Proof.
  refine (proj1 (proj2 (STOP_RECORDING_is_forgotten
                          (process true fresh
                             (START_SESSION Pipeline.example_env "example.com"))
                          _ _))); reflexivity.
Defined.

End PersistenceFacts.

(** ** The ZIP archive of a download ([client/src/background/zip-creator.ts]) *)

Module Zip.

Local Open Scope Z_scope.

(** A byte array: numbers from 0 to 255. *)
Definition bytes : Type := list Z.

(** JavaScript's bitwise operators work on 32-bit integers.  A 32-bit
    integer is kept as its unsigned residue; [x >>> n] and [x ^ y] are then
    the shift and the exclusive or of the residues. *)
Definition ToUint32 (x : Z) : Z := x mod 2 ^ 32.

Definition ushr (x n : Z) : Z := Z.shiftr (ToUint32 x) n.

Definition xor32 (x y : Z) : Z := Z.lxor (ToUint32 x) (ToUint32 y).

(** The body of the inner loop of [getCRC32Table]. *)
Definition table_step (c : Z) : Z :=
  if Z.land c 1 =? 1 then xor32 0xEDB88320 (ushr c 1) else ushr c 1.

(** [getCRC32Table()]: 256 entries, stored in a [Uint32Array]. *)
Definition getCRC32Table : list Z :=
  List.map (fun i => ToUint32 (Nat.iter 8 table_step (Z.of_nat i))) (seq 0 256).

(** [crc32(data)]. *)
Definition crc32 (data : bytes) : Z :=
  let table := getCRC32Table in
  let crc :=
    fold_left
      (fun crc byte =>
         xor32 (ushr crc 8)
               (nth (Z.to_nat (Z.land (xor32 crc byte) 0xFF)) table 0))
      data 0xFFFFFFFF in
  ushr (xor32 crc 0xFFFFFFFF) 0.

(** [DataView.setUint16(byteOffset, value, true)] and
    [DataView.setUint32(byteOffset, value, true)]: the value is taken modulo
    2^16 or 2^32 and stored little-endian.  (Every call of the code is
    within the bounds of its array.) *)
Definition setUint16 (byteOffset : nat) (value : Z) (buffer : bytes) : bytes :=
  <[(1 + byteOffset)%nat := value / 256 mod 256]>
    (<[byteOffset := value mod 256]> buffer).

Definition setUint32 (byteOffset : nat) (value : Z) (buffer : bytes) : bytes :=
  <[(3 + byteOffset)%nat := value / 16777216 mod 256]>
    (<[(2 + byteOffset)%nat := value / 65536 mod 256]>
       (<[(1 + byteOffset)%nat := value / 256 mod 256]>
          (<[byteOffset := value mod 256]> buffer))).

(** [target.set(source, offset)], for a source that fits. *)
Definition set (source : bytes) (offset : nat) (target : bytes) : bytes :=
  take offset target ++ source ++ drop (offset + length source)%nat target.

(** [new Uint8Array(length)]. *)
Definition Uint8Array (length : nat) : bytes := replicate length 0.

(** The bytes of an encoded string, and [String.fromCharCode] on each byte
    of an array. *)
Definition bytes_of_string (s : string) : bytes :=
  List.map (fun c => Z.of_N (N_of_ascii c)) (list_ascii_of_string s).

Definition string_of_bytes (b : bytes) : string :=
  string_of_list_ascii (List.map (fun z => ascii_of_N (Z.to_N z)) b).

Record ZipEntry : Type := { name : string; content : string }.

(** The local file header of an entry, followed by its name and content. *)
Definition localHeader_of (nameBytes contentBytes : bytes) (crc : Z) : bytes :=
  let localHeader :=
    Uint8Array (30 + length nameBytes + length contentBytes) in
  let localHeader := setUint32 0 0x04034b50 localHeader in
  let localHeader := setUint16 4 20 localHeader in
  let localHeader := setUint16 6 0 localHeader in
  let localHeader := setUint16 8 0 localHeader in
  let localHeader := setUint16 10 0 localHeader in
  let localHeader := setUint16 12 0 localHeader in
  let localHeader := setUint32 14 crc localHeader in
  let localHeader := setUint32 18 (Z.of_nat (length contentBytes)) localHeader in
  let localHeader := setUint32 22 (Z.of_nat (length contentBytes)) localHeader in
  let localHeader := setUint16 26 (Z.of_nat (length nameBytes)) localHeader in
  let localHeader := setUint16 28 0 localHeader in
  let localHeader := set nameBytes 30 localHeader in
  set contentBytes (30 + length nameBytes) localHeader.

(** The central directory header of an entry, followed by its name. *)
Definition centralHeader_of (nameBytes contentBytes : bytes) (crc : Z)
    (offset : nat) : bytes :=
  let centralHeader := Uint8Array (46 + length nameBytes) in
  let centralHeader := setUint32 0 0x02014b50 centralHeader in
  let centralHeader := setUint16 4 20 centralHeader in
  let centralHeader := setUint16 6 20 centralHeader in
  let centralHeader := setUint16 8 0 centralHeader in
  let centralHeader := setUint16 10 0 centralHeader in
  let centralHeader := setUint16 12 0 centralHeader in
  let centralHeader := setUint16 14 0 centralHeader in
  let centralHeader := setUint32 16 crc centralHeader in
  let centralHeader := setUint32 20 (Z.of_nat (length contentBytes)) centralHeader in
  let centralHeader := setUint32 24 (Z.of_nat (length contentBytes)) centralHeader in
  let centralHeader := setUint16 28 (Z.of_nat (length nameBytes)) centralHeader in
  let centralHeader := setUint16 30 0 centralHeader in
  let centralHeader := setUint16 32 0 centralHeader in
  let centralHeader := setUint16 34 0 centralHeader in
  let centralHeader := setUint16 36 0 centralHeader in
  let centralHeader := setUint32 38 0 centralHeader in
  let centralHeader := setUint32 42 (Z.of_nat offset) centralHeader in
  set nameBytes 46 centralHeader.

(** What the loop over the entries builds. *)
Record Built : Type := {
  localFileHeaders : list bytes;
  centralDirectoryHeaders : list bytes;
  offset : nat
}.

Definition add_entry `{WebCrypto} (built : Built) (entry : ZipEntry) : Built :=
  let nameBytes := bytes_of_string (TextEncoder_encode (name entry)) in
  let contentBytes := bytes_of_string (TextEncoder_encode (content entry)) in
  let crc := crc32 contentBytes in
  let localHeader := localHeader_of nameBytes contentBytes crc in
  let centralHeader :=
    centralHeader_of nameBytes contentBytes crc (offset built) in
  {| localFileHeaders := localFileHeaders built ++ [localHeader];
     centralDirectoryHeaders := centralDirectoryHeaders built ++ [centralHeader];
     offset := (offset built + length localHeader)%nat |}.

(** The end of central directory record. *)
Definition endOfCentralDir_of (entries_length centralDirectorySize
    centralDirectoryOffset : nat) : bytes :=
  let endOfCentralDir := Uint8Array 22 in
  let endOfCentralDir := setUint32 0 0x06054b50 endOfCentralDir in
  let endOfCentralDir := setUint16 4 0 endOfCentralDir in
  let endOfCentralDir := setUint16 6 0 endOfCentralDir in
  let endOfCentralDir := setUint16 8 (Z.of_nat entries_length) endOfCentralDir in
  let endOfCentralDir := setUint16 10 (Z.of_nat entries_length) endOfCentralDir in
  let endOfCentralDir :=
    setUint32 12 (Z.of_nat centralDirectorySize) endOfCentralDir in
  let endOfCentralDir :=
    setUint32 16 (Z.of_nat centralDirectoryOffset) endOfCentralDir in
  setUint16 20 0 endOfCentralDir.

(** One round of [zipData.set(header, pos); pos += header.length]. *)
Definition place (acc : bytes * nat) (header : bytes) : bytes * nat :=
  (set header (snd acc) (fst acc), (snd acc + length header)%nat).

(** The array [createZip] encodes in base64. *)
Definition zipData `{WebCrypto} (entries : list ZipEntry) : bytes :=
  let built :=
    fold_left add_entry entries
      {| localFileHeaders := []; centralDirectoryHeaders := []; offset := 0 |} in
  let centralDirectorySize :=
    fold_left (fun sum h => (sum + length h)%nat)
              (centralDirectoryHeaders built) 0%nat in
  let centralDirectoryOffset := offset built in
  let endOfCentralDir :=
    endOfCentralDir_of (length entries) centralDirectorySize
                       centralDirectoryOffset in
  let totalLength := (offset built + centralDirectorySize + 22)%nat in
  let zipData := Uint8Array totalLength in
  let acc := fold_left place (localFileHeaders built) (zipData, 0%nat) in
  let acc := fold_left place (centralDirectoryHeaders built) acc in
  set endOfCentralDir (snd acc) (fst acc).

Definition createZip `{WebCrypto} (entries : list ZipEntry) : string :=
  btoa (string_of_bytes (zipData entries)).

End Zip.

Module ZipFacts.

Import Zip.

Local Open Scope Z_scope.

(** *** The layout of the headers *)

(** Little-endian fields. *)
Definition le16 (v : Z) : bytes := [v mod 256; v / 256 mod 256].

Definition le32 (v : Z) : bytes :=
  [v mod 256; v / 256 mod 256; v / 65536 mod 256; v / 16777216 mod 256].

(** The 30 bytes of a local file header. *)
Definition local_fixed (nameLength contentLength : nat) (crc : Z) : bytes :=
  le32 0x04034b50 ++ le16 20 ++ le16 0 ++ le16 0 ++ le16 0 ++ le16 0
  ++ le32 crc ++ le32 (Z.of_nat contentLength) ++ le32 (Z.of_nat contentLength)
  ++ le16 (Z.of_nat nameLength) ++ le16 0.

(** The 46 bytes of a central directory header. *)
Definition central_fixed (nameLength contentLength : nat) (crc : Z)
    (offset : nat) : bytes :=
  le32 0x02014b50 ++ le16 20 ++ le16 20 ++ le16 0 ++ le16 0 ++ le16 0 ++ le16 0
  ++ le32 crc ++ le32 (Z.of_nat contentLength) ++ le32 (Z.of_nat contentLength)
  ++ le16 (Z.of_nat nameLength) ++ le16 0 ++ le16 0 ++ le16 0 ++ le16 0
  ++ le32 0 ++ le32 (Z.of_nat offset).

(** The 22 bytes of the end of central directory record. *)
Definition end_record (count size offset : nat) : bytes :=
  le32 0x06054b50 ++ le16 0 ++ le16 0
  ++ le16 (Z.of_nat count) ++ le16 (Z.of_nat count)
  ++ le32 (Z.of_nat size) ++ le32 (Z.of_nat offset) ++ le16 0.

Lemma set_fill (front source : bytes) (offset n m : nat) :
  length front = offset -> length source = n ->
  set source offset (front ++ replicate (n + m) 0)
  = (front ++ source) ++ replicate m 0.
Proof.
  intros <- <-. unfold set.
  rewrite take_app_length, drop_app_add', drop_replicate by reflexivity.
  rewrite <- app_assoc. do 3 f_equal. lia.
Qed.

Lemma set_fill_exact (front source : bytes) (offset n : nat) :
  length front = offset -> length source = n ->
  set source offset (front ++ replicate n 0) = front ++ source.
Proof.
  intros Hf Hs. rewrite <- (Nat.add_0_r n).
  rewrite (set_fill front source offset n 0 Hf Hs).
  apply app_nil_r.
Qed.

Lemma localHeader_of_layout (nameBytes contentBytes : bytes) (crc : Z) :
  localHeader_of nameBytes contentBytes crc
  = local_fixed (length nameBytes) (length contentBytes) crc
    ++ nameBytes ++ contentBytes.
Proof.
  unfold localHeader_of, Uint8Array.
  rewrite <- Nat.add_assoc, (replicate_add 30).
  set (rest := replicate (length nameBytes + length contentBytes)%nat 0).
  change (setUint16 28 0 _)
    with (local_fixed (length nameBytes) (length contentBytes) crc ++ rest).
  subst rest.
  rewrite (set_fill _ nameBytes 30 (length nameBytes)) by reflexivity.
  rewrite (set_fill_exact _ contentBytes _ (length contentBytes));
    [| rewrite length_app; reflexivity | reflexivity].
  rewrite <- app_assoc. reflexivity.
Qed.

Lemma centralHeader_of_layout (nameBytes contentBytes : bytes) (crc : Z)
    (offset : nat) :
  centralHeader_of nameBytes contentBytes crc offset
  = central_fixed (length nameBytes) (length contentBytes) crc offset
    ++ nameBytes.
Proof.
  unfold centralHeader_of, Uint8Array.
  rewrite (replicate_add 46).
  set (rest := replicate (length nameBytes) 0).
  change (setUint32 42 _ _)
    with (central_fixed (length nameBytes) (length contentBytes) crc offset
          ++ rest).
  subst rest.
  apply set_fill_exact; reflexivity.
Qed.

Lemma endOfCentralDir_of_layout (count size offset : nat) :
  endOfCentralDir_of count size offset = end_record count size offset.
Proof. reflexivity. Qed.

(** *** The layout of the archive *)

Definition nameBytes_of `{WebCrypto} (entry : ZipEntry) : bytes :=
  bytes_of_string (TextEncoder_encode (name entry)).

Definition contentBytes_of `{WebCrypto} (entry : ZipEntry) : bytes :=
  bytes_of_string (TextEncoder_encode (content entry)).

Definition local_of `{WebCrypto} (entry : ZipEntry) : bytes :=
  local_fixed (length (nameBytes_of entry)) (length (contentBytes_of entry))
              (crc32 (contentBytes_of entry))
  ++ nameBytes_of entry ++ contentBytes_of entry.

Definition central_of `{WebCrypto} (entry : ZipEntry) (offset : nat) : bytes :=
  central_fixed (length (nameBytes_of entry)) (length (contentBytes_of entry))
                (crc32 (contentBytes_of entry)) offset
  ++ nameBytes_of entry.

(** The central directory of entries whose local headers start at
    [offset]. *)
Fixpoint centrals `{WebCrypto} (offset : nat) (entries : list ZipEntry)
  : list bytes :=
  match entries with
  | [] => []
  | entry :: rest =>
      central_of entry offset
      :: centrals (offset + length (local_of entry))%nat rest
  end.

Lemma add_entry_fold `{WebCrypto} (entries : list ZipEntry) :
  forall built : Built,
    fold_left add_entry entries built
    = {| localFileHeaders :=
           localFileHeaders built ++ List.map local_of entries;
         centralDirectoryHeaders :=
           centralDirectoryHeaders built ++ centrals (offset built) entries;
         offset :=
           (offset built + length (concat (List.map local_of entries)))%nat |}.
Proof.
  induction entries as [|entry rest IH]; intros built.
  - cbn. rewrite !app_nil_r, Nat.add_0_r. destruct built; reflexivity.
  - cbn [fold_left]. rewrite IH. unfold add_entry.
    cbn [localFileHeaders centralDirectoryHeaders offset List.map centrals concat].
    rewrite localHeader_of_layout, centralHeader_of_layout.
    fold (nameBytes_of entry) (contentBytes_of entry).
    fold (local_of entry) (central_of entry (offset built)).
    rewrite <- !app_assoc. cbn [app]. f_equal.
    rewrite length_app. lia.
Qed.

Lemma place_fill (parts : list bytes) :
  forall (front : bytes) (m : nat),
    fold_left place parts
      (front ++ replicate (length (concat parts) + m) 0, length front)
    = (front ++ concat parts ++ replicate m 0,
       (length front + length (concat parts))%nat).
Proof.
  induction parts as [|part rest IH]; intros front m.
  - cbn. rewrite Nat.add_0_r. reflexivity.
  - cbn [fold_left concat]. unfold place at 2. cbn [fst snd].
    rewrite length_app, <- Nat.add_assoc.
    rewrite (set_fill front part (length front) (length part)) by reflexivity.
    rewrite <- length_app, IH, length_app, <- !app_assoc.
    f_equal. lia.
Qed.

Lemma sum_lengths (parts : list bytes) :
  forall n : nat,
    fold_left (fun sum h => (sum + length h)%nat) parts n
    = (n + length (concat parts))%nat.
Proof.
  induction parts as [|part rest IH]; intros n; cbn [fold_left concat].
  - cbn. lia.
  - rewrite IH, length_app. lia.
Qed.

(** The archive is the local headers with their data, the central
    directory and the end record, one after the other. *)
Lemma zipData_layout `{WebCrypto} (entries : list ZipEntry) :
  zipData entries
  = concat (List.map local_of entries)
    ++ concat (centrals 0 entries)
    ++ end_record (length entries)
                  (length (concat (centrals 0 entries)))
                  (length (concat (List.map local_of entries))).
Proof.
  unfold zipData. rewrite add_entry_fold.
  cbn [localFileHeaders centralDirectoryHeaders offset app].
  rewrite sum_lengths, !Nat.add_0_l, endOfCentralDir_of_layout.
  unfold Uint8Array.
  rewrite <- Nat.add_assoc.
  pose proof (place_fill (List.map local_of entries) []
                (length (concat (centrals 0 entries)) + 22)) as Hlocals.
  cbn [app length] in Hlocals. unfold bytes in *.
  rewrite Hlocals, Nat.add_0_l. clear Hlocals.
  pose proof (place_fill (centrals 0 entries)
                (concat (List.map local_of entries)) 22) as Hcentrals.
  unfold bytes in *. rewrite Hcentrals. clear Hcentrals.
  cbn [fst snd].
  rewrite app_assoc.
  rewrite (set_fill_exact _ (end_record _ _ _) _ 22);
    [| rewrite length_app; reflexivity | reflexivity].
  rewrite <- app_assoc. reflexivity.
Qed.

(** *** Reading the archive back *)

Definition rd16 (b0 b1 : Z) : Z := b0 + 256 * b1.

Definition rd32 (b0 b1 b2 b3 : Z) : Z :=
  b0 + 256 * b1 + 65536 * b2 + 16777216 * b3.

(** The local file header at the front of a byte list: the CRC it records,
    the file name and the stored content. *)
Definition read_local (at_offset : bytes) : option (Z * bytes * bytes) :=
  match at_offset with
  | s0 :: s1 :: s2 :: s3 :: _ :: _ :: _ :: _ :: m0 :: m1 :: _ :: _ :: _ :: _
    :: c0 :: c1 :: c2 :: c3 :: z0 :: z1 :: z2 :: z3 :: _ :: _ :: _ :: _
    :: n0 :: n1 :: x0 :: x1 :: rest =>
      if (rd32 s0 s1 s2 s3 =? 0x04034b50) && (rd16 m0 m1 =? 0) then
        let n := Z.to_nat (rd16 n0 n1) in
        let x := Z.to_nat (rd16 x0 x1) in
        let size := Z.to_nat (rd32 z0 z1 z2 z3) in
        if (n + x + size <=? length rest)%nat then
          Some (rd32 c0 c1 c2 c3, take n rest, take size (drop (n + x) rest))
        else None
      else None
  | _ => None
  end.

(** [count] central directory headers at the front of [directory]; each
    names a local header of [zip], whose name and CRC must agree and whose
    content must have the recorded size and CRC. *)
Fixpoint read_central (zip : bytes) (count : nat) (directory : bytes)
  : option (list (bytes * bytes)) :=
  match count with
  | O => Some []
  | S count' =>
      match directory with
      | s0 :: s1 :: s2 :: s3 :: _ :: _ :: _ :: _ :: _ :: _ :: m0 :: m1
        :: _ :: _ :: _ :: _ :: c0 :: c1 :: c2 :: c3 :: z0 :: z1 :: z2 :: z3
        :: _ :: _ :: _ :: _ :: n0 :: n1 :: x0 :: x1 :: k0 :: k1
        :: _ :: _ :: _ :: _ :: _ :: _ :: _ :: _ :: o0 :: o1 :: o2 :: o3
        :: rest =>
          if (rd32 s0 s1 s2 s3 =? 0x02014b50) && (rd16 m0 m1 =? 0) then
            let n := Z.to_nat (rd16 n0 n1) in
            let x := Z.to_nat (rd16 x0 x1) in
            let k := Z.to_nat (rd16 k0 k1) in
            let size := Z.to_nat (rd32 z0 z1 z2 z3) in
            let crc := rd32 c0 c1 c2 c3 in
            let name := take n rest in
            match read_local (drop (Z.to_nat (rd32 o0 o1 o2 o3)) zip) with
            | Some (crc', name', content) =>
                if (crc' =? crc) && (crc32 content =? crc)
                   && bool_decide (name' = name)
                   && (length content =? size)%nat
                   && (n <=? length rest)%nat
                then
                  match read_central zip count' (drop (n + x + k) rest) with
                  | Some files => Some ((name, content) :: files)
                  | None => None
                  end
                else None
            | None => None
            end
          else None
      | _ => None
      end
  end.

(** Reading an archive without comment: the end record is its last 22
    bytes, and gives the number of entries and the place of the central
    directory. *)
Definition unzip (zip : bytes) : option (list (bytes * bytes)) :=
  match drop (length zip - 22) zip with
  | [ s0; s1; s2; s3; _; _; _; _; _; _; t0; t1; _; _; _; _;
      o0; o1; o2; o3; _; _ ] =>
      if rd32 s0 s1 s2 s3 =? 0x06054b50 then
        read_central zip (Z.to_nat (rd16 t0 t1))
                     (drop (Z.to_nat (rd32 o0 o1 o2 o3)) zip)
      else None
  | _ => None
  end.

Lemma rd16_le16 (v : Z) :
  0 <= v < 65536 -> rd16 (v mod 256) (v / 256 mod 256) = v.
Proof. intros Hv. unfold rd16. Z.div_mod_to_equations. lia. Qed.

Lemma rd32_le32 (v : Z) :
  0 <= v < 4294967296 ->
  rd32 (v mod 256) (v / 256 mod 256) (v / 65536 mod 256) (v / 16777216 mod 256)
  = v.
Proof. intros Hv. unfold rd32. Z.div_mod_to_equations. lia. Qed.

Lemma crc32_range (data : bytes) : 0 <= crc32 data < 4294967296.
Proof.
  unfold crc32, ushr. rewrite Z.shiftr_0_r. unfold ToUint32.
  apply Z.mod_pos_bound. reflexivity.
Qed.

Lemma read_local_layout (name content after : bytes) (crc : Z) :
  Z.of_nat (length name) < 65536 ->
  Z.of_nat (length content) < 4294967296 ->
  0 <= crc < 4294967296 ->
  read_local
    ((local_fixed (length name) (length content) crc ++ name ++ content)
     ++ after)
  = Some (crc, name, content).
Proof.
  intros Hn Hc Hcrc.
  unfold local_fixed, le32, le16, read_local. cbn [app].
  rewrite !rd32_le32, !rd16_le16 by lia.
  rewrite Z.eqb_refl. cbn [andb Z.eqb].
  rewrite !Nat2Z.id. change (Z.to_nat 0) with 0%nat. rewrite !Nat.add_0_r.
  rewrite <- !app_assoc, !length_app.
  replace (length name + length content <=?
           length name + (length content + length after))%nat with true
    by (symmetry; apply Nat.leb_le; lia).
  rewrite take_app_length, drop_app_length, take_app_length. reflexivity.
Qed.

(** The names and contents that are archived. *)
Definition files_of `{WebCrypto} (entries : list ZipEntry)
  : list (bytes * bytes) :=
  List.map (fun entry => (nameBytes_of entry, contentBytes_of entry)) entries.

Lemma read_central_layout `{WebCrypto} (entries : list ZipEntry) :
  forall (front back after : bytes),
    Forall (fun entry => Z.of_nat (length (nameBytes_of entry)) < 65536)
           entries ->
    Z.of_nat (length front + length (concat (List.map local_of entries)))
    < 4294967296 ->
    read_central (front ++ concat (List.map local_of entries) ++ back)
                 (length entries)
                 (concat (centrals (length front) entries) ++ after)
    = Some (files_of entries).
Proof.
  induction entries as [|entry rest IH]; intros front back after Hnames Hsize.
  - reflexivity.
  - apply Forall_cons_1 in Hnames. destruct Hnames as [Hname Hnames].
    cbn [List.map concat length centrals files_of] in *.
    rewrite length_app in Hsize.
    assert (Hlocal : (length (local_of entry)
                      = 30 + length (nameBytes_of entry)
                        + length (contentBytes_of entry))%nat).
    { unfold local_of. rewrite !length_app. cbn [length local_fixed].
      reflexivity. }
    pose proof (crc32_range (contentBytes_of entry)) as Hcrc.
    unfold central_of at 1.
    unfold central_fixed, le32, le16. cbn [app read_central].
    rewrite !rd32_le32, !rd16_le16 by lia.
    rewrite Z.eqb_refl. cbn [andb Z.eqb].
    rewrite !Nat2Z.id. change (Z.to_nat 0) with 0%nat. rewrite !Nat.add_0_r.
    rewrite drop_app_length.
    unfold local_of at 1. rewrite <- (app_assoc _ _ back).
    rewrite read_local_layout by lia.
    rewrite <- !app_assoc, take_app_length, drop_app_length.
    rewrite !Z.eqb_refl, Nat.eqb_refl, bool_decide_eq_true_2 by reflexivity.
    rewrite length_app.
    replace (length (nameBytes_of entry) <=?
             length (nameBytes_of entry)
             + length (concat (centrals (length front + length (local_of entry))
                                 rest) ++ after))%nat
      with true by (symmetry; apply Nat.leb_le; lia).
    cbn [andb].
    pose proof (IH (front ++ local_of entry) back after Hnames) as Hrest.
    rewrite length_app, <- !app_assoc in Hrest.
    rewrite Hrest by lia. reflexivity.
Qed.

(** Sizes that fit their fields: fewer than 2^16 entries, names of fewer
    than 2^16 bytes, and fewer than 2^32 bytes of local headers and data. *)
Definition fits `{WebCrypto} (entries : list ZipEntry) : Prop :=
  Z.of_nat (length entries) < 65536
  /\ Forall (fun entry => Z.of_nat (length (nameBytes_of entry)) < 65536) entries
  /\ Z.of_nat (length (concat (List.map local_of entries))) < 4294967296.

(** The archive [createZip] encodes can be read back: the end record leads
    to the central directory, each of its headers to a local header with
    the same name and CRC, followed by the content, whose CRC-32 is the
    recorded one; the files read are the entries' encoded names and
    contents, in order. *)
Theorem unzip_zipData `{WebCrypto} `{!WebCryptoLaws} (entries : list ZipEntry) :
  fits entries ->
  unzip (zipData entries) = Some (files_of entries)
  /\ atob (createZip entries) = Some (string_of_bytes (zipData entries)).
Proof.
  intros (Hcount & Hnames & Hsize). split; [| apply atob_btoa].
  rewrite zipData_layout. unfold unzip.
  set (locals := concat (List.map local_of entries)) in *.
  set (directory := concat (centrals 0 entries)).
  rewrite !length_app.
  replace (length locals + (length directory
             + length (end_record (length entries) (length directory)
                                  (length locals))) - 22)%nat
    with (length locals + length directory)%nat
    by (cbn [length end_record app le32 le16]; lia).
  rewrite app_assoc, <- length_app, drop_app_length.
  unfold end_record, le32, le16. cbn [app].
  rewrite !rd32_le32, !rd16_le16 by lia.
  rewrite Z.eqb_refl, !Nat2Z.id.
  rewrite <- app_assoc, drop_app_length.
  match goal with
  | |- read_central (_ ++ _ ++ ?record) _ _ = _ =>
      exact (read_central_layout entries [] (directory ++ record) record
               Hnames Hsize)
  end.
Qed.

(** An archive of two small files on the symbolic platform. *)
Definition two_files : list ZipEntry :=
  [ {| name := "document.txt"; content := "some text" |};
    {| name := "README.txt"; content := "HumanSign" |} ].

Lemma unzip_zipData_witness :
  unzip (zipData (H := Symbolic.platform) two_files)
  = Some (files_of (H := Symbolic.platform) two_files).
Proof.
  refine (proj1 (@unzip_zipData Symbolic.platform SymbolicFacts.platform_laws
                   two_files _)).
  split; [reflexivity | split; [repeat constructor | reflexivity]].
Defined.

End ZipFacts.

(** ** Dwell and flight times of an ordered keystroke record *)

Module TimingFacts.

Import JS JSFacts Types Background.

(** Events in the order of their timestamps. *)
Definition in_time_order (events : list KeystrokeEvent) : Prop :=
  StronglySorted (fun a b => client_timestamp a <= client_timestamp b) events.

Definition keydowns (events : list KeystrokeEvent) : nat :=
  length (List.filter (fun e => EventType_eqb (event_type e) keydown) events).

Lemma find_in_rest (e : KeystrokeEvent) (rest : list KeystrokeEvent)
    (e' : KeystrokeEvent) :
  List.find (is_matching_keyup e) rest = Some e' -> In e' rest.
Proof. intros Hfind. apply List.find_some in Hfind. tauto. Qed.

Lemma timings_nonnegative (events : list KeystrokeEvent) :
  forall lastKeyup : number,
    Forall (fun e => lastKeyup <= client_timestamp e) events ->
    in_time_order events ->
    Forall (Qle 0) (fst (timings lastKeyup events))
    /\ Forall (Qle 0) (snd (timings lastKeyup events)).
Proof.
  induction events as [|e rest IH]; intros lastKeyup Hafter Hsorted.
  - split; constructor.
  - apply Forall_cons_1 in Hafter. destruct Hafter as [He Hafter].
    apply StronglySorted_inv in Hsorted. destruct Hsorted as [Hsorted Hhead].
    cbn [timings]. destruct (event_type e).
    + destruct (IH lastKeyup Hafter Hsorted) as [Hd Hf].
      destruct (timings lastKeyup rest) as [ds fs]. cbn [fst snd] in *.
      split.
      * destruct (List.find (is_matching_keyup e) rest) as [e'|] eqn:Hfind;
          [| exact Hd].
        constructor; [| exact Hd].
        apply find_in_rest in Hfind.
        rewrite List.Forall_forall in Hhead. specialize (Hhead e' Hfind).
        apply Qle_minus_iff in Hhead. exact Hhead.
      * destruct (gt lastKeyup 0); [| exact Hf].
        constructor; [| exact Hf].
        apply Qle_minus_iff in He. exact He.
    + apply IH; [| exact Hsorted].
      rewrite List.Forall_forall in Hhead. apply List.Forall_forall.
      exact Hhead.
    + apply IH; assumption.
    + apply IH; assumption.
Qed.

Lemma timings_lengths (events : list KeystrokeEvent) :
  forall lastKeyup : number,
    (length (fst (timings lastKeyup events)) <= keydowns events)%nat
    /\ (length (snd (timings lastKeyup events)) <= keydowns events)%nat.
Proof.
  unfold keydowns.
  induction events as [|e rest IH]; intros lastKeyup; [split; constructor |].
  cbn [timings List.filter]. destruct (event_type e); cbn [EventType_eqb].
  - destruct (IH lastKeyup) as [Hd Hf].
    destruct (timings lastKeyup rest) as [ds fs]. cbn [fst snd length] in *.
    rewrite !length_app. unfold number in *. split.
    + destruct (List.find _ rest); cbn [length]; lia.
    + destruct (gt lastKeyup 0); cbn [length]; lia.
  - apply IH.
  - apply IH.
  - apply IH.
Qed.

Lemma sum_from_nonnegative (xs : list number) :
  forall acc : number, 0 <= acc -> Forall (Qle 0) xs ->
                       0 <= fold_left Qplus xs acc.
Proof.
  induction xs as [|x xs IH]; intros acc Hacc Hxs; [exact Hacc |].
  apply Forall_cons_1 in Hxs. destruct Hxs as [Hx Hxs].
  cbn [fold_left]. apply IH; [| exact Hxs].
  rewrite <- (Qplus_0_r 0). apply Qplus_le_compat; assumption.
Qed.

Lemma average_nonnegative (xs : list number) :
  Forall (Qle 0) xs -> 0 <= average xs.
Proof.
  intros Hxs. unfold average.
  destruct (0 <? Z.of_nat (length xs))%Z eqn:Hlen; [| apply Qle_refl].
  apply Z.ltb_lt in Hlen.
  apply Qle_shift_div_l.
  - unfold Qlt. simpl. lia.
  - rewrite Qmult_0_l. apply sum_from_nonnegative; [apply Qle_refl | exact Hxs].
Qed.

(** For a keystroke record in the order of its timestamps, none of them
    negative, every dwell time and every flight time [calculateStats]
    computes is non-negative, so are the two averages, and there are at most
    as many of each as there are keydown events. *)
Theorem calculateStats_timings (now : number) (s : SessionState) :
  in_time_order (keystrokes s) ->
  Forall (fun e => 0 <= client_timestamp e) (keystrokes s) ->
  let stats := calculateStats now s in
  Forall (Qle 0) (Stats.dwellTimes stats)
  /\ Forall (Qle 0) (Stats.flightTimes stats)
  /\ 0 <= Stats.avgDwell stats
  /\ 0 <= Stats.avgFlight stats
  /\ (Z.of_nat (length (Stats.dwellTimes stats)) <= Stats.keystrokeCount stats)%Z
  /\ (Z.of_nat (length (Stats.flightTimes stats)) <= Stats.keystrokeCount stats)%Z.
Proof.
  intros Hsorted Hafter.
  destruct (timings_nonnegative (keystrokes s) 0 Hafter Hsorted) as [Hd Hf].
  destruct (timings_lengths (keystrokes s) 0) as [Hld Hlf].
  unfold keydowns in Hld, Hlf.
  unfold calculateStats.
  destruct (timings 0 (keystrokes s)) as [dwellTimes flightTimes].
  destruct (currentVerdict_of s _) as [v c].
  cbn [Stats.dwellTimes Stats.flightTimes Stats.avgDwell Stats.avgFlight
       Stats.keystrokeCount fst snd] in *.
  unfold number in *.
  repeat split; try assumption; try (apply average_nonnegative; assumption); lia.
Qed.

Lemma calculateStats_timings_witness :
  0 <= Stats.avgDwell (calculateStats 5000 Pipeline.fifteen_typed).
Proof.
  assert (Hsorted : in_time_order (keystrokes Pipeline.fifteen_typed)).
  { unfold in_time_order. vm_compute keystrokes.
    repeat (constructor; [| repeat (constructor; [discriminate |]); constructor]).
    constructor. }
  assert (Hafter : Forall (fun e => 0 <= client_timestamp e)
                          (keystrokes Pipeline.fifteen_typed)).
  { vm_compute keystrokes. repeat (constructor; [discriminate |]). constructor. }
  pose proof (calculateStats_timings 5000 Pipeline.fifteen_typed Hsorted Hafter)
    as Htimings.
  cbv zeta in Htimings. destruct Htimings as (_ & _ & Havg & _).
  exact Havg.
Defined.

End TimingFacts.

(** ** The tracker's status *)

Module StatusFacts.

Import JS Types Pipeline.

Lemma accepted_nonnegative (t : Tracker.KeystrokeTracker) (a : Action) :
  (0 <= typed (accepted t a))%Z /\ (0 <= pasted (accepted t a))%Z
  /\ (0 <= assistant (accepted t a))%Z.
Proof.
  destruct a as [event now d | event now d | data now d | clipboard now d
                | src ty text now dwell flight d | | now d | now d];
    cbn [accepted]; try (cbn; lia).
  - destruct (_ && _); cbn; lia.
  - destruct data; [destruct (_ && _) |]; cbn; lia.
  - destruct clipboard; [| cbn; lia].
    destruct (Tracker.isTracking t); [| cbn; lia].
    destruct (Tracker.sessionId t) as [[|c0 r0]|]; try (cbn; lia).
    destruct (Tracker.ai_window now t); cbn; lia.
  - destruct src; [| cbn; lia].
    destruct ty; [| cbn; lia]. destruct text; [| cbn; lia].
    destruct (String.eqb _ _); cbn; lia.
Qed.

Lemma counters_grow (actions : list Action) :
  forall sys : System,
    (Tracker.totalTypedChars (fst sys)
     <= Tracker.totalTypedChars (fst (run sys actions)))%Z
    /\ (Tracker.totalPastedChars (fst sys)
        <= Tracker.totalPastedChars (fst (run sys actions)))%Z.
Proof.
  induction actions as [|a rest IH]; intros sys; [split; reflexivity |].
  rewrite PipelineFacts.run_cons.
  destruct (IH (step sys a)) as [Ht Hp].
  rewrite PipelineFacts.step_eq in Ht, Hp. cbn [fst] in Ht, Hp.
  destruct (PipelineFacts.handle_tracker_tally (fst sys) a) as [Et Ep].
  destruct (accepted_nonnegative (fst sys) a) as (H1 & H2 & H3).
  rewrite PipelineFacts.step_eq. lia.
Qed.

(** Over any run of capture actions the tracker's two counters never
    decrease; starting from counters that are not negative, the status it
    reports has a paste ratio between 0 and 1, which is 0 when nothing has
    been counted. *)
Theorem status_after_run (sys : System) (actions : list Action) :
  (0 <= Tracker.totalTypedChars (fst sys))%Z ->
  (0 <= Tracker.totalPastedChars (fst sys))%Z ->
  let status := Tracker.status (fst (run sys actions)) in
  (Tracker.totalTypedChars (fst sys) <= Tracker.Status.typedChars status)%Z
  /\ (Tracker.totalPastedChars (fst sys) <= Tracker.Status.pastedChars status)%Z
  /\ 0 <= Tracker.Status.pasteRatio status <= 1
  /\ ((Tracker.Status.typedChars status + Tracker.Status.pastedChars status = 0)%Z
      -> Tracker.Status.pasteRatio status = 0).
Proof.
  intros Ht0 Hp0. destruct (counters_grow actions sys) as [Ht Hp].
  unfold Tracker.status. cbv zeta.
  cbn [Tracker.Status.typedChars Tracker.Status.pastedChars
       Tracker.Status.pasteRatio].
  set (t := Tracker.totalTypedChars (fst (run sys actions))) in *.
  set (p := Tracker.totalPastedChars (fst (run sys actions))) in *.
  split; [exact Ht |]. split; [exact Hp |]. split.
  - destruct (0 <? t + p)%Z eqn:Htotal; [| split; discriminate].
    apply Z.ltb_lt in Htotal. split.
    + apply Qle_shift_div_l; [unfold Qlt; simpl; lia |].
      rewrite Qmult_0_l. unfold Qle. simpl. lia.
    + apply Qle_shift_div_r; [unfold Qlt; simpl; lia |].
      rewrite Qmult_1_l. unfold Qle. simpl. lia.
  - intros Hzero. rewrite Hzero. reflexivity.
Qed.

Lemma status_after_run_witness :
  0 <= Tracker.Status.pasteRatio
         (Tracker.status (fst (run recording suggestion_accepted))) <= 1.
Proof.
  pose proof (status_after_run recording suggestion_accepted) as Hstatus.
  cbv zeta in Hstatus.
  destruct Hstatus as (_ & _ & Hratio & _); [reflexivity | reflexivity |].
  exact Hratio.
Defined.

End StatusFacts.
